(** * ImageReader: the image minibatch reader of CNTK

    A shallow embedding of [DataReader/ImageReader/ImageReader.cpp]: the
    three image transforms (crop, scale, mean subtraction), the pools of
    random generators they borrow from, the manifest loader and the
    epoch / minibatch iterator of [ImageReader], followed by the properties
    proved about them.

    Conventions.
    - [size_t] is a 64-bit unsigned integer: a [Z] in [0, 2^64) with the
      wrap-around written out ([size_add], [size_mul], [size_sub]).
    - [int] values are [Z]; conversions that C++ leaves undefined fail.
    - [double] and [float] values are [spec_float] (IEEE 754 binary64 and
      binary32 as specified in the standard library), operations are the
      correctly rounded ones ([SFmul 53 1024], ...).
    - A C++ exception, a failed [assert] and undefined behaviour are the
      [Fail] results of the [outcome] monad.
    - What the translation unit takes from other headers and libraries
      (OpenCV pixel arithmetic, <random> distributions, the file system,
      constants of DataReader.h) is a field of the [Platform] class. *)

From Stdlib Require Import ZArith Lia SpecFloat Ascii String.
From stdpp Require Import base option list gmap strings.

Local Open Scope Z_scope.

(** ** Failures *)

Inductive fmt_arg :=
| ArgStr (s : string)
| ArgInt (z : Z).

(** [RuntimeError] keeps the format string and its arguments apart, the
    rendering being printf's. *)
Inductive failure :=
| RuntimeError (fmt : string) (args : list fmt_arg)
| StdException (what : string)
| CvException (what : string)
| AssertionFailed (expr : string)
| Undefined (what : string).

Inductive outcome (A : Type) :=
| Ok (a : A)
| Fail (e : failure).
Arguments Ok {A} a.
Arguments Fail {A} e.

#[global] Instance outcome_ret : MRet outcome := fun A a => Ok a.
#[global] Instance outcome_bind : MBind outcome :=
  fun A B f m => match m with Ok a => f a | Fail e => Fail e end.

#[global] Instance outcome_fmap : FMap outcome :=
  fun A B f m => match m with Ok a => Ok (f a) | Fail e => Fail e end.

Definition is_Ok {A} (m : outcome A) : Prop := exists a, m = Ok a.

(** ** Machine integers *)

Definition SIZE_MOD : Z := 2 ^ 64.
Definition INT_MAX : Z := 2 ^ 31 - 1.
Definition INT_MIN : Z := - 2 ^ 31.

Definition to_size_t (z : Z) : Z := z mod SIZE_MOD.
Definition size_add (a b : Z) : Z := to_size_t (a + b).
Definition size_sub (a b : Z) : Z := to_size_t (a - b).
Definition size_mul (a b : Z) : Z := to_size_t (a * b).

(** [static_cast<int>(size_t)] and [static_cast<long long>(size_t)]:
    two's complement reinterpretation of the low bits. *)
Definition to_int (z : Z) : Z := (z + 2 ^ 31) mod 2 ^ 32 - 2 ^ 31.
Definition to_long_long (z : Z) : Z := (z + 2 ^ 63) mod 2 ^ 64 - 2 ^ 63.

Definition in_int (z : Z) : bool := (INT_MIN <=? z) && (z <=? INT_MAX).

(** ** Strings *)

Definition NUL : ascii := Ascii.zero.
Definition TAB : ascii := ascii_of_N 9.
Definition LF : ascii := ascii_of_N 10.
Definition COLON : ascii := ":"%char.

(** [std::tolower] in the "C" locale. *)
Definition tolower (c : ascii) : ascii :=
  let n := N_of_ascii c in
  if ((65 <=? n) && (n <=? 90))%N then ascii_of_N (n + 32) else c.

Fixpoint string_tolower (s : string) : string :=
  match s with
  | EmptyString => EmptyString
  | String c s' => String (tolower c) (string_tolower s')
  end.

(** [AreEqual]: [std::equal] over the whole of [s1] against the start of
    [s2], so [s2] is read at as many positions as [s1] has.  Reading
    [s2] at its end yields the terminator; reading further is undefined. *)
Fixpoint AreEqual (s1 s2 : string) : outcome bool :=
  match s1 with
  | EmptyString => Ok true
  | String a s1' =>
      match s2 with
      | String b s2' =>
          if Ascii.eqb (tolower a) (tolower b) then AreEqual s1' s2' else Ok false
      | EmptyString =>
          if Ascii.eqb (tolower a) (tolower NUL) then
            match s1' with
            | EmptyString => Ok true
            | String _ _ => Fail (Undefined "std::equal reads past the end of s2")
            end
          else Ok false
      end
  end.

(** [std::getline(stream, token, delim)] on what is left of a stream:
    fails when nothing is left, otherwise extracts up to and including
    the first delimiter (which is dropped) or up to the end. *)
Fixpoint split_at (delim : ascii) (s : string) : string * string :=
  match s with
  | EmptyString => (EmptyString, EmptyString)
  | String c s' =>
      if Ascii.eqb c delim then (EmptyString, s')
      else let '(t, r) := split_at delim s' in (String c t, r)
  end.

Definition getline (stream : string) (delim : ascii) : option (string * string) :=
  match stream with
  | EmptyString => None
  | String _ _ => Some (split_at delim stream)
  end.

(** The tokens that [std::getline(stream, token, delim)] yields when it
    is called until it fails. *)
Fixpoint getline_all (delim : ascii) (s : string) : list string :=
  match s with
  | EmptyString => []
  | String c s' =>
      if Ascii.eqb c delim then EmptyString :: getline_all delim s'
      else match getline_all delim s' with
           | [] => [String c EmptyString]
           | l :: ls => String c l :: ls
           end
  end.

(** The lines that repeated [std::getline(file, line)] yields. *)
Definition file_lines (s : string) : list string := getline_all LF s.

(** [std::stoi]: optional white space, optional sign, decimal digits;
    what follows the digits is ignored. *)
Definition isspace (c : ascii) : bool :=
  let n := N_of_ascii c in ((n =? 32) || ((9 <=? n) && (n <=? 13)))%N.

Definition digit_of (c : ascii) : option Z :=
  let n := N_of_ascii c in
  if ((48 <=? n) && (n <=? 57))%N then Some (Z.of_N n - 48) else None.

Fixpoint skip_space (s : string) : string :=
  match s with
  | String c s' => if isspace c then skip_space s' else s
  | EmptyString => EmptyString
  end.

Fixpoint read_digits (acc : Z) (s : string) : Z :=
  match s with
  | String c s' =>
      match digit_of c with
      | Some d => read_digits (10 * acc + d) s'
      | None => acc
      end
  | EmptyString => acc
  end.

Definition starts_with_digit (s : string) : bool :=
  match s with
  | String c _ => bool_decide (is_Some (digit_of c))
  | EmptyString => false
  end.

Definition strip_sign (s : string) : bool * string :=
  match s with
  | String "-"%char s' => (true, s')
  | String "+"%char s' => (false, s')
  | _ => (false, s)
  end.

Definition stoi (s : string) : outcome Z :=
  let '(neg, body) := strip_sign (skip_space s) in
  if starts_with_digit body then
    let v := read_digits 0 body in
    let v := if neg then - v else v in
    if in_int v then Ok v else Fail (StdException "stoi: out of range")
  else Fail (StdException "stoi: invalid argument").

(** ** Floating point *)

Definition float := spec_float.
Definition double := spec_float.

Definition double_of_int (z : Z) : double := binary_normalize 53 1024 z 0 false.
Definition double_mul (x y : double) : double := SFmul 53 1024 x y.
Definition double_of_Z_lit (m e : Z) : double := binary_normalize 53 1024 m e false.
Definition double_one : double := double_of_int 1.
Definition double_zero : double := S754_zero false.

(** A [float] read as a [double]: the value is kept, the mantissa is
    realigned to 53 bits. *)
Definition double_of_float (x : float) : double :=
  match x with
  | S754_finite s m e => binary_round 53 1024 s m e
  | _ => x
  end.

(** [static_cast<int>(double)]: truncation toward zero, undefined when the
    truncated value is no [int]. *)
Definition double_trunc (x : double) : option Z :=
  match x with
  | S754_zero _ => Some 0
  | S754_finite s m e =>
      let a := match e with
               | Zneg p => Z.pos m / 2 ^ Z.pos p
               | _ => Z.pos m * 2 ^ e
               end in
      Some (if s then - a else a)
  | _ => None
  end.

Definition double_to_int (x : double) : outcome Z :=
  match double_trunc x with
  | Some z => if in_int z then Ok z
              else Fail (Undefined "static_cast<int>: value out of range")
  | None => Fail (Undefined "static_cast<int>: not a finite value")
  end.

Definition is_double (x : double) : bool := valid_binary 53 1024 x.

(** ** Random engines

    A [std::mt19937] is determined by the seed it was constructed with and
    the number of outputs drawn from it since. *)

Record mt19937 := { mt_seed : Z; mt_drawn : N }.

Definition mt19937_new (seed : Z) : mt19937 := {| mt_seed := seed; mt_drawn := 0 |}.

Definition mt_advance (g : mt19937) (n : N) : mt19937 :=
  {| mt_seed := mt_seed g; mt_drawn := (mt_drawn g + n)%N |}.

(** ** Images

    A [cv::Mat] by value: its header and its elements in row-major order,
    channels interleaved.  Strides and sharing of the pixel buffer are not
    represented. *)

Record Mat := {
  rows : Z;
  cols : Z;
  depth : Z;
  channels : Z;
  data : list spec_float
}.

Record Rect := { rect_x : Z; rect_y : Z; rect_width : Z; rect_height : Z }.

Definition CV_8U : Z := 0.
Definition CV_32F : Z := 5.
Definition CV_64F : Z := 6.
Definition INTER_NEAREST : Z := 0.
Definition INTER_LINEAR : Z := 1.
Definition INTER_CUBIC : Z := 2.
Definition INTER_LANCZOS4 : Z := 4.

Definition CV_MAT_DEPTH (flags : Z) : Z := Z.land flags 7.
Definition CV_MAKETYPE (d cn : Z) : Z := CV_MAT_DEPTH d + Z.shiftl (cn - 1) 3.

Definition Mat_type (m : Mat) : Z := CV_MAKETYPE (depth m) (channels m).
Definition Mat_empty (m : Mat) : bool := (rows m =? 0) || (cols m =? 0).
(** [a.size() == b.size()]: width and height, not the channel count. *)
Definition Mat_size_eq (a b : Mat) : bool := (cols a =? cols b) && (rows a =? rows b).

(** A default-constructed or released matrix. *)
Definition Mat_released : Mat :=
  {| rows := 0; cols := 0; depth := CV_8U; channels := 1; data := [] |}.

(** ** The platform *)

Class Platform := {
  (** whether the translation unit is compiled with NDEBUG, which removes
      every [assert] *)
  NDEBUG : bool;
  (** DataReader.h: the "use the full data set" value of
      [requestedEpochSamples] *)
  requestDataSize : Z;
  (** [std::stof] *)
  stof : string -> outcome float;
  (** <random>: the value drawn and the number of engine outputs used *)
  uniform_int_distribution : Z -> Z -> mt19937 -> Z * N;
  uniform_real_distribution : double -> double -> mt19937 -> double * N;
  bernoulli_distribution : mt19937 -> bool * N;
  shuffle : list (string * Z) -> mt19937 -> list (string * Z) * N;
  (** OpenCV: decoding, and the arithmetic on pixel values *)
  imread : string -> Mat;
  convert_elem : Z -> Z -> spec_float -> spec_float;
  resize_data : Mat -> Z -> Z -> Z -> list spec_float;
  subtract_elem : Z -> spec_float -> spec_float -> spec_float;
  subtract_other : Mat -> Mat -> outcome Mat;
  FileStorage_read : string -> option (Mat * Z * Z * Z);
  (** the text files that can be opened for reading *)
  ifstream_read : string -> option string;
  (** [std::uniform_int_distribution<int>(a, b)] produces values in [a, b] *)
  uniform_int_range : forall a b g,
    a <= b -> a <= fst (uniform_int_distribution a b g) <= b
}.

Section Primitives.
Context `{P : Platform}.

(** [assert(e)]: nothing under NDEBUG, abort otherwise when [e] is false. *)
Definition assert (e : bool) (expr : string) : outcome unit :=
  if NDEBUG then Ok tt
  else if e then Ok tt else Fail (AssertionFailed expr).

(** [int] subtraction; signed overflow is undefined. *)
Definition int_sub (a b : Z) : outcome Z :=
  if in_int (a - b) then Ok (a - b) else Fail (Undefined "signed overflow").

(** [int] multiplication; signed overflow is undefined. *)
Definition int_mul (a b : Z) : outcome Z :=
  if in_int (a * b) then Ok (a * b) else Fail (Undefined "signed overflow").

(** [UniIntT(a, b)(rng)]; the distribution requires [a <= b]. *)
Definition UniIntT (a b : Z) (rng : mt19937) : outcome (Z * mt19937) :=
  if a <=? b then
    let '(v, n) := uniform_int_distribution a b rng in Ok (v, mt_advance rng n)
  else Fail (Undefined "uniform_int_distribution: a > b").

Definition UniRealT (a b : double) (rng : mt19937) : double * mt19937 :=
  let '(v, n) := uniform_real_distribution a b rng in (v, mt_advance rng n).

Definition bernoulli (rng : mt19937) : bool * mt19937 :=
  let '(v, n) := bernoulli_distribution rng in (v, mt_advance rng n).

(** *** OpenCV operations used by the transforms *)

(** [m(rect)]: the region of interest. *)
Definition roi_data (m : Mat) (r : Rect) : list spec_float :=
  flat_map
    (fun y => take (Z.to_nat (rect_width r * channels m))
                (drop (Z.to_nat ((y * cols m + rect_x r) * channels m)) (data m)))
    (seqZ (rect_y r) (rect_height r)).

Definition Mat_roi (m : Mat) (r : Rect) : outcome Mat :=
  if (0 <=? rect_x r) && (0 <=? rect_width r) && (rect_x r + rect_width r <=? cols m)
     && (0 <=? rect_y r) && (0 <=? rect_height r) && (rect_y r + rect_height r <=? rows m)
  then Ok {| rows := rect_height r; cols := rect_width r; depth := depth m;
             channels := channels m; data := roi_data m r |}
  else Fail (CvException "Mat: roi outside of the matrix").

(** [cv::flip(m, m, 1)]: every row mirrored, pixel by pixel. *)
Definition cv_flip_horizontal (m : Mat) : Mat :=
  {| rows := rows m; cols := cols m; depth := depth m; channels := channels m;
     data :=
       flat_map
         (fun y =>
            flat_map
              (fun x => take (Z.to_nat (channels m))
                          (drop (Z.to_nat ((y * cols m + (cols m - 1 - x)) * channels m))
                             (data m)))
              (seqZ 0 (cols m)))
         (seqZ 0 (rows m)) |}.

(** [m.convertTo(m, rtype)]: only the depth of [rtype] is used. *)
Definition Mat_convertTo (m : Mat) (rtype : Z) : Mat :=
  {| rows := rows m; cols := cols m; depth := CV_MAT_DEPTH rtype; channels := channels m;
     data := convert_elem (depth m) (CV_MAT_DEPTH rtype) <$> data m |}.

(** [cv::resize(src, dst, Size(w, h), 0, 0, interp)]: source and target
    size must be non-empty; the result has the element type of the source. *)
Definition cv_resize (src : Mat) (w h interp : Z) : outcome Mat :=
  if Mat_empty src then Fail (CvException "resize: empty source")
  else if (0 <? w) && (0 <? h) then
    Ok {| rows := h; cols := w; depth := depth src; channels := channels src;
          data := resize_data src w h interp |}
  else Fail (CvException "resize: empty target size").

(** [a - b] assigned to a matrix, for operands of one size.  Non-empty
    operands of one type are subtracted element by element; operands of
    different types are an error unless [b] has a single row or column
    (which OpenCV may read as a scalar); that case and empty operands are
    left to the platform. *)
Definition cv_subtract (a b : Mat) : outcome Mat :=
  if Mat_empty a || Mat_empty b then subtract_other a b
  else if (depth a =? depth b) && (channels a =? channels b) then
    Ok {| rows := rows a; cols := cols a; depth := depth a; channels := channels a;
          data := zip_with (subtract_elem (depth a)) (data a) (data b) |}
  else if (cols b =? 1) || (rows b =? 1) then subtract_other a b
  else Fail (CvException "subtract: operands differ in type").

(** [Mat::reshape(new_cn, new_rows)] of a continuous matrix. *)
Definition Mat_reshape (m : Mat) (new_cn new_rows : Z) : outcome Mat :=
  let new_cn := if new_cn =? 0 then channels m else new_cn in
  let total_width := cols m * channels m in
  let new_rows :=
    if ((total_width <? new_cn) || negb (Z.rem total_width new_cn =? 0)) && (new_rows =? 0)
    then Z.quot (rows m * total_width) new_cn else new_rows in
  '(rows', total_width) ←
    (if negb (new_rows =? 0) && negb (new_rows =? rows m) then
       let total_size := total_width * rows m in
       if (new_rows <? 0) || (total_size <? new_rows)
       then Fail (CvException "reshape: bad new number of rows")
       else if negb (Z.quot total_size new_rows * new_rows =? total_size)
       then Fail (CvException "reshape: elements not divisible by the new number of rows")
       else Ok (new_rows, Z.quot total_size new_rows)
     else Ok (rows m, total_width));
  let new_width := Z.quot total_width new_cn in
  if negb (new_width * new_cn =? total_width)
  then Fail (CvException "reshape: width not divisible by the new number of channels")
  else Ok {| rows := rows'; cols := new_width; depth := depth m; channels := new_cn;
             data := data m |}.

(** *** The generator pool *)

(** Modelled from the spec: [conc_stack] is declared outside this
    translation unit; [pop_or_create] pops a pooled generator or, when the
    pool is empty, constructs one with the factory. *)
Definition pop_or_create (pool : list mt19937) (factory : unit -> mt19937)
  : mt19937 * list mt19937 :=
  match pool with
  | g :: rest => (g, rest)
  | [] => (factory tt, [])
  end.

(** Modelled from the spec: [conc_stack::push] returns a generator to the
    pool, for any later caller. *)
Definition push (g : mt19937) (pool : list mt19937) : list mt19937 := g :: pool.

End Primitives.

(** ** The configuration layer *)

(** Modelled from the spec: [ConfigParameters] and [ConfigValue] are
    declared in commandArgUtil.h, outside this translation unit.  A
    configuration is an ordered dictionary of key/value parameters whose
    values are texts or nested sections. *)
#[warnings="-register-all"] Inductive ConfigValue :=
| ConfigText (s : string)
| ConfigDict (entries : list (string * ConfigValue)).

Definition ConfigParameters := list (string * ConfigValue).

(** Modelled from the spec: keys are matched without regard to case. *)
Definition key_eqb (a b : string) : bool :=
  bool_decide (string_tolower a = string_tolower b).

(** Modelled from the spec: the value of the first entry with the key. *)
Definition config_find (config : ConfigParameters) (name : string) : option ConfigValue :=
  snd <$> find (fun p => key_eqb (fst p) name) config.

(** Modelled from the spec: [ExistsCurrent(name)], whether the section
    itself has the key. *)
Definition ExistsCurrent (config : ConfigParameters) (name : string) : bool :=
  bool_decide (is_Some (config_find config name)).

(** Modelled from the spec: a value read as a text. *)
Definition ConfigValue_text (v : ConfigValue) : string :=
  match v with ConfigText s => s | ConfigDict _ => EmptyString end.

(** Modelled from the spec: a value read as a section. *)
Definition ConfigParameters_of (v : ConfigValue) : ConfigParameters :=
  match v with ConfigDict d => d | ConfigText _ => [] end.

(** Modelled from the spec: [config(name, default)]. *)
Definition config_default (config : ConfigParameters) (name default : string) : string :=
  match config_find config name with
  | Some v => ConfigValue_text v
  | None => default
  end.

(** Modelled from the spec: [config(name)]; the parameter must exist. *)
Definition config_required (config : ConfigParameters) (name : string) : outcome string :=
  match config_find config name with
  | Some v => Ok (ConfigValue_text v)
  | None => Fail (RuntimeError "configuration parameter %s is required" [ArgStr name])
  end.

(** Modelled from the spec: [size_t x = config(name)], a number read as
    decimal digits. *)
Definition config_size_t (config : ConfigParameters) (name : string) : outcome Z :=
  s ← config_required config name;
  if starts_with_digit s then Ok (to_size_t (read_digits 0 s))
  else Fail (RuntimeError "configuration parameter %s is not a number" [ArgStr name]).

(** ** Transforms *)

Module CropTransform.

Inductive CropType := Center | Random.

(** [RatioJitterType::None] is [NoJitter] here. *)
Inductive RatioJitterType := NoJitter | UniRatio | UniLength | UniArea.

Record t := {
  m_seed : Z;
  m_rngs : list mt19937;
  m_cropType : CropType;
  m_cropRatioMin : double;
  m_cropRatioMax : double;
  m_jitterType : RatioJitterType;
  m_hFlip : bool
}.

(** The constructor sets the seed only; the members that [Init] assigns
    are indeterminate until then and given placeholder values. *)
Definition new (seed : Z) : t :=
  {| m_seed := seed; m_rngs := []; m_cropType := Center;
     m_cropRatioMin := double_zero; m_cropRatioMax := double_zero;
     m_jitterType := NoJitter; m_hFlip := false |}.

Definition is_empty (s : string) : bool :=
  match s with EmptyString => true | String _ _ => false end.

Definition ParseCropType (src : string) : outcome CropType :=
  c ← (if is_empty src then Ok true else AreEqual src "center");
  if c : bool then Ok Center
  else
    r ← AreEqual src "random";
    if r : bool then Ok Random
    else Fail (RuntimeError "Invalid crop type: %s." [ArgStr src]).

Definition ParseJitterType (src : string) : outcome RatioJitterType :=
  n ← (if is_empty src then Ok true else AreEqual src "none");
  if n : bool then Ok NoJitter
  else
    r ← AreEqual src "uniratio";
    if r : bool then Ok UniRatio
    else
      l ← AreEqual src "unilength";
      if l : bool then Ok UniLength
      else
        a ← AreEqual src "uniarea";
        if a : bool then Ok UniArea
        else Fail (RuntimeError "Invalid jitter type: %s." [ArgStr src]).

Definition JITTER_NOT_IMPLEMENTED : failure :=
  RuntimeError "Jitter type currently not implemented." [].

Section WithPlatform.
Context `{P : Platform}.

(** The part of [Init] that reads [cropRatio]: "min" or "min:max"; with
    nothing to read both members keep their values. *)
Definition ParseCropRatio (self : t) (text : string) : outcome (double * double) :=
  match getline text COLON with
  | Some (token, rest) =>
      lo ← stof token;
      hi ← match getline rest COLON with
           | Some (token, _) => stof token
           | None => Ok lo
           end;
      Ok (double_of_float lo, double_of_float hi)
  | None => Ok (m_cropRatioMin self, m_cropRatioMax self)
  end.

Definition ratio_in_range (r : double) : bool :=
  SFltb double_zero r && SFleb r double_one.

(** The part of [Init] that sets [m_hFlip]. *)
Definition ParseHFlip (config : ConfigParameters) (cropType : CropType) : outcome bool :=
  if negb (ExistsCurrent config "hflip")
  then Ok (match cropType with Random => true | Center => false end)
  else s ← config_required config "hflip";
       v ← stoi s;
       Ok (negb (v =? 0)).

Definition Init (self : t) (config : ConfigParameters) : outcome t :=
  cropType ← ParseCropType (config_default config "cropType" "");
  '(lo, hi) ← ParseCropRatio self (config_default config "cropRatio" "1");
  if negb (ratio_in_range lo) || negb (ratio_in_range hi) || SFltb hi lo then
    Fail (RuntimeError
            "Invalid cropRatio value, must be > 0 and <= 1. cropMin must <= cropMax" [])
  else
    jitterType ← ParseJitterType (config_default config "jitterType" "");
    hFlip ← ParseHFlip config cropType;
    Ok {| m_seed := m_seed self; m_rngs := m_rngs self; m_cropType := cropType;
          m_cropRatioMin := lo; m_cropRatioMax := hi;
          m_jitterType := jitterType; m_hFlip := hFlip |}.

Definition GetCropRect (type : CropType) (crow ccol : Z) (cropRatio : double)
    (rng : mt19937) : outcome (Rect * mt19937) :=
  _ ← assert (0 <? crow) "crow > 0";
  _ ← assert (0 <? ccol) "ccol > 0";
  _ ← assert (ratio_in_range cropRatio) "0 < cropRatio && cropRatio <= 1.0";
  cropSize ← double_to_int (double_mul (double_of_int (Z.min crow ccol)) cropRatio);
  '(xOff, yOff, rng) ←
    match type with
    | Center =>
        dx ← int_sub ccol cropSize;
        dy ← int_sub crow cropSize;
        Ok (Z.quot dx 2, Z.quot dy 2, rng)
    | Random =>
        dx ← int_sub ccol cropSize;
        '(x, rng) ← UniIntT 0 dx rng;
        dy ← int_sub crow cropSize;
        '(y, rng) ← UniIntT 0 dy rng;
        Ok (x, y, rng)
    end;
  _ ← assert ((0 <=? xOff) && (xOff <=? ccol - cropSize))
        "0 <= xOff && xOff <= ccol - cropSize";
  _ ← assert ((0 <=? yOff) && (yOff <=? crow - cropSize))
        "0 <= yOff && yOff <= crow - cropSize";
  Ok ({| rect_x := xOff; rect_y := yOff; rect_width := cropSize; rect_height := cropSize |},
      rng).

(** The [switch] of [Apply] on the jitter kind. *)
Definition draw_ratio (self : t) (rng : mt19937) : outcome (double * mt19937) :=
  match m_jitterType self with
  | NoJitter => Ok (m_cropRatioMin self, rng)
  | UniRatio =>
      let '(r, rng) := UniRealT (m_cropRatioMin self) (m_cropRatioMax self) rng in
      _ ← assert (SFleb (m_cropRatioMin self) r && SFltb r (m_cropRatioMax self))
            "m_cropRatioMin <= ratio && ratio < m_cropRatioMax";
      Ok (r, rng)
  | _ => Fail JITTER_NOT_IMPLEMENTED
  end.

Definition Apply (self : t) (mat : Mat) : outcome (Mat * t) :=
  let seed := m_seed self in
  let '(rng, pool) := pop_or_create (m_rngs self) (fun _ => mt19937_new seed) in
  '(ratio, rng) ← draw_ratio self rng;
  '(rect, rng) ← GetCropRect (m_cropType self) (rows mat) (cols mat) ratio rng;
  mat ← Mat_roi mat rect;
  let '(flip, rng) := if m_hFlip self then bernoulli rng else (false, rng) in
  let mat := if flip then cv_flip_horizontal mat else mat in
  Ok (mat,
      {| m_seed := m_seed self; m_rngs := push rng pool; m_cropType := m_cropType self;
         m_cropRatioMin := m_cropRatioMin self; m_cropRatioMax := m_cropRatioMax self;
         m_jitterType := m_jitterType self; m_hFlip := m_hFlip self |}).

End WithPlatform.
End CropTransform.

Module ScaleTransform.

Record t := {
  m_seed : Z;
  m_rngs : list mt19937;
  m_dataType : Z;
  m_interpMap : list (string * Z);
  m_interp : list Z;
  m_imgWidth : Z;
  m_imgHeight : Z;
  m_imgChannels : Z
}.

(** [std::unordered_map::emplace]: an existing key keeps its value. *)
Definition emplace (k : string) (v : Z) (m : list (string * Z)) : list (string * Z) :=
  if bool_decide (is_Some (find (fun p => String.eqb (fst p) k) m)) then m
  else m ++ [(k, v)].

Definition interp_find (m : list (string * Z)) (k : string) : option Z :=
  snd <$> find (fun p => String.eqb (fst p) k) m.

Section WithPlatform.
Context `{P : Platform}.

(** The size members are indeterminate until [Init]. *)
Definition new (dataType seed : Z) : outcome t :=
  _ ← assert ((dataType =? CV_32F) || (dataType =? CV_64F))
        "m_dataType == CV_32F || m_dataType == CV_64F";
  Ok {| m_seed := seed; m_rngs := []; m_dataType := dataType;
        m_interpMap :=
          emplace "lanczos" INTER_LANCZOS4
            (emplace "cubic" INTER_CUBIC
               (emplace "linear" INTER_LINEAR (emplace "nearest" INTER_NEAREST [])));
        m_interp := []; m_imgWidth := 0; m_imgHeight := 0; m_imgChannels := 0 |}.

Definition Init (self : t) (config : ConfigParameters) : outcome t :=
  w ← config_size_t config "width";
  h ← config_size_t config "height";
  c ← config_size_t config "channels";
  let cfeat := size_mul (size_mul w h) c in
  if (cfeat =? 0) || ((SIZE_MOD - 1) / 2 <? cfeat) then
    Fail (RuntimeError "Invalid image dimensions." [])
  else
    let interp :=
      omap (fun token => interp_find (m_interpMap self) (string_tolower token))
        (getline_all COLON (config_default config "interpolations" "")) in
    let interp := if bool_decide (interp = []) then [INTER_LINEAR] else interp in
    Ok {| m_seed := m_seed self; m_rngs := m_rngs self; m_dataType := m_dataType self;
          m_interpMap := m_interpMap self; m_interp := interp;
          m_imgWidth := w; m_imgHeight := h; m_imgChannels := c |}.

Definition Apply (self : t) (mat : Mat) : outcome (Mat * t) :=
  let wanted :=
    size_add (to_size_t (CV_MAT_DEPTH (m_dataType self)))
      (to_size_t (Z.shiftl (size_sub (m_imgChannels self) 1) 3)) in
  let mat :=
    if negb (to_size_t (Mat_type mat) =? wanted)
    then Mat_convertTo mat (m_dataType self) else mat in
  let seed := m_seed self in
  let '(rng, pool) := pop_or_create (m_rngs self) (fun _ => mt19937_new seed) in
  _ ← assert (0 <? Z.of_nat (length (m_interp self))) "m_interp.size() > 0";
  '(k, rng) ← UniIntT 0 (to_int (Z.of_nat (length (m_interp self))) - 1) rng;
  match (if k <? 0 then None else m_interp self !! Z.to_nat k) with
  | None => Fail (Undefined "m_interp: index out of range")
  | Some interp =>
      mat ← cv_resize mat (to_int (m_imgWidth self)) (to_int (m_imgHeight self)) interp;
      Ok (mat,
          {| m_seed := m_seed self; m_rngs := push rng pool;
             m_dataType := m_dataType self; m_interpMap := m_interpMap self;
             m_interp := m_interp self; m_imgWidth := m_imgWidth self;
             m_imgHeight := m_imgHeight self; m_imgChannels := m_imgChannels self |})
  end.

End WithPlatform.
End ScaleTransform.

Module MeanTransform.

Record t := { m_meanImg : Mat }.

Definition new : t := {| m_meanImg := Mat_released |}.

Section WithPlatform.
Context `{P : Platform}.

Definition Init (self : t) (config : ConfigParameters) : outcome t :=
  let meanFile := config_default config "meanFile" "" in
  if CropTransform.is_empty meanFile then Ok {| m_meanImg := Mat_released |}
  else
    match FileStorage_read meanFile with
    | None => Fail (RuntimeError ("Could not open file: " +:+ meanFile) [])
    | Some (img, cchan, crow, ccol) =>
        declared ← int_mul cchan crow;
        declared ← int_mul declared ccol;
        stored ← int_mul (channels img) (rows img);
        stored ← int_mul stored (cols img);
        if negb (declared =? stored)
        then Fail (RuntimeError ("Invalid data in file: " +:+ meanFile) [])
        else img ← Mat_reshape img cchan crow; Ok {| m_meanImg := img |}
    end.

Definition MEAN_ASSERTION : string :=
  "m_meanImg.size() == cv::Size(0, 0) || (m_meanImg.size() == mat.size() && m_meanImg.channels() == mat.channels())".

Definition Apply (self : t) (mat : Mat) : outcome (Mat * t) :=
  let mean := m_meanImg self in
  _ ← assert (((cols mean =? 0) && (rows mean =? 0))
              || (Mat_size_eq mean mat && (channels mean =? channels mat)))
        MEAN_ASSERTION;
  if Mat_size_eq mean mat then
    mat ← cv_subtract mat mean;
    Ok (mat, self)
  else Ok (mat, self).

End WithPlatform.
End MeanTransform.

(** [ITransform]: the closed set of implementations, with the virtual
    calls dispatched on the variant. *)
Inductive ITransform :=
| Crop (c : CropTransform.t)
| Scale (s : ScaleTransform.t)
| Mean (m : MeanTransform.t).

Section Dispatch.
Context `{P : Platform}.

Definition ITransform_Init (tr : ITransform) (config : ConfigParameters)
  : outcome ITransform :=
  match tr with
  | Crop c => Crop <$> CropTransform.Init c config
  | Scale s => Scale <$> ScaleTransform.Init s config
  | Mean m => Mean <$> MeanTransform.Init m config
  end.

Definition ITransform_Apply (tr : ITransform) (mat : Mat) : outcome (Mat * ITransform) :=
  match tr with
  | Crop c => '(mat, c) ← CropTransform.Apply c mat; Ok (mat, Crop c)
  | Scale s => '(mat, s) ← ScaleTransform.Apply s mat; Ok (mat, Scale s)
  | Mean m => '(mat, m) ← MeanTransform.Apply m mat; Ok (mat, Mean m)
  end.

(** [for (auto& t: m_transforms) t->Init(config)] *)
Fixpoint Init_all (trs : list ITransform) (config : ConfigParameters)
  : outcome (list ITransform) :=
  match trs with
  | [] => Ok []
  | tr :: rest =>
      tr ← ITransform_Init tr config;
      rest ← Init_all rest config;
      Ok (tr :: rest)
  end.

(** [for (auto& t: m_transforms) t->Apply(img)] *)
Fixpoint Apply_all (trs : list ITransform) (img : Mat) : outcome (Mat * list ITransform) :=
  match trs with
  | [] => Ok (img, [])
  | tr :: rest =>
      '(img, tr) ← ITransform_Apply tr img;
      '(img, rest) ← Apply_all rest img;
      Ok (img, tr :: rest)
  end.

End Dispatch.

(** ** ImageReader *)

Module ImageReader.

(** The template parameter. *)
Inductive ElemType := Float32 | Float64.

Definition sizeof (E : ElemType) : Z :=
  match E with Float32 => 4 | Float64 => 8 end.

(** [static_cast<ElemType>(z)] *)
Definition elem_of_int (E : ElemType) (z : Z) : spec_float :=
  match E with
  | Float32 => binary_normalize 24 128 z 0 false
  | Float64 => binary_normalize 53 1024 z 0 false
  end.

(** Modelled from the spec: the matrix type that receives the packed
    buffers is declared outside this translation unit. *)
Record Matrix := { numRows : Z; numCols : Z; values : list spec_float }.

(** Modelled from the spec: [SetValue] makes the destination a [numRows]
    by [numCols] matrix holding the first [numRows * numCols] elements of
    the buffer, which must be there. *)
Definition SetValue (numRows numCols : Z) (buf : list spec_float) : outcome Matrix :=
  let n := size_mul numRows numCols in
  if n <=? Z.of_nat (length buf) then
    Ok {| numRows := numRows; numCols := numCols; values := take (Z.to_nat n) buf |}
  else Fail (Undefined "SetValue: buffer shorter than the matrix").

(** Modelled from the spec: the kinds of end that [DataEnd] is asked
    about, declared in DataReader.h. *)
Inductive EndDataType := endDataNull | endDataEpoch | endDataSet | endDataSentence.

Record t := {
  elemType : ElemType;
  m_seed : Z;
  m_rng : mt19937;
  m_imgListRand : bool;
  m_pMBLayout : Z * Z * bool;
  m_transforms : list ITransform;
  m_featName : string;
  m_labName : string;
  m_featDim : Z;
  m_labDim : Z;
  files : list (string * Z);
  m_epochStart : Z;
  m_mbStart : Z;
  m_epochSize : Z;
  m_mbSize : Z;
  m_epoch : Z;
  m_featBuf : list spec_float;
  m_labBuf : list spec_float
}.

Definition files_size (self : t) : Z := Z.of_nat (length (files self)).

Definition MAP_FORMAT : string :=
  "Invalid map file format, must contain 2 tab-delimited columns: %s, line: %d.".

Section WithPlatform.
Context `{P : Platform}.

(** The constructor.  The transforms receive the value of [m_seed], which
    is 0 at that point.  Members assigned only later are indeterminate and
    given placeholder values. *)
Definition new (E : ElemType) : outcome t :=
  let seed := 0 in
  scale ← ScaleTransform.new (if sizeof E =? 4 then CV_32F else CV_64F) seed;
  Ok {| elemType := E; m_seed := seed; m_rng := mt19937_new seed; m_imgListRand := true;
        m_pMBLayout := (0, 0, false);
        m_transforms := [Crop (CropTransform.new seed); Scale scale; Mean MeanTransform.new];
        m_featName := ""; m_labName := ""; m_featDim := 0; m_labDim := 0;
        files := []; m_epochStart := 0; m_mbStart := 0; m_epochSize := 0;
        m_mbSize := 0; m_epoch := 0; m_featBuf := []; m_labBuf := [] |}.

(** The lambda [gettter] of [Init]: the first section that has the
    parameter. *)
Definition gettter (config : ConfigParameters) (paramName : string)
  : outcome (string * ConfigParameters) :=
  match find (fun p => ExistsCurrent (ConfigParameters_of (snd p)) paramName) config with
  | None => Fail (RuntimeError ("ImageReader requires " +:+ paramName +:+ " parameter.") [])
  | Some p => Ok (fst p, ConfigParameters_of (snd p))
  end.

(** The loop of [Init] over the lines of the map file, from line [cline]
    on, appending to [files]. *)
Fixpoint load_map (mapPath : string) (lines : list string) (cline : Z)
    (files : list (string * Z)) : outcome (list (string * Z)) :=
  match lines with
  | [] => Ok files
  | line :: rest =>
      match getline line TAB with
      | None => Fail (RuntimeError MAP_FORMAT [ArgStr mapPath; ArgInt cline])
      | Some (imgPath, ss) =>
          match getline ss TAB with
          | None => Fail (RuntimeError MAP_FORMAT [ArgStr mapPath; ArgInt cline])
          | Some (clsId, _) =>
              label ← stoi clsId;
              load_map mapPath rest (size_add cline 1) (files ++ [(imgPath, label)])
          end
      end
  end.

Definition Init (self : t) (config : ConfigParameters) : outcome t :=
  featSect ← gettter config "width";
  w ← config_size_t (snd featSect) "width";
  h ← config_size_t (snd featSect) "height";
  c ← config_size_t (snd featSect) "channels";
  transforms ← Init_all (m_transforms self) (snd featSect);
  labSect ← gettter config "labelDim";
  labDim ← config_size_t (snd labSect) "labelDim";
  mapPath ← config_required config "file";
  match ifstream_read mapPath with
  | None => Fail (RuntimeError ("Could not open " +:+ mapPath +:+ " for reading.") [])
  | Some mapFile =>
      files ← load_map mapPath (file_lines mapFile) 0 (files self);
      let rand := config_default config "randomize" "auto" in
      none ← AreEqual rand "none";
      imgListRand ←
        (if none : bool then Ok false
         else auto ← AreEqual rand "auto";
              if auto : bool then Ok (m_imgListRand self)
              else Fail (RuntimeError "Only Auto and None are currently supported." []));
      Ok {| elemType := elemType self; m_seed := m_seed self; m_rng := m_rng self;
            m_imgListRand := imgListRand; m_pMBLayout := m_pMBLayout self;
            m_transforms := transforms;
            m_featName := fst featSect; m_labName := fst labSect;
            m_featDim := size_mul (size_mul w h) c; m_labDim := labDim;
            files := files; m_epochStart := 0; m_mbStart := 0;
            m_epochSize := m_epochSize self; m_mbSize := m_mbSize self;
            m_epoch := m_epoch self; m_featBuf := m_featBuf self;
            m_labBuf := m_labBuf self |}
  end.

Definition shuffle_files (self : t) : list (string * Z) * mt19937 :=
  if m_imgListRand self then
    let '(fs, n) := shuffle (files self) (m_rng self) in (fs, mt_advance (m_rng self) n)
  else (files self, m_rng self).

(** [std::vector::resize(n)]; allocation is taken to succeed. *)
Definition vector_resize (v : list spec_float) (n : Z) : list spec_float :=
  resize (Z.to_nat n) (S754_zero false) v.

Definition StartMinibatchLoop (self : t) (mbSize epoch requestedEpochSamples : Z)
  : outcome t :=
  _ ← assert (0 <? mbSize) "mbSize > 0";
  _ ← assert (0 <? requestedEpochSamples) "requestedEpochSamples > 0";
  let '(shuffled, rng) := shuffle_files self in
  let size := Z.of_nat (length shuffled) in
  let epochSize :=
    if requestedEpochSamples =? requestDataSize then size else requestedEpochSamples in
  _ ← assert ((requestedEpochSamples =? requestDataSize) || (epochSize mod mbSize =? 0))
        "requestedEpochSamples == requestDataSize || (m_epochSize % m_mbSize) == 0";
  let epochStart := size_mul epoch epochSize in
  let reset := size <=? epochStart in
  Ok {| elemType := elemType self; m_seed := m_seed self; m_rng := rng;
        m_imgListRand := m_imgListRand self; m_pMBLayout := m_pMBLayout self;
        m_transforms := m_transforms self;
        m_featName := m_featName self; m_labName := m_labName self;
        m_featDim := m_featDim self; m_labDim := m_labDim self;
        files := shuffled;
        m_epochStart := if reset then 0 else epochStart;
        m_mbStart := if reset then 0 else m_mbStart self;
        m_epochSize := epochSize; m_mbSize := mbSize; m_epoch := epoch;
        m_featBuf := vector_resize (m_featBuf self) (size_mul mbSize (m_featDim self));
        m_labBuf := vector_resize (m_labBuf self) (size_mul mbSize (m_labDim self)) |}.

(** What one iteration of the loop of [GetMinibatch] changes: the pools of
    the transforms and the two buffers. *)
Definition slot_state : Type := list ITransform * list spec_float * list spec_float.

(** The body of the loop for index [i].  The image is held by value, so
    [assert(img.isContinuous())] has nothing to check here. *)
Definition fill_slot (self : t) (st : slot_state) (i : Z) : outcome slot_state :=
  let '(transforms, featBuf, labBuf) := st in
  match files self !! Z.to_nat (size_add i (m_mbStart self)) with
  | None => Fail (Undefined "files: index out of range")
  | Some p =>
      let img := imread (fst p) in
      '(img, transforms) ← Apply_all transforms img;
      let featDim := m_featDim self in
      let at_ := size_mul featDim i in
      if Z.of_nat (length (data img)) <? featDim then
        Fail (Undefined "std::copy: read past the image data")
      else if Z.of_nat (length featBuf) <? at_ + featDim then
        Fail (Undefined "std::copy: write past m_featBuf")
      else
        let featBuf :=
          take (Z.to_nat at_) featBuf ++ take (Z.to_nat featDim) (data img)
            ++ drop (Z.to_nat (at_ + featDim)) featBuf in
        let idx := size_add (size_mul (m_labDim self) i) (to_size_t (snd p)) in
        if Z.of_nat (length labBuf) <=? idx then
          Fail (Undefined "m_labBuf: index out of range")
        else
          Ok (transforms, featBuf,
              <[Z.to_nat idx := elem_of_int (elemType self) 1]> labBuf)
  end.

(** The loop over a list of indices, one iteration after the other.
    The source runs the iterations under [#pragma omp parallel for]:
    [pack_slots] below runs them in the order of the indices, which is
    the schedule of a single thread.  Each iteration writes its own slot
    of the two buffers; which generator an iteration borrows from a pool,
    and so what a random transform draws for an image and what the pools
    hold afterwards, depends on the schedule. *)
Fixpoint fill_slots (self : t) (st : slot_state) (indices : list Z) : outcome slot_state :=
  match indices with
  | [] => Ok st
  | i :: rest => st ← fill_slot self st i; fill_slots self st rest
  end.

Definition exhausted (self : t) : bool :=
  (files_size self <=? m_mbStart self)
  || (size_add (m_epochStart self) (m_epochSize self) <=? m_mbStart self).

Definition mbLim (self : t) : Z :=
  let lim := size_add (m_mbStart self) (m_mbSize self) in
  if files_size self <? lim then files_size self else lim.

(** [mbLim - m_mbStart] *)
Definition batch_size (self : t) : Z := size_sub (mbLim self) (m_mbStart self).

(** [std::fill] of the label buffer followed by the loop over the slots
    of the minibatch. *)
Definition pack_slots (self : t) : outcome slot_state :=
  let labBuf := replicate (length (m_labBuf self)) (elem_of_int (elemType self) 0) in
  fill_slots self (m_transforms self, m_featBuf self, labBuf)
    (seqZ 0 (to_long_long (batch_size self))).

(** The rest of [GetMinibatch] once there is data: fill the slots, hand
    the buffers to the destination matrices, advance [m_mbStart]. *)
Definition produce (self : t) (matrices : gmap string Matrix)
  : outcome (bool * t * gmap string Matrix) :=
  '(transforms, featBuf, labBuf) ← pack_slots self;
  let mbSize := batch_size self in
  features ← SetValue (m_featDim self) mbSize featBuf;
  labels ← SetValue (m_labDim self) mbSize labBuf;
  Ok (true,
      {| elemType := elemType self; m_seed := m_seed self; m_rng := m_rng self;
         m_imgListRand := m_imgListRand self; m_pMBLayout := (mbSize, 1, false);
         m_transforms := transforms;
         m_featName := m_featName self; m_labName := m_labName self;
         m_featDim := m_featDim self; m_labDim := m_labDim self;
         files := files self;
         m_epochStart := m_epochStart self; m_mbStart := mbLim self;
         m_epochSize := m_epochSize self; m_mbSize := m_mbSize self;
         m_epoch := m_epoch self; m_featBuf := featBuf; m_labBuf := labBuf |},
      <[m_labName self := labels]> (<[m_featName self := features]> matrices)).

(** [GetMinibatch].  The two references are bound before the test for
    the end of the data, but a matrix that is missing is touched only by
    [SetValue], after the loop.  So at the end of the data the call
    returns false whether the matrices are there or not, and before the
    end the loop runs, and may fail, before the null pointer is
    dereferenced.  ([matrices[name]] adds an entry holding a null pointer
    for a name that is missing; the map of the model holds matrices only
    and does not show that entry.) *)
Definition GetMinibatch (self : t) (matrices : gmap string Matrix)
  : outcome (bool * t * gmap string Matrix) :=
  _ ← assert (0 <? Z.of_nat (size matrices)) "matrices.size() > 0";
  _ ← assert (bool_decide (is_Some (matrices !! m_featName self)))
        "matrices.find(m_featName) != matrices.end()";
  _ ← assert (0 <? m_mbSize self) "m_mbSize > 0";
  if exhausted self then Ok (false, self, matrices)
  else
    match matrices !! m_featName self, matrices !! m_labName self with
    | Some _, Some _ => produce self matrices
    | _, _ =>
        _ ← pack_slots self;
        Fail (Undefined "null Matrix pointer dereferenced")
    end.

Definition DataEnd (self : t) (endDataType : EndDataType) : outcome bool :=
  match endDataType with
  | endDataNull => _ ← assert false "false"; Ok false
  | endDataEpoch =>
      Ok (m_mbStart self <? size_add (m_epochStart self) (m_epochSize self))
  | endDataSet => Ok (files_size self <=? m_mbStart self)
  | endDataSentence => Ok true
  end.

Definition SetRandomSeed (self : t) (seed : Z) : t :=
  {| elemType := elemType self; m_seed := seed; m_rng := mt19937_new seed;
     m_imgListRand := m_imgListRand self; m_pMBLayout := m_pMBLayout self;
     m_transforms := m_transforms self;
     m_featName := m_featName self; m_labName := m_labName self;
     m_featDim := m_featDim self; m_labDim := m_labDim self;
     files := files self;
     m_epochStart := m_epochStart self; m_mbStart := m_mbStart self;
     m_epochSize := m_epochSize self; m_mbSize := m_mbSize self;
     m_epoch := m_epoch self; m_featBuf := m_featBuf self; m_labBuf := m_labBuf self |}.

(** [Destroy] has an empty body. *)
Definition Destroy (self : t) : t := self.

End WithPlatform.
End ImageReader.

(** ** Vocabulary of the properties *)

(** The floor of a floating-point value. *)
Definition double_floor (x : double) : option Z :=
  match x with
  | S754_zero _ => Some 0
  | S754_finite s m e =>
      let v := if s then Z.neg m else Z.pos m in
      Some (match e with
            | Zneg p => v / 2 ^ Z.pos p
            | _ => v * 2 ^ e
            end)
  | _ => None
  end.

(** [floor (m * r)], the product taken exactly. *)
Definition exact_floor_mul (m : Z) (r : double) : option Z :=
  match r with
  | S754_zero _ => Some 0
  | S754_finite s mr er =>
      let v := m * (if s then Z.neg mr else Z.pos mr) in
      Some (match er with
            | Zneg p => v / 2 ^ Z.pos p
            | _ => v * 2 ^ er
            end)
  | _ => None
  end.

(** [r] is the number [a / 2^k]. *)
Definition is_dyadic (r : double) (a k : Z) : Prop :=
  match r with
  | S754_finite false mr er => 0 <= k /\ er <= 0 /\ Z.pos mr * 2 ^ k = a * 2 ^ (- er)
  | _ => False
  end.

(** A one-hot row of [labDim] elements: 1 at [label], 0 elsewhere. *)
Definition one_hot (E : ImageReader.ElemType) (labDim label : Z) : list spec_float :=
  <[Z.to_nat label := ImageReader.elem_of_int E 1]>
    (replicate (Z.to_nat labDim) (ImageReader.elem_of_int E 0)).

(** The integer value of an element that holds an integer. *)
Definition elem_value (x : spec_float) : Z := default 0 (double_trunc x).

Definition buffer_sum (l : list spec_float) : Z :=
  foldr (fun x s => elem_value x + s) 0 l.

(** The one-hot rows of the manifest entries at the given offsets from
    [m_mbStart], one after the other. *)
Definition label_rows (self : ImageReader.t) (offsets : list Z) : list spec_float :=
  flat_map
    (fun i =>
       match ImageReader.files self !! Z.to_nat (ImageReader.m_mbStart self + i) with
       | Some p => one_hot (ImageReader.elemType self) (ImageReader.m_labDim self) (snd p)
       | None => []
       end)
    offsets.

(** The least exponent of a [double]. *)
Definition emin64 : Z := -1074.

(** Failures raised by [RuntimeError]. *)
Definition is_RuntimeError (e : failure) : Prop :=
  match e with RuntimeError _ _ => True | _ => False end.

(** The first two fields of a line, as the two [std::getline] calls of
    the loop extract them. *)
Definition line_fields (line : string) : option (string * string) :=
  match getline line TAB with
  | None => None
  | Some (imgPath, ss) =>
      match getline ss TAB with
      | None => None
      | Some (clsId, _) => Some (imgPath, clsId)
      end
  end.

(** A line that the loop turns into an entry. *)
Definition line_entry (line : string) : option (string * Z) :=
  match line_fields line with
  | Some (imgPath, clsId) =>
      match stoi clsId with Ok label => Some (imgPath, label) | Fail _ => None end
  | None => None
  end.

(** The seed and the pool of a transform; [MeanTransform] has neither. *)
Definition transform_seed (tr : ITransform) : option Z :=
  match tr with
  | Crop c => Some (CropTransform.m_seed c)
  | Scale s => Some (ScaleTransform.m_seed s)
  | Mean _ => None
  end.

Definition transform_pool (tr : ITransform) : list mt19937 :=
  match tr with
  | Crop c => CropTransform.m_rngs c
  | Scale s => ScaleTransform.m_rngs s
  | Mean _ => []
  end.

(** What an [Apply] does to a pool: the generator on top is taken, used
    and put back; an empty pool receives a generator constructed with
    [seed]. *)
Definition pool_step (seed : Z) (pool pool' : list mt19937) : Prop :=
  match pool with
  | g :: rest => exists g', pool' = g' :: rest /\ mt_seed g' = mt_seed g
  | [] => exists g', pool' = [g'] /\ mt_seed g' = seed
  end.

(** The lines of the spec: exactly two tab-separated fields, the second
    an integer (an optional sign and digits, nothing else). *)
Fixpoint all_fields (delim : ascii) (s : string) : list string :=
  match s with
  | EmptyString => [EmptyString]
  | String c s' =>
      if Ascii.eqb c delim then EmptyString :: all_fields delim s'
      else match all_fields delim s' with
           | [] => [String c EmptyString]
           | f :: fs => String c f :: fs
           end
  end.

Fixpoint all_digits (s : string) : bool :=
  match s with
  | EmptyString => true
  | String c s' => bool_decide (is_Some (digit_of c)) && all_digits s'
  end.

Definition is_integer (s : string) : bool :=
  let body := snd (strip_sign s) in
  starts_with_digit body && all_digits body.

Definition two_fields_integer (line : string) : bool :=
  match all_fields TAB line with
  | [_; label] => is_integer label
  | _ => false
  end.

(** A string that holds no NUL character. *)
Fixpoint no_NUL (s : string) : bool :=
  match s with
  | EmptyString => true
  | String c s' => negb (Ascii.eqb c NUL) && no_NUL s'
  end.

(** Whether a character occurs in a string. *)
Fixpoint has_char (c : ascii) (s : string) : bool :=
  match s with
  | EmptyString => false
  | String a s' => Ascii.eqb a c || has_char c s'
  end.


(** The two buffers hold exactly [m_mbSize] samples. *)
Definition buffers_fit (self : ImageReader.t) : Prop :=
  Z.of_nat (length (ImageReader.m_featBuf self))
  = size_mul (ImageReader.m_mbSize self) (ImageReader.m_featDim self)
  /\ Z.of_nat (length (ImageReader.m_labBuf self))
     = size_mul (ImageReader.m_mbSize self) (ImageReader.m_labDim self).

(** What [Init] has configured of a transform: the transform without its
    pool of generators. *)
Definition transform_settings (tr : ITransform) : ITransform :=
  match tr with
  | Crop c =>
      Crop {| CropTransform.m_seed := CropTransform.m_seed c;
              CropTransform.m_rngs := [];
              CropTransform.m_cropType := CropTransform.m_cropType c;
              CropTransform.m_cropRatioMin := CropTransform.m_cropRatioMin c;
              CropTransform.m_cropRatioMax := CropTransform.m_cropRatioMax c;
              CropTransform.m_jitterType := CropTransform.m_jitterType c;
              CropTransform.m_hFlip := CropTransform.m_hFlip c |}
  | Scale sc =>
      Scale {| ScaleTransform.m_seed := ScaleTransform.m_seed sc;
               ScaleTransform.m_rngs := [];
               ScaleTransform.m_dataType := ScaleTransform.m_dataType sc;
               ScaleTransform.m_interpMap := ScaleTransform.m_interpMap sc;
               ScaleTransform.m_interp := ScaleTransform.m_interp sc;
               ScaleTransform.m_imgWidth := ScaleTransform.m_imgWidth sc;
               ScaleTransform.m_imgHeight := ScaleTransform.m_imgHeight sc;
               ScaleTransform.m_imgChannels := ScaleTransform.m_imgChannels sc |}
  | Mean m => Mean m
  end.

(** Transforms that differ in the generators of their pools only. *)
Definition same_settings (trs trs' : list ITransform) : Prop :=
  transform_settings <$> trs = transform_settings <$> trs'.

(** The first [featDim] elements of each image, one image after the
    other. *)
Definition feature_columns (featDim : Z) (imgs : list Mat) : list spec_float :=
  flat_map (fun img => take (Z.to_nat featDim) (data img)) imgs.

(** ** A reference platform

    One platform on which the model runs from end to end: a toy decoder,
    nearest-neighbour resizing, a counter-based generator, and a file
    system holding one map file of four samples. *)

Module Reference.

Definition stof_impl (s : string) : outcome float :=
  let '(whole, frac) := split_at "."%char s in
  if starts_with_digit whole then
    let scale := 10 ^ Z.of_nat (String.length frac) in
    let num := read_digits 0 whole * scale + read_digits 0 frac in
    Ok (SFdiv 24 128 (binary_normalize 24 128 num 0 false)
          (binary_normalize 24 128 scale 0 false))
  else Fail (StdException "stof: invalid argument").

Definition uniform_int_distribution_impl (a b : Z) (g : mt19937) : Z * N :=
  (a + (mt_seed g + Z.of_N (mt_drawn g)) mod (b - a + 1), 1%N).

Definition uniform_real_distribution_impl (a b : double) (g : mt19937) : double * N :=
  (a, 1%N).

Definition bernoulli_distribution_impl (g : mt19937) : bool * N :=
  (N.odd (mt_drawn g), 1%N).

Definition shuffle_impl (l : list (string * Z)) (g : mt19937) : list (string * Z) * N :=
  (rev l, N.of_nat (length l)).

(** Every path but the empty one decodes to a 2 x 3 image of three
    channels whose values count up from the length of the path. *)
Definition imread_impl (path : string) : Mat :=
  match path with
  | EmptyString => Mat_released
  | String _ _ =>
      {| rows := 2; cols := 3; depth := CV_8U; channels := 3;
         data := (fun k => binary_normalize 53 1024 k 0 false)
                   <$> seqZ (Z.of_nat (String.length path)) 18 |}
  end.

Definition convert_elem_impl (from to : Z) (x : spec_float) : spec_float := x.

Definition resize_data_impl (src : Mat) (w h interp : Z) : list spec_float :=
  flat_map
    (fun y =>
       flat_map
         (fun x =>
            take (Z.to_nat (channels src))
              (drop (Z.to_nat (((y * rows src / h) * cols src + x * cols src / w)
                               * channels src))
                 (data src)))
         (seqZ 0 w))
    (seqZ 0 h).

Definition subtract_elem_impl (d : Z) (a b : spec_float) : spec_float :=
  if d =? CV_32F then SFsub 24 128 a b else SFsub 53 1024 a b.

Definition subtract_other_impl (a b : Mat) : outcome Mat :=
  Fail (CvException "subtract: operands not supported").

Definition FileStorage_read_impl (path : string) : option (Mat * Z * Z * Z) := None.

Definition line (path label : string) : string :=
  path +:+ String TAB label +:+ String LF EmptyString.

Definition map_text : string :=
  line "a.jpg" "0" +:+ line "b.jpg" "1" +:+ line "c.jpg" "0" +:+ line "d.jpg" "1".

Definition ifstream_read_impl (path : string) : option string :=
  if String.eqb path "train_map.txt" then Some map_text else None.

Lemma uniform_int_range_impl (a b : Z) (g : mt19937) :
  a <= b -> a <= fst (uniform_int_distribution_impl a b g) <= b.
Proof.
  intros Hab. unfold uniform_int_distribution_impl. cbn [fst].
  pose proof (Z.mod_pos_bound (mt_seed g + Z.of_N (mt_drawn g)) (b - a + 1)) as Hm.
  lia.
Qed.

Definition platform (ndebug : bool) : Platform :=
  {| NDEBUG := ndebug;
     requestDataSize := 2 ^ 62 - 1;
     stof := stof_impl;
     uniform_int_distribution := uniform_int_distribution_impl;
     uniform_real_distribution := uniform_real_distribution_impl;
     bernoulli_distribution := bernoulli_distribution_impl;
     shuffle := shuffle_impl;
     imread := imread_impl;
     convert_elem := convert_elem_impl;
     resize_data := resize_data_impl;
     subtract_elem := subtract_elem_impl;
     subtract_other := subtract_other_impl;
     FileStorage_read := FileStorage_read_impl;
     ifstream_read := ifstream_read_impl;
     uniform_int_range := uniform_int_range_impl |}.

Definition debug : Platform := platform false.
Definition release : Platform := platform true.

(** The configuration of the example: 2 x 2 images of three channels,
    two classes, no shuffling. *)
Definition config : ConfigParameters :=
  [ ("features", ConfigDict [ ("width", ConfigText "2"); ("height", ConfigText "2");
                              ("channels", ConfigText "3") ]);
    ("labels", ConfigDict [ ("labelDim", ConfigText "2") ]);
    ("file", ConfigText "train_map.txt");
    ("randomize", ConfigText "none") ].

Definition empty_matrix : ImageReader.Matrix :=
  {| ImageReader.numRows := 0; ImageReader.numCols := 0; ImageReader.values := [] |}.

Definition matrices : gmap string ImageReader.Matrix :=
  <["labels" := empty_matrix]> (<["features" := empty_matrix]> ∅).

Definition from_Ok {A : Type} (d : A) (m : outcome A) : A :=
  match m with Ok a => a | Fail _ => d end.

Definition blank : ImageReader.t :=
  {| ImageReader.elemType := ImageReader.Float32; ImageReader.m_seed := 0;
     ImageReader.m_rng := mt19937_new 0; ImageReader.m_imgListRand := true;
     ImageReader.m_pMBLayout := (0, 0, false); ImageReader.m_transforms := [];
     ImageReader.m_featName := ""; ImageReader.m_labName := "";
     ImageReader.m_featDim := 0; ImageReader.m_labDim := 0; ImageReader.files := [];
     ImageReader.m_epochStart := 0; ImageReader.m_mbStart := 0;
     ImageReader.m_epochSize := 0; ImageReader.m_mbSize := 0; ImageReader.m_epoch := 0;
     ImageReader.m_featBuf := []; ImageReader.m_labBuf := [] |}.

(** The reader after construction and [Init]. *)
Definition configured : ImageReader.t :=
  Eval vm_compute in
    from_Ok blank
      (rd ← ImageReader.new (P:=debug) ImageReader.Float32;
       ImageReader.Init (P:=debug) rd config).

(** The reader after [StartMinibatchLoop] with minibatches of 2 samples,
    epoch 0 and an epoch of 4 samples. *)
Definition started : ImageReader.t :=
  Eval vm_compute in
    from_Ok blank (ImageReader.StartMinibatchLoop (P:=debug) configured 2 0 4).

(** The reader after the first and the second [GetMinibatch]. *)
Definition first_batch : ImageReader.t :=
  Eval vm_compute in
    from_Ok blank
      ('(_, rd, _) ← ImageReader.GetMinibatch (P:=debug) started matrices; Ok rd).

Definition second_batch : ImageReader.t :=
  Eval vm_compute in
    from_Ok blank
      ('(_, rd, _) ← ImageReader.GetMinibatch (P:=debug) first_batch matrices; Ok rd).

(** The destination matrices after the first [GetMinibatch]. *)
Definition first_matrices : gmap string ImageReader.Matrix :=
  Eval vm_compute in
    from_Ok ∅
      ('(_, _, m) ← ImageReader.GetMinibatch (P:=debug) started matrices; Ok m).

(** A scale transform configured for one channel. *)
Definition gray_scale : ScaleTransform.t :=
  Eval vm_compute in
    from_Ok
      {| ScaleTransform.m_seed := 0; ScaleTransform.m_rngs := [];
         ScaleTransform.m_dataType := CV_32F; ScaleTransform.m_interpMap := [];
         ScaleTransform.m_interp := []; ScaleTransform.m_imgWidth := 0;
         ScaleTransform.m_imgHeight := 0; ScaleTransform.m_imgChannels := 0 |}
      (sc ← ScaleTransform.new (P:=debug) CV_32F 0;
       ScaleTransform.Init sc
         [ ("width", ConfigText "2"); ("height", ConfigText "2");
           ("channels", ConfigText "1") ]).

(** A crop transform as [Init] leaves it for [jitterType = UniLength]. *)
Definition unilength_config : ConfigParameters :=
  [ ("cropType", ConfigText "random"); ("cropRatio", ConfigText "0.5:1");
    ("jitterType", ConfigText "UniLength") ].

(** Images of 2 x 2 elements of type CV_32F, of one and of three
    channels. *)
Definition image (nchannels : Z) : Mat :=
  {| rows := 2; cols := 2; depth := CV_32F; channels := nchannels;
     data := (fun k => binary_normalize 24 128 k 0 false) <$> seqZ 1 (4 * nchannels) |}.

(** A map file line with a third field. *)
Definition three_fields : string :=
  "a.jpg" +:+ String TAB "0" +:+ String TAB "extra".

(** The reader and the scale transform after construction. *)
Definition constructed : ImageReader.t :=
  Eval vm_compute in from_Ok blank (ImageReader.new (P:=debug) ImageReader.Float32).


(** Crop transforms: a random crop at a ratio between 0.5 and 1, and the
    transform that an empty configuration gives. *)
Definition crop_config : ConfigParameters :=
  [ ("cropType", ConfigText "Random"); ("cropRatio", ConfigText "0.5:1") ].

Definition random_crop : CropTransform.t :=
  Eval vm_compute in
    from_Ok (CropTransform.new 0)
      (CropTransform.Init (P:=debug) (CropTransform.new 0) crop_config).

Definition centre_crop : CropTransform.t :=
  Eval vm_compute in
    from_Ok (CropTransform.new 0) (CropTransform.Init (P:=debug) (CropTransform.new 0) []).

(** The example without the [randomize] parameter: the manifest is
    shuffled at the start of each epoch. *)
Definition shuffled_config : ConfigParameters :=
  [ ("features", ConfigDict [ ("width", ConfigText "2"); ("height", ConfigText "2");
                              ("channels", ConfigText "3") ]);
    ("labels", ConfigDict [ ("labelDim", ConfigText "2") ]);
    ("file", ConfigText "train_map.txt") ].

Definition shuffling : ImageReader.t :=
  Eval vm_compute in from_Ok blank (ImageReader.Init (P:=debug) constructed shuffled_config).

(** A platform with a mean file: twelve values stored as one row, declared
    as 3 channels of 2 rows and 2 columns. *)
Definition stored_mean : Mat :=
  {| rows := 1; cols := 12; depth := CV_32F; channels := 1;
     data := (fun k => binary_normalize 24 128 k 0 false) <$> seqZ 1 12 |}.

Definition mean_file_impl (path : string) : option (Mat * Z * Z * Z) :=
  if String.eqb path "mean.xml" then Some (stored_mean, 3, 2, 2) else None.

Definition with_mean_file : Platform :=
  {| NDEBUG := false;
     requestDataSize := 2 ^ 62 - 1;
     stof := stof_impl;
     uniform_int_distribution := uniform_int_distribution_impl;
     uniform_real_distribution := uniform_real_distribution_impl;
     bernoulli_distribution := bernoulli_distribution_impl;
     shuffle := shuffle_impl;
     imread := imread_impl;
     convert_elem := convert_elem_impl;
     resize_data := resize_data_impl;
     subtract_elem := subtract_elem_impl;
     subtract_other := subtract_other_impl;
     FileStorage_read := mean_file_impl;
     ifstream_read := ifstream_read_impl;
     uniform_int_range := uniform_int_range_impl |}.

Definition mean_config : ConfigParameters := [ ("meanFile", ConfigText "mean.xml") ].

(** The image a.jpg after the one-channel scale transform. *)
Definition scaled : Mat * ScaleTransform.t :=
  Eval vm_compute in
    from_Ok (imread_impl "a.jpg", gray_scale)
      (ScaleTransform.Apply (P:=debug) gray_scale (imread_impl "a.jpg")).

(** The image b.jpg after the transforms of the example, and the
    transforms after it. *)
Definition second_image : Mat * list ITransform :=
  Eval vm_compute in
    from_Ok (Mat_released, [])
      (Apply_all (P:=debug) (ImageReader.m_transforms started) (imread_impl "b.jpg")).

(** The two iterations of the first minibatch of the example, the second
    one first. *)
Definition reversed_slots : ImageReader.slot_state :=
  Eval vm_compute in
    from_Ok ([], [], [])
      (ImageReader.fill_slots (P:=debug) started
         (ImageReader.m_transforms started, ImageReader.m_featBuf started,
          ImageReader.m_labBuf started) [1; 0]).

(** The shuffling reader reseeded with 42 and started on its first epoch. *)
Definition reseeded : ImageReader.t :=
  Eval vm_compute in
    from_Ok blank
      (ImageReader.StartMinibatchLoop (P:=debug)
         (ImageReader.SetRandomSeed shuffling 42) 2 0 4).

(** The example started with a minibatch size of 0, assertions compiled
    out. *)
Definition stalled : ImageReader.t :=
  Eval vm_compute in
    from_Ok blank (ImageReader.StartMinibatchLoop (P:=release) configured 0 0 4).

End Reference.

(** * Properties *)

(** ** Helper facts *)

Lemma assert_true `{P : Platform} (e : bool) (expr : string) :
  NDEBUG = true \/ e = true -> assert e expr = Ok tt.
Proof. unfold assert. intros [-> | ->]; [done | by destruct NDEBUG]. Qed.

Lemma assert_false_debug `{P : Platform} (e : bool) (expr : string) :
  NDEBUG = false -> e = false -> assert e expr = Fail (AssertionFailed expr).
Proof. unfold assert. by intros -> ->. Qed.

Lemma getline_all_step (delim : ascii) (s token rest : string) :
  getline s delim = Some (token, rest) ->
  getline_all delim s = token :: getline_all delim rest.
Proof.
  revert token rest. induction s as [| c s IH]; intros token rest; [done |].
  cbn [getline split_at getline_all]. destruct (Ascii.eqb c delim).
  - by intros [= <- <-].
  - destruct (split_at delim s) as [t r] eqn:Hs. intros [= <- <-].
    destruct s as [| c' s'].
    + cbn in Hs. by injection Hs as <- <-.
    + by rewrite (IH t r) by (cbn [getline]; by rewrite Hs).
Qed.

Lemma to_size_t_small (z : Z) : 0 <= z < SIZE_MOD -> to_size_t z = z.
Proof. intros H. unfold to_size_t. by apply Z.mod_small. Qed.

Lemma to_size_t_range (z : Z) : 0 <= to_size_t z < SIZE_MOD.
Proof. unfold to_size_t, SIZE_MOD. apply Z.mod_pos_bound. lia. Qed.

Lemma size_add_small (a b : Z) : 0 <= a + b < SIZE_MOD -> size_add a b = a + b.
Proof. apply to_size_t_small. Qed.

Lemma size_mul_small (a b : Z) : 0 <= a * b < SIZE_MOD -> size_mul a b = a * b.
Proof. apply to_size_t_small. Qed.

Lemma size_sub_small (a b : Z) : 0 <= a - b < SIZE_MOD -> size_sub a b = a - b.
Proof. apply to_size_t_small. Qed.

(** ** The epoch and minibatch iterator *)

Section Iterator.
Context `{P : Platform}.
Import ImageReader.

(** C10.  A call of [StartMinibatchLoop] whose assertions hold (or are
    compiled out) returns, and when [epoch * epochSize], computed in
    [size_t], is below the number of manifest entries, so that the reset
    branch is not taken, [m_mbStart] keeps the value it had before the
    call; [m_epochStart] is the product and not copied to [m_mbStart]. *)
Theorem StartMinibatchLoop_keeps_mbStart (self : t) (mbSize epoch requestedEpochSamples : Z) :
  NDEBUG = true
  \/ (0 < mbSize /\ 0 < requestedEpochSamples
      /\ (requestedEpochSamples = requestDataSize
          \/ requestedEpochSamples mod mbSize = 0)) ->
  exists self',
    StartMinibatchLoop self mbSize epoch requestedEpochSamples = Ok self'
    /\ (size_mul epoch (m_epochSize self') < files_size self' ->
        m_mbStart self' = m_mbStart self
        /\ m_epochStart self' = size_mul epoch (m_epochSize self')).
Proof.
  intros Hpre. unfold StartMinibatchLoop.
  rewrite (assert_true (0 <? mbSize)) by
    (destruct Hpre as [? | (? & _)]; [by left | right; lia]).
  rewrite (assert_true (0 <? requestedEpochSamples)) by
    (destruct Hpre as [? | (_ & ? & _)]; [by left | right; lia]).
  cbn [mbind outcome_bind].
  destruct (shuffle_files self) as [shuffled rng].
  rewrite assert_true.
  2:{ destruct Hpre as [? | (_ & _ & Hm)]; [by left | right].
      destruct Hm as [-> | Hm].
      - by rewrite Z.eqb_refl.
      - destruct (requestedEpochSamples =? requestDataSize); [done |].
        cbn. lia. }
  cbn [mbind outcome_bind]. eexists. split; [reflexivity |].
  unfold files_size. cbn [m_epochSize files m_mbStart m_epochStart].
  intros Hlt.
  destruct (Z.leb_spec (Z.of_nat (length shuffled))
              (size_mul epoch
                 (if requestedEpochSamples =? requestDataSize
                  then Z.of_nat (length shuffled) else requestedEpochSamples)));
    [lia | done].
Qed.

(** The buffers that [StartMinibatchLoop] leaves hold [mbSize] samples. *)
Lemma StartMinibatchLoop_buffers (self self' : t) (mbSize epoch requestedEpochSamples : Z) :
  StartMinibatchLoop self mbSize epoch requestedEpochSamples = Ok self' ->
  m_mbSize self' = mbSize
  /\ m_featDim self' = m_featDim self /\ m_labDim self' = m_labDim self
  /\ length (m_featBuf self') = Z.to_nat (size_mul mbSize (m_featDim self))
  /\ length (m_labBuf self') = Z.to_nat (size_mul mbSize (m_labDim self)).
Proof.
  unfold StartMinibatchLoop. intros H.
  repeat match type of H with
         | context [assert ?e ?s] =>
             destruct (assert e s); cbn [mbind outcome_bind] in H; [| discriminate H]
         end.
  destruct (shuffle_files self) as [shuffled rng].
  destruct (assert _ _); cbn [mbind outcome_bind] in H; [| discriminate H].
  injection H as <-. cbn. unfold vector_resize. by rewrite !length_resize.
Qed.

(** C4 (as amended).  A call with [requestedEpochSamples] that is neither
    the "use the full data set" value nor a multiple of [mbSize] trips the
    assertion of [StartMinibatchLoop] when assertions are compiled in, and
    is accepted, with [m_epochSize] set to the request, when they are
    compiled out; neither build raises a [RuntimeError]. *)
Theorem StartMinibatchLoop_epoch_not_multiple (self : t) (mbSize epoch requestedEpochSamples : Z) :
  requestedEpochSamples <> requestDataSize ->
  requestedEpochSamples mod mbSize <> 0 ->
  (NDEBUG = false -> 0 < mbSize -> 0 < requestedEpochSamples ->
   StartMinibatchLoop self mbSize epoch requestedEpochSamples
   = Fail (AssertionFailed
             "requestedEpochSamples == requestDataSize || (m_epochSize % m_mbSize) == 0"))
  /\ (NDEBUG = true ->
      exists self',
        StartMinibatchLoop self mbSize epoch requestedEpochSamples = Ok self'
        /\ m_epochSize self' = requestedEpochSamples
        /\ m_mbSize self' = mbSize).
Proof.
  intros Hne Hmod.
  assert (Hs : (requestedEpochSamples =? requestDataSize) = false) by lia.
  split.
  - intros Hd Hmb Hreq. unfold StartMinibatchLoop.
    rewrite !assert_true by (right; lia). cbn [mbind outcome_bind].
    destruct (shuffle_files self) as [shuffled rng].
    rewrite Hs. rewrite assert_false_debug; [done | done |].
    cbn. lia.
  - intros Hr. unfold StartMinibatchLoop.
    rewrite !assert_true by (by left). cbn [mbind outcome_bind].
    destruct (shuffle_files self) as [shuffled rng].
    rewrite Hs. rewrite assert_true by (by left). cbn [mbind outcome_bind].
    eexists. split; [reflexivity |]. done.
Qed.

Lemma fill_slot_lengths (self : t) (st st' : slot_state) (i : Z) :
  fill_slot self st i = Ok st' ->
  (0 <= m_featDim self -> length (snd (fst st')) = length (snd (fst st)))
  /\ length (snd st') = length (snd st).
Proof.
  destruct st as [[trs fb] lb]. unfold fill_slot.
  destruct (files self !! _) as [p |]; [| done].
  destruct (Apply_all trs (imread p.1)) as [[img trs'] | e]; [| done].
  cbn [mbind outcome_bind].
  pose proof (to_size_t_range (m_featDim self * i)) as Hat.
  fold (size_mul (m_featDim self) i) in Hat.
  repeat case_match; try done.
  intros [= <-]. cbn [fst snd]. split; [| by rewrite length_insert].
  intros Hd. rewrite !length_app, !length_take, length_drop. lia.
Qed.

Lemma fill_slots_lengths (self : t) (indices : list Z) (st st' : slot_state) :
  fill_slots self st indices = Ok st' ->
  (0 <= m_featDim self -> length (snd (fst st')) = length (snd (fst st)))
  /\ length (snd st') = length (snd st).
Proof.
  revert st. induction indices as [| i rest IH]; intros st.
  - by intros [= <-].
  - cbn [fill_slots]. destruct (fill_slot self st i) as [st1 | e] eqn:Hs; [| done].
    cbn [mbind outcome_bind]. intros Hrest.
    destruct (fill_slot_lengths self st st1 i Hs) as [H1 H2].
    destruct (IH st1 Hrest) as [H3 H4]. split; [intros Hd | congruence].
    rewrite H3, H1; done.
Qed.

(** C1.  With both destination matrices present and [m_mbSize > 0] (or
    assertions compiled out), [GetMinibatch] returns false exactly when
    [m_mbStart >= |files|] or [m_mbStart >= m_epochStart + m_epochSize]
    (the sum as [size_t] computes it), leaving the reader as it was.
    Otherwise, when every sample of the slice is processed without a
    fault and the buffers hold the batch, it returns true and [m_mbStart]
    becomes [min (m_mbStart + m_mbSize, |files|)]. *)
Theorem GetMinibatch_no_more_data_iff (self : t) (matrices : gmap string Matrix) :
  is_Some (matrices !! m_featName self) ->
  is_Some (matrices !! m_labName self) ->
  NDEBUG = true \/ 0 < m_mbSize self ->
  let no_more :=
    files_size self <= m_mbStart self
    \/ size_add (m_epochStart self) (m_epochSize self) <= m_mbStart self in
  let lim := Z.min (size_add (m_mbStart self) (m_mbSize self)) (files_size self) in
  (no_more -> GetMinibatch self matrices = Ok (false, self, matrices))
  /\ ((exists self' matrices',
         GetMinibatch self matrices = Ok (false, self', matrices')) -> no_more)
  /\ (~ no_more ->
      is_Ok (pack_slots self) ->
      0 <= m_featDim self ->
      size_mul (m_featDim self) (size_sub lim (m_mbStart self))
        <= Z.of_nat (length (m_featBuf self)) ->
      size_mul (m_labDim self) (size_sub lim (m_mbStart self))
        <= Z.of_nat (length (m_labBuf self)) ->
      exists self' matrices',
        GetMinibatch self matrices = Ok (true, self', matrices')
        /\ m_mbStart self' = lim).
Proof.
  intros [f Hf] [l Hl] Hmb no_more lim.
  assert (Hex : exhausted self = true <-> no_more).
  { unfold exhausted, no_more. rewrite orb_true_iff, !Z.leb_le. done. }
  assert (Hlim : mbLim self = lim).
  { unfold mbLim, lim. case_match; lia. }
  assert (Hpre : GetMinibatch self matrices
                 = if exhausted self then Ok (false, self, matrices)
                   else produce self matrices).
  { unfold GetMinibatch.
    rewrite (assert_true (0 <? Z.of_nat (size matrices))).
    2:{ right. apply Z.ltb_lt.
        assert (size matrices <> 0%nat); [| lia].
        intros H0. apply map_size_empty_iff in H0. by rewrite H0 in Hf. }
    rewrite (assert_true (bool_decide _)) by (right; apply bool_decide_eq_true; eauto).
    rewrite (assert_true (0 <? m_mbSize self))
      by (destruct Hmb; [by left | right; lia]).
    cbn [mbind outcome_bind]. by rewrite Hf, Hl. }
  unfold produce in Hpre.
  split; [| split].
  - intros Hn. rewrite Hpre. apply Hex in Hn. by rewrite Hn.
  - intros (self' & matrices' & Hg). apply Hex.
    rewrite Hpre in Hg. destruct (exhausted self); [done |].
    destruct (pack_slots self) as [[[trs fb] lb] | e]; [| done].
    cbn [mbind outcome_bind] in Hg.
    destruct (SetValue (m_featDim self) _ fb); [| done].
    cbn [mbind outcome_bind] in Hg.
    destruct (SetValue (m_labDim self) _ lb); done.
  - intros Hn [[[trs fb] lb] Hp] Hd Hfb Hlb. rewrite Hpre.
    destruct (exhausted self); [exfalso; by apply Hn, Hex |].
    rewrite Hp. cbn [mbind outcome_bind].
    destruct (fill_slots_lengths self _ _ _ Hp) as [Hlf Hll].
    specialize (Hlf Hd).
    cbn [fst snd] in Hlf, Hll. rewrite length_replicate in Hll.
    unfold SetValue, batch_size. rewrite Hlim, Hlf, Hll.
    destruct (Z.leb_spec (size_mul (m_featDim self) (size_sub lim (m_mbStart self)))
                (Z.of_nat (length (m_featBuf self)))); [| lia].
    cbn [mbind outcome_bind].
    destruct (Z.leb_spec (size_mul (m_labDim self) (size_sub lim (m_mbStart self)))
                (Z.of_nat (length (m_labBuf self)))); [| lia].
    cbn [mbind outcome_bind]. eexists _, _. split; [reflexivity |]. done.
Qed.

(** *** The label buffer *)

Lemma elem_value_one (E : ElemType) : elem_value (elem_of_int E 1) = 1.
Proof. by destruct E. Qed.

Lemma elem_value_zero (E : ElemType) : elem_value (elem_of_int E 0) = 0.
Proof. by destruct E. Qed.

Lemma buffer_sum_app (l1 l2 : list spec_float) :
  buffer_sum (l1 ++ l2) = buffer_sum l1 + buffer_sum l2.
Proof. induction l1 as [| x l1 IH]; cbn; [done |]. fold (buffer_sum (l1 ++ l2)).
  fold (buffer_sum l1). lia. Qed.

Lemma buffer_sum_zeros (E : ElemType) (n : nat) :
  buffer_sum (replicate n (elem_of_int E 0)) = 0.
Proof. induction n as [| n IH]; cbn; [done |].
  fold (buffer_sum (replicate n (elem_of_int E 0))). rewrite IH.
  by destruct E. Qed.

Lemma one_hot_length (E : ElemType) (d label : Z) :
  length (one_hot E d label) = Z.to_nat d.
Proof. unfold one_hot. by rewrite length_insert, length_replicate. Qed.

Lemma one_hot_split (E : ElemType) (d label : Z) :
  0 <= label < d ->
  one_hot E d label
  = replicate (Z.to_nat label) (elem_of_int E 0)
      ++ elem_of_int E 1 :: replicate (Z.to_nat (d - label - 1)) (elem_of_int E 0).
Proof.
  intros H. unfold one_hot.
  replace (Z.to_nat d) with (Z.to_nat label + S (Z.to_nat (d - label - 1)))%nat by lia.
  rewrite replicate_add. cbn [replicate].
  replace (Z.to_nat label) with
    (length (replicate (Z.to_nat label) (elem_of_int E 0)) + 0)%nat at 1
    by (rewrite length_replicate; lia).
  by rewrite insert_app_r.
Qed.

Lemma one_hot_sum (E : ElemType) (d label : Z) :
  0 <= label < d -> buffer_sum (one_hot E d label) = 1.
Proof.
  intros H. rewrite one_hot_split by done. rewrite buffer_sum_app. cbn [buffer_sum foldr].
  fold (buffer_sum (replicate (Z.to_nat (d - label - 1)) (elem_of_int E 0))).
  rewrite !buffer_sum_zeros, elem_value_one. lia.
Qed.

Lemma one_hot_lookup (E : ElemType) (d label j : Z) :
  0 <= label < d -> 0 <= j < d ->
  one_hot E d label !! Z.to_nat j = Some (elem_of_int E (if j =? label then 1 else 0)).
Proof.
  intros Hl Hj. unfold one_hot. destruct (Z.eqb_spec j label) as [-> | Hne].
  - apply list_lookup_insert_eq. rewrite length_replicate. lia.
  - rewrite list_lookup_insert_ne by lia. apply lookup_replicate_2. lia.
Qed.

(** One iteration writes a 1 at [m_labDim * i + label] and nothing else of
    the label buffer. *)
Lemma fill_slot_label (self : t) (trs : list ITransform) (fb lb : list spec_float)
    (i : Z) (st' : slot_state) :
  fill_slot self (trs, fb, lb) i = Ok st' ->
  exists p,
    files self !! Z.to_nat (size_add i (m_mbStart self)) = Some p
    /\ size_add (size_mul (m_labDim self) i) (to_size_t (snd p)) < Z.of_nat (length lb)
    /\ snd st'
       = <[Z.to_nat (size_add (size_mul (m_labDim self) i) (to_size_t (snd p)))
           := elem_of_int (elemType self) 1]> lb.
Proof.
  unfold fill_slot. destruct (files self !! _) as [p |]; [| done].
  destruct (Apply_all trs (imread p.1)) as [[img trs'] | e]; [| done].
  cbn [mbind outcome_bind]. repeat case_match; try done.
  intros [= <-]. exists p. cbn [snd]. split; [done |]. split; [lia | done].
Qed.

Lemma fill_slots_labels (self : t) (m : nat) :
  forall (k : Z) (trs : list ITransform) (fb written : list spec_float) (room : nat)
         (st' : slot_state),
    0 <= k -> 0 <= m_mbStart self -> 0 <= m_labDim self ->
    m_mbStart self + k + Z.of_nat m < SIZE_MOD ->
    m_labDim self * (k + Z.of_nat m) < SIZE_MOD ->
    length written = Z.to_nat (m_labDim self * k) ->
    (Z.to_nat (m_labDim self) * m <= room)%nat ->
    (forall i p, k <= i < k + Z.of_nat m ->
                 files self !! Z.to_nat (m_mbStart self + i) = Some p ->
                 0 <= snd p < m_labDim self) ->
    fill_slots self (trs, fb, written ++ replicate room (elem_of_int (elemType self) 0))
      (seqZ k (Z.of_nat m)) = Ok st' ->
    snd st'
    = written ++ label_rows self (seqZ k (Z.of_nat m))
        ++ replicate (room - Z.to_nat (m_labDim self) * m) (elem_of_int (elemType self) 0).
Proof.
  induction m as [| m IH]; intros k trs fb written room st' Hk Hs Hd Hov1 Hov2 Hlen Hroom Hlab.
  - cbn [fill_slots seqZ Z.of_nat]. intros [= <-]. cbn [snd].
    change (seqZ k 0) with (@nil Z). cbn [label_rows flat_map app].
    by rewrite Nat.mul_0_r, Nat.sub_0_r.
  - rewrite Nat2Z.inj_succ, seqZ_cons by lia. cbn [fill_slots].
    destruct (fill_slot self _ k) as [st1 |] eqn:Hslot; [| done].
    cbn [mbind outcome_bind]. intros Hrest.
    destruct st1 as [[trs1 fb1] lb1].
    apply fill_slot_label in Hslot as (p & Hp & _ & Hlb1). cbn [snd] in Hlb1.
    rewrite size_add_small in Hp by lia.
    replace (k + m_mbStart self) with (m_mbStart self + k) in Hp by lia.
    specialize (Hlab k p ltac:(lia) Hp) as Hrange.
    assert (Hmul : m_labDim self * k + m_labDim self <= m_labDim self * (k + Z.succ (Z.of_nat m)))
      by nia.
    rewrite (size_mul_small (m_labDim self) k) in Hlb1 by nia.
    rewrite (to_size_t_small (snd p)) in Hlb1 by lia.
    rewrite size_add_small in Hlb1 by lia.
    replace (Z.to_nat (m_labDim self * k + snd p))
      with (length written + Z.to_nat (snd p))%nat in Hlb1 by lia.
    rewrite insert_app_r in Hlb1.
    replace room with (Z.to_nat (m_labDim self) + (room - Z.to_nat (m_labDim self)))%nat
      in Hlb1 by lia.
    rewrite replicate_add in Hlb1.
    rewrite insert_app_l in Hlb1 by (rewrite length_replicate; lia).
    fold (one_hot (elemType self) (m_labDim self) (snd p)) in Hlb1.
    rewrite app_assoc in Hlb1. subst lb1.
    replace (Z.pred (Z.succ (Z.of_nat m))) with (Z.of_nat m) in * by lia.
    apply IH in Hrest; try lia.
    + rewrite Hrest. cbn [label_rows flat_map]. fold (label_rows self (seqZ (Z.succ k) (Z.of_nat m))).
      rewrite Hp. rewrite <- !app_assoc. do 3 f_equal. f_equal. rewrite Nat.mul_succ_r. lia.
    + rewrite length_app, one_hot_length. lia.
    + intros i q Hi Hq. apply (Hlab i q); [lia | done].
Qed.

Lemma label_rows_spec (self : t) (m : nat) :
  forall k : Z,
    0 <= k -> 0 <= m_mbStart self -> 0 <= m_labDim self ->
    (forall i, k <= i < k + Z.of_nat m ->
               exists p, files self !! Z.to_nat (m_mbStart self + i) = Some p
                         /\ 0 <= snd p < m_labDim self) ->
    length (label_rows self (seqZ k (Z.of_nat m))) = (Z.to_nat (m_labDim self) * m)%nat
    /\ buffer_sum (label_rows self (seqZ k (Z.of_nat m))) = Z.of_nat m
    /\ (forall i j p,
          k <= i < k + Z.of_nat m -> 0 <= j < m_labDim self ->
          files self !! Z.to_nat (m_mbStart self + i) = Some p ->
          label_rows self (seqZ k (Z.of_nat m)) !! Z.to_nat (m_labDim self * (i - k) + j)
          = Some (elem_of_int (elemType self) (if j =? snd p then 1 else 0))).
Proof.
  induction m as [| m IH]; intros k Hk Hs Hd Hall.
  - change (seqZ k (Z.of_nat 0)) with (@nil Z). cbn. split; [lia |]. split; [done |].
    intros i j p Hi. lia.
  - rewrite Nat2Z.inj_succ, seqZ_cons by lia.
    replace (Z.pred (Z.succ (Z.of_nat m))) with (Z.of_nat m) by lia.
    cbn [label_rows flat_map]. fold (label_rows self (seqZ (Z.succ k) (Z.of_nat m))).
    destruct (Hall k ltac:(lia)) as (p & Hp & Hrange). rewrite Hp.
    destruct (IH (Z.succ k)) as (IHlen & IHsum & IHget); try lia.
    { intros i Hi. apply Hall. lia. }
    split; [| split].
    + rewrite length_app, one_hot_length, IHlen. rewrite Nat.mul_succ_r. lia.
    + rewrite buffer_sum_app, one_hot_sum, IHsum by done. lia.
    + intros i j q Hi Hj Hq. destruct (decide (i = k)) as [-> | Hne].
      * rewrite Hp in Hq. injection Hq as <-.
        replace (m_labDim self * (k - k) + j) with j by lia.
        rewrite lookup_app_l by (rewrite one_hot_length; lia).
        by apply one_hot_lookup.
      * rewrite lookup_app_r by (rewrite one_hot_length; nia).
        rewrite one_hot_length.
        replace (Z.to_nat (m_labDim self * (i - k) + j) - Z.to_nat (m_labDim self))%nat
          with (Z.to_nat (m_labDim self * (i - Z.succ k) + j)) by nia.
        apply IHget; [lia | done | done].
Qed.

Lemma GetMinibatch_true_inv (self self' : t) (matrices matrices' : gmap string Matrix) :
  GetMinibatch self matrices = Ok (true, self', matrices') ->
  exhausted self = false
  /\ exists transforms featBuf labBuf features labels,
       pack_slots self = Ok (transforms, featBuf, labBuf)
       /\ SetValue (m_featDim self) (batch_size self) featBuf = Ok features
       /\ SetValue (m_labDim self) (batch_size self) labBuf = Ok labels
       /\ m_mbStart self' = mbLim self
       /\ m_labBuf self' = labBuf
       /\ matrices' = <[m_labName self := labels]> (<[m_featName self := features]> matrices).
Proof.
  unfold GetMinibatch. intros H.
  repeat match type of H with
         | context [assert ?e ?s] =>
             destruct (assert e s); cbn [mbind outcome_bind] in H; [| discriminate H]
         end.
  destruct (exhausted self); [done |].
  destruct (matrices !! m_featName self); [| by destruct (pack_slots self)].
  destruct (matrices !! m_labName self); [| by destruct (pack_slots self)].
  split; [done |]. unfold produce in H.
  destruct (pack_slots self) as [[[trs fb] lb] |]; [| done].
  cbn [mbind outcome_bind] in H.
  destruct (SetValue (m_featDim self) _ fb) as [features |] eqn:Hf; [| done].
  cbn [mbind outcome_bind] in H.
  destruct (SetValue (m_labDim self) _ lb) as [labels |] eqn:Hl; [| done].
  cbn [mbind outcome_bind] in H. injection H as <- <-.
  by eexists _, _, _, _, _.
Qed.

(** C2.  After a successful [GetMinibatch], when every label of the slice
    satisfies [0 <= label < m_labDim] (and the sizes involved do not
    overflow), the label matrix handed off is [m_labDim] by
    [mbLim - m_mbStart]; row [i] of it is all zeros except for a 1 at
    [m_labDim * i + label], and the elements of the whole matrix sum to
    [mbLim - m_mbStart]. *)
Theorem GetMinibatch_labels_one_hot (self self' : t) (matrices matrices' : gmap string Matrix) :
  GetMinibatch self matrices = Ok (true, self', matrices') ->
  0 <= m_mbStart self -> 0 <= m_mbSize self ->
  m_mbStart self + m_mbSize self < 2 ^ 63 ->
  0 <= m_labDim self -> m_labDim self * m_mbSize self < SIZE_MOD ->
  (forall i path label,
     m_mbStart self <= i < m_mbStart self' ->
     files self !! Z.to_nat i = Some (path, label) ->
     0 <= label < m_labDim self) ->
  let n := m_mbStart self' - m_mbStart self in
  exists labels,
    matrices' !! m_labName self = Some labels
    /\ numRows labels = m_labDim self
    /\ numCols labels = n
    /\ Z.of_nat (length (values labels)) = m_labDim self * n
    /\ (forall i j path label,
          0 <= i < n -> 0 <= j < m_labDim self ->
          files self !! Z.to_nat (m_mbStart self + i) = Some (path, label) ->
          values labels !! Z.to_nat (m_labDim self * i + j)
          = Some (elem_of_int (elemType self) (if j =? label then 1 else 0)))
    /\ buffer_sum (values labels) = n.
Proof.
  intros Hget Hs Hmb Hov Hd Hov2 Hlab n.
  apply GetMinibatch_true_inv in Hget
    as (Hex & trs & fb & lb & features & labels & Hpack & _ & Hset & Hlim & _ & ->).
  unfold exhausted in Hex. apply orb_false_iff in Hex as [Hex1 Hex2].
  apply Z.leb_gt in Hex1, Hex2. unfold files_size in Hex1.
  assert (Hsz : SIZE_MOD = 2 ^ 64) by done.
  assert (Hmb' : mbLim self = Z.min (m_mbStart self + m_mbSize self) (files_size self)).
  { unfold mbLim. rewrite size_add_small by lia. case_match; lia. }
  assert (Hn : batch_size self = n).
  { unfold batch_size, n. rewrite Hlim. apply size_sub_small. unfold files_size in *. lia. }
  assert (Hn0 : 0 <= n <= m_mbSize self) by (unfold n, files_size in *; lia).
  assert (Hnf : m_mbStart self + n <= Z.of_nat (length (files self)))
    by (unfold n, files_size in *; lia).
  unfold pack_slots in Hpack. rewrite Hn in Hpack, Hset.
  replace (to_long_long n) with (Z.of_nat (Z.to_nat n)) in Hpack.
  2:{ unfold to_long_long. rewrite Z.mod_small by lia. lia. }
  pose proof (fill_slots_lengths self _ _ _ Hpack) as [_ Hlen].
  cbn [snd] in Hlen. rewrite length_replicate in Hlen.
  unfold SetValue in Hset. rewrite size_mul_small in Hset by nia.
  destruct (Z.leb_spec (m_labDim self * n) (Z.of_nat (length lb))) as [Hroom |]; [| done].
  injection Hset as <-.
  assert (Hrows : forall i, 0 <= i < 0 + Z.of_nat (Z.to_nat n) ->
            exists p, files self !! Z.to_nat (m_mbStart self + i) = Some p
                      /\ 0 <= snd p < m_labDim self).
  { intros i Hi.
    destruct (lookup_lt_is_Some_2 (files self) (Z.to_nat (m_mbStart self + i)))
      as [[path label] Hp]; [lia |].
    exists (path, label). split; [done |].
    apply (Hlab (m_mbStart self + i) path label); [lia | done]. }
  apply (fill_slots_labels self (Z.to_nat n) 0 _ _ [] (length (m_labBuf self))) in Hpack;
    try (cbn [length]; nia).
  2:{ intros i [path label] Hi Hp. cbn [snd].
      apply (Hlab (m_mbStart self + i) path label); [lia | done]. }
  cbn [snd app] in Hpack.
  destruct (label_rows_spec self (Z.to_nat n) 0 ltac:(lia) Hs Hd Hrows)
    as (Hlrl & Hlrs & Hlrg).
  assert (Htake : take (Z.to_nat (m_labDim self * n)) lb
                  = label_rows self (seqZ 0 (Z.of_nat (Z.to_nat n)))).
  { rewrite Hpack. rewrite take_app_length'; [done | rewrite Hlrl; nia]. }
  eexists. split; [apply lookup_insert_eq |].
  cbn [numRows numCols values]. rewrite Htake.
  split; [done |]. split; [done |]. split; [rewrite Hlrl; nia |]. split.
  - intros i j path label Hi Hj Hp.
    specialize (Hlrg i j (path, label) ltac:(lia) Hj Hp).
    by replace (i - 0) with i in Hlrg by lia.
  - rewrite Hlrs. lia.
Qed.

End Iterator.

(** ** Floating point: rounding a product

    The facts about [SFmul] that the crop size needs: shifting a mantissa
    right, the number of digits of a mantissa, and a bound on a rounded
    product. *)

Lemma iter_pos_nat {A} (f : A -> A) (p : positive) (x : A) :
  SpecFloat.iter_pos f p x = Nat.iter (Pos.to_nat p) f x.
Proof.
  revert x. induction p as [p IH | p IH |]; intros x; cbn [SpecFloat.iter_pos].
  - rewrite !IH, Pos2Nat.inj_xI. rewrite <- Nat.iter_succ_r, <- Nat.iter_add.
    f_equal. lia.
  - rewrite !IH, Pos2Nat.inj_xO. rewrite <- Nat.iter_add. f_equal. lia.
  - done.
Qed.

Lemma shr_1_spec (mrs : shr_record) :
  0 <= shr_m mrs ->
  shr_m (shr_1 mrs) = shr_m mrs / 2
  /\ shr_r (shr_1 mrs) = Z.odd (shr_m mrs)
  /\ shr_s (shr_1 mrs) = shr_r mrs || shr_s mrs.
Proof.
  destruct mrs as [m r s]. cbn [shr_m shr_r shr_s]. intros Hm.
  rewrite <- Z.div2_div.
  destruct m as [| [p | p |] | p]; cbn; try done; lia.
Qed.

Lemma shr_iter_spec (k : nat) (M : Z) :
  0 <= M ->
  shr_m (Nat.iter k shr_1 {| shr_m := M; shr_r := false; shr_s := false |})
  = M / 2 ^ Z.of_nat k
  /\ (M mod 2 ^ Z.of_nat k = 0 ->
      shr_r (Nat.iter k shr_1 {| shr_m := M; shr_r := false; shr_s := false |}) = false
      /\ shr_s (Nat.iter k shr_1 {| shr_m := M; shr_r := false; shr_s := false |}) = false).
Proof.
  intros HM. induction k as [| k IH].
  - cbn. rewrite Z.div_1_r. done.
  - rewrite !Nat.iter_succ. destruct IH as [IHm IHz].
    set (mrs := Nat.iter k shr_1 _) in *.
    assert (H0 : 0 <= shr_m mrs) by (rewrite IHm; apply Z.div_pos; lia).
    destruct (shr_1_spec mrs H0) as (Hm & Hr & Hs).
    rewrite Nat2Z.inj_succ, Z.pow_succ_r by lia.
    split.
    + rewrite Hm, IHm, Z.div_div by lia. f_equal. lia.
    + intros Hz. apply Z.mod_divide in Hz; [| lia]. destruct Hz as [c Hc].
      assert (Hk : M mod 2 ^ Z.of_nat k = 0).
      { rewrite Hc. replace (c * (2 * 2 ^ Z.of_nat k)) with (c * 2 * 2 ^ Z.of_nat k) by lia.
        apply Z.mod_mul. lia. }
      destruct (IHz Hk) as [Hr0 Hs0]. rewrite Hr, Hs, Hr0, Hs0, IHm. split; [| done].
      rewrite Hc. replace (c * (2 * 2 ^ Z.of_nat k)) with (c * 2 * 2 ^ Z.of_nat k) by lia.
      rewrite Z.div_mul by lia. rewrite Z.odd_mul. cbn. apply andb_false_r.
Qed.

Lemma shr_spec (M e s : Z) :
  0 <= M ->
  exists mrs,
    shr {| shr_m := M; shr_r := false; shr_s := false |} e s = (mrs, e + Z.max 0 s)
    /\ shr_m mrs = M / 2 ^ Z.max 0 s
    /\ (M mod 2 ^ Z.max 0 s = 0 -> loc_of_shr_record mrs = loc_Exact).
Proof.
  intros HM. destruct s as [| p | p]; cbn [shr].
  - eexists. split; [f_equal; lia |]. cbn. rewrite Z.div_1_r. done.
  - rewrite iter_pos_nat.
    destruct (shr_iter_spec (Pos.to_nat p) M HM) as [Hm Hz].
    rewrite positive_nat_Z in Hm, Hz.
    eexists. split; [f_equal; lia |].
    replace (Z.max 0 (Z.pos p)) with (Z.pos p) by lia.
    split; [done |]. intros H0. destruct (Hz H0) as [Hr Hs].
    destruct (Nat.iter _ _ _) as [m r s]. cbn in Hr, Hs. by subst.
  - eexists. split; [f_equal; lia |]. cbn. rewrite Z.div_1_r. done.
Qed.

Lemma digits2_pos_size (p : positive) : digits2_pos p = Pos.size p.
Proof. induction p as [p IH | p IH |]; cbn; by rewrite ?IH. Qed.

Lemma Zdigits2_bounds (p : positive) :
  2 ^ (Zdigits2 (Z.pos p) - 1) <= Z.pos p < 2 ^ Zdigits2 (Z.pos p).
Proof.
  cbn [Zdigits2]. rewrite digits2_pos_size.
  pose proof (Pos.size_gt p) as Hgt. pose proof (Pos.size_le p) as Hle.
  apply Pos2Z.pos_lt_pos in Hgt. apply Pos2Z.pos_le_pos in Hle.
  rewrite Pos2Z.inj_pow in Hgt, Hle.
  change (Z.pos p~0) with (2 * Z.pos p) in Hle.
  replace (2 ^ Z.pos (Pos.size p)) with (2 * 2 ^ (Z.pos (Pos.size p) - 1)) in Hle.
  2:{ rewrite <- Z.pow_succ_r by lia. f_equal. lia. }
  lia.
Qed.

Lemma Zdigits2_le (M k : Z) : 0 <= M < 2 ^ k -> 0 <= k -> Zdigits2 M <= k.
Proof.
  intros [H0 Hlt] Hk. destruct M as [| p | p]; [done | | lia].
  pose proof (Zdigits2_bounds p) as [Hlo _].
  assert (Hd : 0 < Zdigits2 (Z.pos p)) by (cbn; lia).
  assert (2 ^ (Zdigits2 (Z.pos p) - 1) < 2 ^ k) as Hp by lia.
  apply Z.pow_lt_mono_r_iff in Hp; lia.
Qed.

Lemma Zdigits2_eq (p : positive) (k : Z) :
  2 ^ (k - 1) <= Z.pos p < 2 ^ k -> 0 < k -> Zdigits2 (Z.pos p) = k.
Proof.
  intros [Hlo Hhi] Hk.
  pose proof (Zdigits2_bounds p) as [Hlo' Hhi'].
  assert (Hd : 0 < Zdigits2 (Z.pos p)) by (cbn; lia).
  assert (H1 : 2 ^ (k - 1) < 2 ^ Zdigits2 (Z.pos p)) by lia.
  assert (H2 : 2 ^ (Zdigits2 (Z.pos p) - 1) < 2 ^ k) by lia.
  apply Z.pow_lt_mono_r_iff in H1; [| lia | lia].
  apply Z.pow_lt_mono_r_iff in H2; lia.
Qed.

Lemma iter_xO_pow (p d : positive) : Z.pos (Pos.iter xO p d) = Z.pos p * 2 ^ Z.pos d.
Proof.
  induction d as [| d IH] using Pos.peano_ind.
  - cbn. lia.
  - rewrite Pos.iter_succ, Pos2Z.inj_xO, IH, Pos2Z.inj_succ, Z.pow_succ_r by lia. lia.
Qed.

Lemma double_trunc_finite (m : positive) (e : Z) :
  e <= 0 -> double_trunc (S754_finite false m e) = Some (Z.pos m / 2 ^ (- e)).
Proof.
  intros He. unfold double_trunc. destruct e as [| p | p]; [| lia |].
  - cbn. by rewrite Z.div_1_r, Z.mul_1_r.
  - done.
Qed.

Lemma double_floor_positive (m : positive) (e : Z) :
  double_floor (S754_finite false m e) = double_trunc (S754_finite false m e).
Proof. by destruct e. Qed.

Lemma fexp64 (e : Z) : fexp 53 1024 e = Z.max (e - 53) emin64.
Proof. done. Qed.

(** The rounded value of [M * 2^e0] does not exceed an integer bound [B]
    that the exact value does not exceed. *)
Lemma binary_round_aux_upper (M : positive) (e0 B : Z) :
  e0 <= 0 -> 0 <= B < 2 ^ 31 -> Z.pos M <= B * 2 ^ (- e0) ->
  exists z,
    double_trunc (binary_round_aux 53 1024 false (Z.pos M) e0 loc_Exact) = Some z
    /\ double_floor (binary_round_aux 53 1024 false (Z.pos M) e0 loc_Exact) = Some z
    /\ 0 <= z <= B.
Proof.
  intros He0 HB HM. unfold binary_round_aux, shr_fexp.
  cbn [shr_record_of_loc]. rewrite fexp64.
  set (d := Zdigits2 (Z.pos M)).
  assert (Hd : d <= 31 - e0).
  { apply Zdigits2_le; [| lia]. split; [lia |].
    replace (31 - e0) with (31 + - e0) by lia. rewrite Z.pow_add_r by lia.
    assert (0 < 2 ^ (- e0)) by (apply Z.pow_pos_nonneg; lia). nia. }
  destruct (shr_spec (Z.pos M) e0 (Z.max (d + e0 - 53) emin64 - e0) ltac:(lia))
    as (mrs1 & -> & Hm1 & Hx1).
  set (n := Z.max 0 (Z.max (d + e0 - 53) emin64 - e0)) in *.
  set (e1 := e0 + n).
  assert (Hn : 0 <= n) by lia.
  assert (He1 : e1 <= 0) by (unfold e1, n, emin64; lia).
  assert (He1' : emin64 <= e1) by (unfold e1, n, emin64; lia).
  set (K := B * 2 ^ (- e1)).
  assert (Hpow : 2 ^ (- e0) = 2 ^ (- e1) * 2 ^ n).
  { rewrite <- Z.pow_add_r by lia. f_equal. lia. }
  assert (H2n : 0 < 2 ^ n) by (apply Z.pow_pos_nonneg; lia).
  assert (H2e : 0 < 2 ^ (- e1)) by (apply Z.pow_pos_nonneg; lia).
  assert (HMK : Z.pos M <= K * 2 ^ n) by (unfold K; rewrite Hpow in HM; lia).
  set (m1 := round_nearest_even (shr_m mrs1) (loc_of_shr_record mrs1)).
  assert (Hm1K : 0 <= m1 <= K).
  { assert (Hq : 0 <= Z.pos M / 2 ^ n <= K).
    { split; [apply Z.div_pos; lia |]. apply Z.div_le_upper_bound; lia. }
    destruct (Z.eq_dec (Z.pos M mod 2 ^ n) 0) as [Hz | Hnz].
    - unfold m1. rewrite (Hx1 Hz). cbn. lia.
    - assert (Hlt : Z.pos M / 2 ^ n < K).
      { apply Z.div_lt_upper_bound; [lia |].
        destruct (Z.eq_dec (Z.pos M) (2 ^ n * K)) as [Heq | Hne]; [| lia].
        exfalso. apply Hnz. rewrite Heq, Z.mul_comm. apply Z.mod_mul. lia. }
      unfold m1, round_nearest_even. rewrite Hm1.
      destruct (loc_of_shr_record mrs1) as [| []]; try lia.
      destruct (Z.even _); lia. }
  assert (Hd1 : Zdigits2 m1 <= 31 - e1).
  { apply Zdigits2_le; [| lia]. split; [lia |].
    replace (31 - e1) with (31 + - e1) by lia. rewrite Z.pow_add_r by lia.
    unfold K in Hm1K. nia. }
  rewrite fexp64.
  destruct (shr_spec m1 e1 (Z.max (Zdigits2 m1 + e1 - 53) emin64 - e1) ltac:(lia))
    as (mrs2 & Hshr2 & Hm2 & _).
  fold e1. rewrite Hshr2.
  set (n2 := Z.max 0 (Z.max (Zdigits2 m1 + e1 - 53) emin64 - e1)) in *.
  assert (Hn2 : 0 <= n2) by lia.
  assert (He2 : e1 + n2 <= 0) by (unfold n2, emin64; lia).
  assert (H2n2 : 0 < 2 ^ n2) by (apply Z.pow_pos_nonneg; lia).
  assert (Hm2' : 0 <= shr_m mrs2) by (rewrite Hm2; apply Z.div_pos; lia).
  destruct (shr_m mrs2) as [| m2 | m2] eqn:Em2; [| | lia].
  - exists 0. split; [done |]. split; [done | lia].
  - destruct (Z.leb_spec (e1 + n2) (1024 - 53)) as [_ | Hbad]; [| lia].
    rewrite double_floor_positive, double_trunc_finite by done.
    eexists. split; [reflexivity |]. split; [reflexivity |].
    assert (H2e2 : 0 < 2 ^ (- (e1 + n2))) by (apply Z.pow_pos_nonneg; lia).
    split; [apply Z.div_pos; lia |].
    rewrite Hm2, Z.div_div by lia.
    rewrite <- Z.pow_add_r by lia.
    replace (n2 + - (e1 + n2)) with (- e1) by lia.
    apply Z.div_le_upper_bound; [lia |]. unfold K in Hm1K. lia.
Qed.

(** An [int] below 2^31 is a [double]: the mantissa is the integer
    shifted left. *)
Lemma double_of_int_exact (m : Z) :
  0 < m < 2 ^ 31 ->
  exists mx ex,
    double_of_int m = S754_finite false mx ex
    /\ ex <= 0 /\ Z.pos mx = m * 2 ^ (- ex).
Proof.
  intros Hm. destruct m as [| p | p]; [lia | | lia].
  unfold double_of_int, binary_normalize, binary_round.
  rewrite fexp64.
  pose proof (Zdigits2_bounds p) as Hdp.
  assert (Hd : 0 < Zdigits2 (Z.pos p) <= 31).
  { split; [cbn; lia |]. apply Zdigits2_le; lia. }
  change (Z.pos (digits2_pos p)) with (Zdigits2 (Z.pos p)).
  set (dm := Zdigits2 (Z.pos p)) in *.
  replace (Z.max (dm + 0 - 53) emin64) with (dm - 53) by (unfold emin64; lia).
  unfold shl_align.
  destruct (dm - 53 - 0) as [| q | q] eqn:Eq; [lia | lia |].
  assert (Hq : Z.pos q = 53 - dm) by lia.
  pose proof (iter_xO_pow p q) as Hmz.
  set (mz := Pos.iter xO p q) in *.
  assert (H2q : 0 < 2 ^ Z.pos q) by (apply Z.pow_pos_nonneg; lia).
  assert (Hdz : Zdigits2 (Z.pos mz) = 53).
  { apply Zdigits2_eq; [| lia]. rewrite Hmz.
    assert (Hlo : 2 ^ (53 - 1) = 2 ^ (dm - 1) * 2 ^ Z.pos q)
      by (rewrite <- Z.pow_add_r by lia; f_equal; lia).
    assert (Hhi : 2 ^ 53 = 2 ^ dm * 2 ^ Z.pos q)
      by (rewrite <- Z.pow_add_r by lia; f_equal; lia).
    rewrite Hlo, Hhi. nia. }
  unfold binary_round_aux, shr_fexp. cbn [shr_record_of_loc].
  rewrite Hdz, fexp64.
  replace (Z.max (53 + (dm - 53) - 53) emin64 - (dm - 53)) with 0 by (unfold emin64; lia).
  cbn [shr shr_m loc_of_shr_record round_nearest_even shr_record_of_loc].
  rewrite Hdz, fexp64.
  replace (Z.max (53 + (dm - 53) - 53) emin64 - (dm - 53)) with 0 by (unfold emin64; lia).
  cbn [shr shr_m].
  destruct (Z.leb_spec (dm - 53) (1024 - 53)); [| lia].
  exists mz, (dm - 53). split; [done |]. split; [lia |].
  rewrite Hmz. do 2 f_equal. lia.
Qed.

(** A valid [double] in (0, 1] is finite and positive with a mantissa of
    at most [2^(-e)]. *)
Lemma ratio_in_range_inv (r : double) :
  is_double r = true -> CropTransform.ratio_in_range r = true ->
  exists mr er, r = S754_finite false mr er /\ er <= 0 /\ Z.pos mr <= 2 ^ (- er).
Proof.
  unfold is_double, CropTransform.ratio_in_range. intros Hv Hr.
  apply andb_true_iff in Hr as [Hpos Hle].
  destruct r as [s | s | | s mr er]; try done.
  - by destruct s.
  - destruct s; [done |]. exists mr, er. split; [done |].
    cbn in Hv. unfold bounded, canonical_mantissa in Hv.
    apply andb_true_iff in Hv as [Hc _]. apply Z.eqb_eq in Hc. rewrite fexp64 in Hc.
    pose proof (Zdigits2_bounds mr) as [_ Hhi]. cbn [Zdigits2] in Hhi.
    assert (Hone : double_one = S754_finite false 4503599627370496 (-52))
      by (vm_compute; reflexivity).
    rewrite Hone in Hle. unfold SFleb, SFcompare in Hle.
    destruct (Z.compare_spec er (-52)) as [-> | Hlt | Hgt]; [| | done].
    + split; [done |]. change (2 ^ (- -52)) with 4503599627370496.
      rewrite Pos.compare_cont_spec in Hle.
      destruct (Pos.compare_spec mr 4503599627370496) as [-> | Hlt | Hgt];
        [apply Z.le_refl | by apply Z.lt_le_incl, Pos2Z.pos_lt_pos | done].
    + split; [lia |].
      assert (Hdig : Z.pos (digits2_pos mr) <= 53) by (unfold emin64 in Hc; lia).
      assert (H53 : 2 ^ Z.pos (digits2_pos mr) <= 2 ^ 53)
        by (apply Z.pow_le_mono_r; lia).
      assert (2 ^ 53 <= 2 ^ (- er)) by (apply Z.pow_le_mono_r; lia).
      lia.
Qed.

(** The crop size computed from a side [m] and a ratio in (0, 1] is an
    [int] between 0 and [m]. *)
Lemma crop_size_bounds (m : Z) (r : double) :
  0 < m <= INT_MAX -> is_double r = true -> CropTransform.ratio_in_range r = true ->
  exists s,
    double_to_int (double_mul (double_of_int m) r) = Ok s
    /\ double_floor (double_mul (double_of_int m) r) = Some s
    /\ 0 <= s <= m.
Proof.
  intros Hm Hv Hr.
  destruct (double_of_int_exact m) as (mx & ex & -> & Hex & Hmx); [unfold INT_MAX in Hm; lia |].
  destruct (ratio_in_range_inv r Hv Hr) as (mr & er & -> & Her & Hmr).
  unfold double_mul, SFmul. cbn [xorb].
  destruct (binary_round_aux_upper (mx * mr) (ex + er) m) as (z & Hz & Hfl & Hrange).
  - lia.
  - unfold INT_MAX in Hm. lia.
  - rewrite Pos2Z.inj_mul, Hmx.
    replace (- (ex + er)) with (- ex + - er) by lia. rewrite Z.pow_add_r by lia.
    assert (0 < 2 ^ (- ex)) by (apply Z.pow_pos_nonneg; lia). nia.
  - exists z. split; [| done]. unfold double_to_int. rewrite Hz.
    unfold in_int, INT_MIN, INT_MAX in *.
    destruct (Z.leb_spec (- 2 ^ 31) z); [| lia].
    destruct (Z.leb_spec z (2 ^ 31 - 1)); [done | lia].
Qed.

(** ** CropTransform *)

(** *** The rounded product and the exact product *)

(** The rounded value of [M * 2^e0] is not below an integer [B] that the
    exact value is not below. *)
Lemma binary_round_aux_lower (M : positive) (e0 B U : Z) :
  e0 <= 0 -> 0 <= B -> 0 <= U < 2 ^ 31 ->
  B * 2 ^ (- e0) <= Z.pos M <= U * 2 ^ (- e0) ->
  exists z,
    double_floor (binary_round_aux 53 1024 false (Z.pos M) e0 loc_Exact) = Some z
    /\ B <= z.
Proof.
  intros He0 HB HU [HML HMU]. unfold binary_round_aux, shr_fexp.
  cbn [shr_record_of_loc]. rewrite fexp64.
  set (d := Zdigits2 (Z.pos M)).
  assert (H2e0 : 0 < 2 ^ (- e0)) by (apply Z.pow_pos_nonneg; lia).
  assert (Hd : d <= 31 - e0).
  { apply Zdigits2_le; [| lia]. split; [lia |].
    replace (31 - e0) with (31 + - e0) by lia. rewrite Z.pow_add_r by lia. nia. }
  destruct (shr_spec (Z.pos M) e0 (Z.max (d + e0 - 53) emin64 - e0) ltac:(lia))
    as (mrs1 & -> & Hm1 & Hx1).
  set (n := Z.max 0 (Z.max (d + e0 - 53) emin64 - e0)) in *.
  set (e1 := e0 + n).
  assert (Hn : 0 <= n) by lia.
  assert (He1 : e1 <= 0) by (unfold e1, n, emin64; lia).
  set (KL := B * 2 ^ (- e1)). set (KU := U * 2 ^ (- e1)).
  assert (Hpow : 2 ^ (- e0) = 2 ^ (- e1) * 2 ^ n).
  { rewrite <- Z.pow_add_r by lia. f_equal. lia. }
  assert (H2n : 0 < 2 ^ n) by (apply Z.pow_pos_nonneg; lia).
  assert (H2e : 0 < 2 ^ (- e1)) by (apply Z.pow_pos_nonneg; lia).
  assert (HMKL : KL * 2 ^ n <= Z.pos M) by (unfold KL; rewrite Hpow in HML; lia).
  assert (HMKU : Z.pos M <= KU * 2 ^ n) by (unfold KU; rewrite Hpow in HMU; lia).
  set (m1 := round_nearest_even (shr_m mrs1) (loc_of_shr_record mrs1)).
  assert (Hm1K : KL <= m1 <= KU).
  { assert (Hq : KL <= Z.pos M / 2 ^ n <= KU).
    { split; [apply Z.div_le_lower_bound; lia | apply Z.div_le_upper_bound; lia]. }
    destruct (Z.eq_dec (Z.pos M mod 2 ^ n) 0) as [Hz | Hnz].
    - unfold m1. rewrite (Hx1 Hz). cbn. lia.
    - assert (Hlt : Z.pos M / 2 ^ n < KU).
      { apply Z.div_lt_upper_bound; [lia |].
        destruct (Z.eq_dec (Z.pos M) (2 ^ n * KU)) as [Heq | Hne]; [| lia].
        exfalso. apply Hnz. rewrite Heq, Z.mul_comm. apply Z.mod_mul. lia. }
      unfold m1, round_nearest_even. rewrite Hm1.
      destruct (loc_of_shr_record mrs1) as [| []]; try lia.
      destruct (Z.even _); lia. }
  assert (HKL0 : 0 <= KL) by (unfold KL; nia).
  assert (Hd1 : Zdigits2 m1 <= 31 - e1).
  { apply Zdigits2_le; [| lia]. split; [lia |].
    replace (31 - e1) with (31 + - e1) by lia. rewrite Z.pow_add_r by lia.
    unfold KU in Hm1K. nia. }
  rewrite fexp64.
  destruct (shr_spec m1 e1 (Z.max (Zdigits2 m1 + e1 - 53) emin64 - e1) ltac:(lia))
    as (mrs2 & Hshr2 & Hm2 & _).
  fold e1. rewrite Hshr2.
  set (n2 := Z.max 0 (Z.max (Zdigits2 m1 + e1 - 53) emin64 - e1)) in *.
  assert (Hn2 : 0 <= n2) by lia.
  assert (He2 : e1 + n2 <= 0) by (unfold n2, emin64; lia).
  assert (H2n2 : 0 < 2 ^ n2) by (apply Z.pow_pos_nonneg; lia).
  assert (H2e2 : 0 < 2 ^ (- (e1 + n2))) by (apply Z.pow_pos_nonneg; lia).
  assert (HB' : B <= shr_m mrs2 / 2 ^ (- (e1 + n2))).
  { rewrite Hm2, Z.div_div by lia. rewrite <- Z.pow_add_r by lia.
    replace (n2 + - (e1 + n2)) with (- e1) by lia.
    apply Z.div_le_lower_bound; [lia |]. unfold KL in Hm1K. lia. }
  assert (Hm2' : 0 <= shr_m mrs2) by (rewrite Hm2; apply Z.div_pos; lia).
  destruct (shr_m mrs2) as [| m2 | m2] eqn:Em2; [| | lia].
  - rewrite Z.div_0_l in HB' by lia. by exists 0.
  - destruct (Z.leb_spec (e1 + n2) (1024 - 53)) as [_ | Hbad]; [| lia].
    rewrite double_floor_positive, double_trunc_finite by done. by eexists.
Qed.

(** A value [M * 2^e0] below 2^31 whose digits fit the mantissa is not
    changed by the rounding. *)
Lemma binary_round_aux_exact (M : positive) (e0 U : Z) :
  e0 <= 0 -> 0 <= U < 2 ^ 31 -> Z.pos M <= U * 2 ^ (- e0) ->
  Z.pos M mod 2 ^ Z.max 0 (Z.max (Zdigits2 (Z.pos M) + e0 - 53) emin64 - e0) = 0 ->
  double_floor (binary_round_aux 53 1024 false (Z.pos M) e0 loc_Exact)
  = Some (Z.pos M / 2 ^ (- e0)).
Proof.
  intros He0 HU HMU Hz. unfold binary_round_aux, shr_fexp.
  cbn [shr_record_of_loc]. rewrite fexp64.
  set (d := Zdigits2 (Z.pos M)) in *.
  assert (H2e0 : 0 < 2 ^ (- e0)) by (apply Z.pow_pos_nonneg; lia).
  assert (Hd : d <= 31 - e0).
  { apply Zdigits2_le; [| lia]. split; [lia |].
    replace (31 - e0) with (31 + - e0) by lia. rewrite Z.pow_add_r by lia. nia. }
  destruct (shr_spec (Z.pos M) e0 (Z.max (d + e0 - 53) emin64 - e0) ltac:(lia))
    as (mrs1 & -> & Hm1 & Hx1).
  set (n := Z.max 0 (Z.max (d + e0 - 53) emin64 - e0)) in *.
  set (e1 := e0 + n).
  assert (Hn : 0 <= n) by lia.
  assert (He1 : e1 <= 0) by (unfold e1, n, emin64; lia).
  assert (Hpow : 2 ^ (- e0) = 2 ^ (- e1) * 2 ^ n).
  { rewrite <- Z.pow_add_r by lia. f_equal. lia. }
  assert (H2n : 0 < 2 ^ n) by (apply Z.pow_pos_nonneg; lia).
  assert (H2e : 0 < 2 ^ (- e1)) by (apply Z.pow_pos_nonneg; lia).
  rewrite (Hx1 Hz). cbn [round_nearest_even]. rewrite Hm1.
  set (K := Z.pos M / 2 ^ n).
  assert (HMK : Z.pos M = K * 2 ^ n).
  { unfold K. pose proof (Z.div_mod (Z.pos M) (2 ^ n) ltac:(lia)). lia. }
  assert (HK : 0 < K) by nia.
  assert (HKU : K <= U * 2 ^ (- e1)) by (rewrite Hpow in HMU; nia).
  assert (Hd1 : Zdigits2 K <= 31 - e1).
  { apply Zdigits2_le; [| lia]. split; [lia |].
    replace (31 - e1) with (31 + - e1) by lia. rewrite Z.pow_add_r by lia. nia. }
  rewrite fexp64.
  destruct (shr_spec K e1 (Z.max (Zdigits2 K + e1 - 53) emin64 - e1) ltac:(lia))
    as (mrs2 & Hshr2 & Hm2 & _).
  fold e1. rewrite Hshr2.
  set (n2 := Z.max 0 (Z.max (Zdigits2 K + e1 - 53) emin64 - e1)) in *.
  assert (Hn2 : 0 <= n2) by lia.
  assert (He2 : e1 + n2 <= 0) by (unfold n2, emin64; lia).
  assert (H2n2 : 0 < 2 ^ n2) by (apply Z.pow_pos_nonneg; lia).
  assert (H2e2 : 0 < 2 ^ (- (e1 + n2))) by (apply Z.pow_pos_nonneg; lia).
  assert (HB' : shr_m mrs2 / 2 ^ (- (e1 + n2)) = Z.pos M / 2 ^ (- e0)).
  { rewrite Hm2, Z.div_div by lia. rewrite <- Z.pow_add_r by lia.
    replace (n2 + - (e1 + n2)) with (- e1) by lia.
    unfold K. rewrite Z.div_div by lia. by rewrite Hpow, Z.mul_comm. }
  assert (Hm2' : 0 <= shr_m mrs2) by (rewrite Hm2; apply Z.div_pos; lia).
  destruct (shr_m mrs2) as [| m2 | m2] eqn:Em2; [| | lia].
  - rewrite Z.div_0_l in HB' by lia. by rewrite <- HB'.
  - destruct (Z.leb_spec (e1 + n2) (1024 - 53)) as [_ | Hbad]; [| lia].
    rewrite double_floor_positive, double_trunc_finite by done. by rewrite HB'.
Qed.

(** The crop size against the exact product. *)
Lemma crop_size_exact (m : Z) (r : double) :
  0 < m <= INT_MAX -> is_double r = true -> CropTransform.ratio_in_range r = true ->
  exists s q,
    double_to_int (double_mul (double_of_int m) r) = Ok s
    /\ exact_floor_mul m r = Some q
    /\ q <= s <= q + 1
    /\ 0 <= s <= m
    /\ (forall a k, is_dyadic r a k -> k <= 1074 -> m * a < 2 ^ 53 -> s = q)
    /\ double_floor (double_mul (double_of_int m) r) = Some s.
Proof.
  intros Hm Hv Hr.
  destruct (crop_size_bounds m r Hm Hv Hr) as (s & Hs & Hfl & Hrange).
  pose proof Hfl as Hfl0.
  exists s. unfold INT_MAX in Hm.
  destruct (double_of_int_exact m) as (mx & ex & Hdm & Hex & Hmx); [lia |].
  destruct (ratio_in_range_inv r Hv Hr) as (mr & er & -> & Her & Hmr).
  rewrite Hdm in Hfl. unfold double_mul, SFmul in Hfl. cbn [xorb] in Hfl.
  set (q := (m * Z.pos mr) / 2 ^ (- er)).
  assert (H2ex : 0 < 2 ^ (- ex)) by (apply Z.pow_pos_nonneg; lia).
  assert (H2er : 0 < 2 ^ (- er)) by (apply Z.pow_pos_nonneg; lia).
  assert (Hpow : 2 ^ (- (ex + er)) = 2 ^ (- ex) * 2 ^ (- er)).
  { rewrite <- Z.pow_add_r by lia. f_equal. lia. }
  assert (HM : Z.pos (mx * mr) = m * Z.pos mr * 2 ^ (- ex)) by (rewrite Pos2Z.inj_mul; lia).
  assert (Hq : exact_floor_mul m (S754_finite false mr er) = Some q).
  { unfold exact_floor_mul, q. destruct er as [| p | p]; [| lia |].
    - cbn. by rewrite Z.div_1_r, Z.mul_1_r.
    - done. }
  assert (Hqlo : q * 2 ^ (- er) <= m * Z.pos mr)
    by (unfold q; rewrite Z.mul_comm; apply Z.mul_div_le; lia).
  assert (Hqhi : m * Z.pos mr < (q + 1) * 2 ^ (- er)).
  { unfold q. pose proof (Z.mod_pos_bound (m * Z.pos mr) (2 ^ (- er)) ltac:(lia)).
    pose proof (Z.div_mod (m * Z.pos mr) (2 ^ (- er)) ltac:(lia)). lia. }
  assert (Hq0 : 0 <= q) by (unfold q; apply Z.div_pos; lia).
  assert (Hqm : q <= m).
  { unfold q. apply Z.div_le_upper_bound; [lia |]. nia. }
  assert (HMU : Z.pos (mx * mr) <= m * 2 ^ (- (ex + er))) by (rewrite HM, Hpow; nia).
  exists q. split; [done |]. split; [done |].
  split; [| split; [done | split; [| done]]].
  - split.
    + destruct (binary_round_aux_lower (mx * mr) (ex + er) q m) as (z & Hz & Hlo);
        [lia | lia | lia | |].
      * split; [rewrite HM, Hpow; nia | done].
      * rewrite Hz in Hfl. injection Hfl as <-. done.
    + destruct (Z.eq_dec q m) as [-> | Hne]; [lia |].
      destruct (binary_round_aux_upper (mx * mr) (ex + er) (q + 1))
        as (z & _ & Hz & Hhi); [lia | lia | |].
      * rewrite HM, Hpow. nia.
      * rewrite Hz in Hfl. injection Hfl as <-. lia.
  - intros a k (Hk & _ & Hak) Hk' Hma.
    assert (H2k : 0 < 2 ^ k) by (apply Z.pow_pos_nonneg; lia).
    rewrite binary_round_aux_exact with (U := m) in Hfl; [| lia | lia | done |].
    + injection Hfl as <-. rewrite HM, Hpow. unfold q.
      rewrite (Z.mul_comm (2 ^ (- ex))), Z.div_mul_cancel_r by lia. done.
    + (* the product has at most 53 digits before the shift *)
      set (d := Zdigits2 (Z.pos (mx * mr))).
      set (n := Z.max 0 (Z.max (d + (ex + er) - 53) emin64 - (ex + er))).
      destruct (Z.eq_dec n 0) as [-> | Hn0]; [by rewrite Z.mod_1_r |].
      pose proof (Zdigits2_bounds (mx * mr)) as [Hdlo _]. fold d in Hdlo.
      assert (HMk : Z.pos (mx * mr) * 2 ^ k = m * a * 2 ^ (- (ex + er))).
      { rewrite HM, Hpow. nia. }
      assert (Hdig : d + (ex + er) + k <= 53).
      { assert (Hlt : 2 ^ (d - 1 + k) < 2 ^ (53 + - (ex + er))).
        { rewrite !Z.pow_add_r by (try lia; unfold d; cbn; lia).
          assert (0 < 2 ^ (- (ex + er))) by (apply Z.pow_pos_nonneg; lia). nia. }
        apply Z.pow_lt_mono_r_iff in Hlt; lia. }
      assert (Hnk : n <= - (ex + er) - k) by (unfold n, emin64 in *; lia).
      assert (Hsplit : 2 ^ (- (ex + er))
                       = 2 ^ (- (ex + er) - k - n) * 2 ^ n * 2 ^ k).
      { rewrite <- !Z.pow_add_r by lia. f_equal. lia. }
      assert (HMdiv : Z.pos (mx * mr) = m * a * 2 ^ (- (ex + er) - k - n) * 2 ^ n).
      { apply (Z.mul_reg_r _ _ (2 ^ k)); [lia |]. rewrite HMk, Hsplit. ring. }
      fold d. fold n. rewrite HMdiv. apply Z.mod_mul. lia.
Qed.

Section Crop.
Context `{P : Platform}.
Import CropTransform.

(** C3 (as amended).  For an image with [rows > 0] and [cols > 0] and a
    ratio in (0, 1], [GetCropRect] returns a square of side [cropSize],
    the floor of the product [min rows cols * ratio] rounded to the nearest
    [double].  With [q = floor (min rows cols * ratio)] for the exact
    product, [q <= cropSize <= q + 1] and [0 <= cropSize <= min rows cols];
    [cropSize = q] when the ratio is [a / 2^k] with [k <= 1074] and
    [min rows cols * a < 2^53], the product being exact then.  For a
    centre crop the offsets are [(cols - cropSize) / 2] and
    [(rows - cropSize) / 2] and no random number is drawn, for a random
    crop they lie in [0, cols - cropSize] and [0, rows - cropSize]. *)
Theorem GetCropRect_rect (type : CropType) (crow ccol : Z) (cropRatio : double)
    (rng : mt19937) :
  0 < crow <= INT_MAX -> 0 < ccol <= INT_MAX ->
  is_double cropRatio = true -> ratio_in_range cropRatio = true ->
  exists cropSize q xOff yOff rng',
    GetCropRect type crow ccol cropRatio rng
    = Ok ({| rect_x := xOff; rect_y := yOff;
             rect_width := cropSize; rect_height := cropSize |}, rng')
    /\ exact_floor_mul (Z.min crow ccol) cropRatio = Some q
    /\ q <= cropSize <= q + 1
    /\ 0 <= cropSize <= Z.min crow ccol
    /\ (forall a k,
          is_dyadic cropRatio a k -> k <= 1074 -> Z.min crow ccol * a < 2 ^ 53 ->
          cropSize = q)
    /\ double_floor (double_mul (double_of_int (Z.min crow ccol)) cropRatio) = Some cropSize
    /\ match type with
       | Center =>
           xOff = (ccol - cropSize) / 2 /\ yOff = (crow - cropSize) / 2 /\ rng' = rng
       | Random =>
           0 <= xOff <= ccol - cropSize /\ 0 <= yOff <= crow - cropSize
       end.
Proof.
  intros Hr Hc Hv Hratio. unfold GetCropRect.
  rewrite !assert_true by (right; first [done | lia]). cbn [mbind outcome_bind].
  destruct (crop_size_exact (Z.min crow ccol) cropRatio)
    as (s & q & -> & Hq & Hqs & Hs & Hdy & Hfl); [lia | done | done |].
  cbn [mbind outcome_bind].
  assert (Hsub : forall a, s <= a <= INT_MAX -> int_sub a s = Ok (a - s)).
  { intros a Ha. unfold int_sub, in_int, INT_MIN, INT_MAX in *.
    destruct (Z.leb_spec (- 2 ^ 31) (a - s)); [| lia].
    destruct (Z.leb_spec (a - s) (2 ^ 31 - 1)); [done | lia]. }
  destruct type.
  - rewrite !Hsub by lia. cbn [mbind outcome_bind].
    rewrite !Z.quot_div_nonneg by lia.
    assert (0 <= (ccol - s) / 2 <= ccol - s)
      by (split; [apply Z.div_pos; lia | apply Z.div_le_upper_bound; lia]).
    assert (0 <= (crow - s) / 2 <= crow - s)
      by (split; [apply Z.div_pos; lia | apply Z.div_le_upper_bound; lia]).
    rewrite !assert_true by (right; lia). cbn [mbind outcome_bind].
    by eexists _, q, _, _, _.
  - rewrite (Hsub ccol) by lia. cbn [mbind outcome_bind]. unfold UniIntT.
    destruct (Z.leb_spec 0 (ccol - s)); [| lia].
    pose proof (uniform_int_range 0 (ccol - s) rng ltac:(lia)) as Hx.
    destruct (uniform_int_distribution 0 (ccol - s) rng) as [x nx]. cbn [fst] in Hx.
    cbn [mbind outcome_bind]. rewrite (Hsub crow) by lia. cbn [mbind outcome_bind].
    destruct (Z.leb_spec 0 (crow - s)); [| lia].
    pose proof (uniform_int_range 0 (crow - s) (mt_advance rng nx) ltac:(lia)) as Hy.
    destruct (uniform_int_distribution 0 (crow - s) (mt_advance rng nx)) as [y ny].
    cbn [fst] in Hy. cbn [mbind outcome_bind].
    rewrite !assert_true by (right; lia). cbn [mbind outcome_bind].
    by eexists _, q, _, _, _.
Qed.

Lemma tolower_idem (c : ascii) : tolower (tolower c) = tolower c.
Proof. by destruct c as [[] [] [] [] [] [] [] []]. Qed.

Lemma AreEqual_tolower (s1 s2 : string) :
  AreEqual s1 s2 = AreEqual (string_tolower s1) s2.
Proof.
  revert s2. induction s1 as [| a s1 IH]; intros s2; [done |].
  cbn [string_tolower AreEqual]. rewrite tolower_idem.
  destruct s2 as [| b s2].
  - by destruct s1.
  - by rewrite IH.
Qed.

Lemma is_empty_tolower (s : string) : is_empty (string_tolower s) = is_empty s.
Proof. by destruct s. Qed.

Lemma ParseJitterType_tolower (src : string) (kind : RatioJitterType) :
  ParseJitterType (string_tolower src) = Ok kind -> ParseJitterType src = Ok kind.
Proof.
  unfold ParseJitterType. rewrite is_empty_tolower.
  rewrite (AreEqual_tolower src "none"), (AreEqual_tolower src "uniratio"),
    (AreEqual_tolower src "unilength"), (AreEqual_tolower src "uniarea").
  destruct (if is_empty src then _ else _) as [[] |]; cbn [mbind outcome_bind]; try done.
  repeat (destruct (AreEqual _ _) as [[] |]; cbn [mbind outcome_bind]; try done).
Qed.

Lemma GetCropRect_failure (type : CropType) (crow ccol : Z) (cropRatio : double)
    (rng : mt19937) (e : failure) :
  GetCropRect type crow ccol cropRatio rng = Fail e -> ~ is_RuntimeError e.
Proof.
  unfold GetCropRect, assert, double_to_int, int_sub, UniIntT.
  intros H He.
  repeat (first [ progress cbn [mbind outcome_bind] in H
                | match type of H with
                  | context [match ?x with _ => _ end] => destruct x
                  end ]);
    try discriminate H; injection H as <-; done.
Qed.

(** C8.  When the configured [jitterType] is [unilength] or [uniarea]
    (in any case), [ParseJitterType] returns the kind without error, [Init]
    accepts the configuration whenever its other parameters are accepted,
    and every [Apply] of a transform of that kind fails with "Jitter type
    currently not implemented."; a transform of kind [none] or [uniratio]
    never fails with that error. *)
Theorem unimplemented_jitter_kinds (self : t) (config : ConfigParameters)
    (kind : RatioJitterType) :
  let src := config_default config "jitterType" "" in
  (string_tolower src = "unilength" /\ kind = UniLength)
  \/ (string_tolower src = "uniarea" /\ kind = UniArea) ->
  ParseJitterType src = Ok kind
  /\ (forall cropType lo hi hFlip,
        ParseCropType (config_default config "cropType" "") = Ok cropType ->
        ParseCropRatio self (config_default config "cropRatio" "1") = Ok (lo, hi) ->
        ratio_in_range lo = true -> ratio_in_range hi = true -> SFltb hi lo = false ->
        ParseHFlip config cropType = Ok hFlip ->
        exists self', Init self config = Ok self' /\ m_jitterType self' = kind)
  /\ (forall self' mat,
        m_jitterType self' = kind -> Apply self' mat = Fail JITTER_NOT_IMPLEMENTED)
  /\ (forall self' mat,
        m_jitterType self' = NoJitter \/ m_jitterType self' = UniRatio ->
        Apply self' mat <> Fail JITTER_NOT_IMPLEMENTED).
Proof.
  intros src Hsrc.
  assert (Hparse : ParseJitterType src = Ok kind).
  { apply ParseJitterType_tolower.
    destruct Hsrc as [[-> ->] | [-> ->]]; reflexivity. }
  split; [done |]. split; [| split].
  - intros cropType lo hi hFlip Hct Hratio Hlo Hhi Hord Hflip.
    unfold Init. rewrite Hct. cbn [mbind outcome_bind]. rewrite Hratio.
    cbn [mbind outcome_bind]. rewrite Hlo, Hhi, Hord. cbn [negb orb].
    fold src. rewrite Hparse. cbn [mbind outcome_bind]. rewrite Hflip.
    cbn [mbind outcome_bind]. by eexists.
  - intros self' mat Hk. unfold Apply, draw_ratio.
    destruct (pop_or_create _ _) as [rng pool]. rewrite Hk.
    by destruct Hsrc as [[_ ->] | [_ ->]].
  - intros self' mat Hk Hfail. unfold Apply, draw_ratio in Hfail.
    destruct (pop_or_create _ _) as [rng pool].
    destruct Hk as [Hk | Hk]; rewrite Hk in Hfail; cbn [mbind outcome_bind] in Hfail.
    + destruct (GetCropRect _ _ _ _ _) as [[rect rng1] | e] eqn:Hg;
        cbn [mbind outcome_bind] in Hfail.
      * unfold Mat_roi in Hfail. destruct (_ && _); cbn [mbind outcome_bind] in Hfail;
          [| discriminate Hfail].
        by destruct (if m_hFlip self' then _ else _).
      * injection Hfail as ->. by apply (GetCropRect_failure _ _ _ _ _ _ Hg).
    + destruct (UniRealT _ _ _) as [r rng0].
      unfold assert in Hfail.
      destruct NDEBUG; [| destruct (_ && _)]; cbn [mbind outcome_bind] in Hfail;
        try discriminate Hfail.
      all: destruct (GetCropRect _ _ _ _ _) as [[rect rng1] | e] eqn:Hg;
        cbn [mbind outcome_bind] in Hfail;
        [ unfold Mat_roi in Hfail; destruct (_ && _); cbn [mbind outcome_bind] in Hfail;
          [by destruct (if m_hFlip self' then _ else _) | discriminate Hfail]
        | injection Hfail as ->; by apply (GetCropRect_failure _ _ _ _ _ _ Hg) ].
Qed.

End Crop.

(** ** ScaleTransform *)

Section Scale.
Context `{P : Platform}.
Import ScaleTransform.

Lemma to_int_small (z : Z) : INT_MIN <= z <= INT_MAX -> to_int z = z.
Proof.
  unfold to_int, INT_MIN, INT_MAX. intros H.
  rewrite Z.mod_small by lia. lia.
Qed.

(** C6 (as amended).  For a non-empty input image and a transform whose
    configured width and height are positive [int]s, [Apply] returns an
    image of exactly the configured width and height, whatever the size
    of the input; the number of channels is the one of the input image,
    not the configured one. *)
Theorem Scale_Apply_size (self : t) (mat : Mat) :
  Mat_empty mat = false ->
  0 < m_imgWidth self <= INT_MAX ->
  0 < m_imgHeight self <= INT_MAX ->
  (0 < length (m_interp self))%nat ->
  Z.of_nat (length (m_interp self)) <= INT_MAX ->
  exists mat' self',
    Apply self mat = Ok (mat', self')
    /\ cols mat' = m_imgWidth self
    /\ rows mat' = m_imgHeight self
    /\ channels mat' = channels mat.
Proof.
  intros Hne Hw Hh Hi Hi'. unfold Apply.
  set (mat1 := if negb _ then Mat_convertTo mat (m_dataType self) else mat).
  assert (H1 : Mat_empty mat1 = false /\ channels mat1 = channels mat).
  { unfold mat1. by destruct (negb _). }
  destruct H1 as [Hne1 Hch1].
  destruct (pop_or_create _ _) as [rng pool].
  rewrite assert_true by (right; lia). cbn [mbind outcome_bind].
  rewrite (to_int_small (Z.of_nat _)), (to_int_small (m_imgWidth self)),
    (to_int_small (m_imgHeight self)) by (unfold INT_MIN, INT_MAX in *; lia).
  unfold UniIntT.
  destruct (Z.leb_spec 0 (Z.of_nat (length (m_interp self)) - 1)); [| lia].
  pose proof (uniform_int_range 0 (Z.of_nat (length (m_interp self)) - 1) rng ltac:(lia))
    as Hk.
  destruct (uniform_int_distribution _ _ rng) as [k nk]. cbn [fst] in Hk.
  cbn [mbind outcome_bind].
  destruct (Z.ltb_spec k 0); [lia |].
  destruct (lookup_lt_is_Some_2 (m_interp self) (Z.to_nat k) ltac:(lia)) as [interp ->].
  unfold cv_resize. rewrite Hne1.
  destruct (Z.ltb_spec 0 (m_imgWidth self)); [| lia].
  destruct (Z.ltb_spec 0 (m_imgHeight self)); [| lia].
  cbn [andb mbind outcome_bind]. eexists _, _. split; [reflexivity |]. done.
Qed.

End Scale.

(** ** MeanTransform *)

Section MeanSubtraction.
Context `{P : Platform}.
Import MeanTransform.

(** C7 (as amended).  [Apply] subtracts the mean image element by element
    from a non-empty sample when size, depth and channel count of the two
    agree.  When the sizes (width and height) differ, the sample is left
    as it is without an error if assertions are compiled out or the mean
    image is empty, as it is when no mean file is configured; with
    assertions compiled in, a non-empty mean image of another size trips
    the assertion. *)
Theorem Mean_Apply_cases (self : t) (mat : Mat) :
  let mean := m_meanImg self in
  (Mat_empty mat = false -> Mat_size_eq mean mat = true ->
   depth mean = depth mat -> channels mean = channels mat ->
   Apply self mat
   = Ok ({| rows := rows mat; cols := cols mat; depth := depth mat;
            channels := channels mat;
            data := zip_with (subtract_elem (depth mat)) (data mat) (data mean) |}, self))
  /\ (Mat_size_eq mean mat = false ->
      NDEBUG = true \/ (cols mean = 0 /\ rows mean = 0) ->
      Apply self mat = Ok (mat, self))
  /\ (Mat_size_eq mean mat = false ->
      NDEBUG = false -> ~ (cols mean = 0 /\ rows mean = 0) ->
      Apply self mat = Fail (AssertionFailed MEAN_ASSERTION))
  /\ (forall config,
        config_default config "meanFile" "" = EmptyString ->
        Init self config = Ok {| m_meanImg := Mat_released |}).
Proof.
  intros mean. split; [| split; [| split]].
  - intros Hne Hsz Hd Hc. unfold Apply. fold mean.
    rewrite assert_true.
    2:{ right. rewrite Hsz, Hc, Z.eqb_refl. apply orb_true_r. }
    cbn [mbind outcome_bind]. rewrite Hsz. unfold cv_subtract.
    assert (Hme : Mat_empty mean = false).
    { unfold Mat_empty, Mat_size_eq in *. apply andb_true_iff in Hsz as [Hc' Hr'].
      apply Z.eqb_eq in Hc', Hr'. by rewrite Hc', Hr'. }
    rewrite Hne, Hme, Hd, Hc, !Z.eqb_refl. cbn [orb andb mbind outcome_bind].
    by rewrite <- Hd.
  - intros Hsz Hok. unfold Apply. fold mean. rewrite assert_true.
    + cbn [mbind outcome_bind]. by rewrite Hsz.
    + destruct Hok as [? | [-> ->]]; [by left | by right].
  - intros Hsz Hdbg Hmean. unfold Apply. fold mean.
    rewrite assert_false_debug; [done | done |].
    rewrite Hsz. cbn [andb orb]. rewrite orb_false_r.
    apply andb_false_iff.
    destruct (Z.eqb_spec (cols mean) 0); [| by left].
    destruct (Z.eqb_spec (rows mean) 0); [| by right]. by destruct Hmean.
  - intros config Hfile. unfold Init. by rewrite Hfile.
Qed.

End MeanSubtraction.

(** ** The manifest *)

Section Manifest.
Context `{P : Platform}.
Import ImageReader.

Lemma load_map_step (mapPath line : string) (rest : list string) (cline : Z)
    (files0 : list (string * Z)) :
  load_map mapPath (line :: rest) cline files0
  = match line_fields line with
    | None => Fail (RuntimeError MAP_FORMAT [ArgStr mapPath; ArgInt cline])
    | Some (imgPath, clsId) =>
        label ← stoi clsId;
        load_map mapPath rest (size_add cline 1) (files0 ++ [(imgPath, label)])
    end.
Proof.
  cbn [load_map]. unfold line_fields.
  destruct (getline line TAB) as [[imgPath ss] |]; [| done].
  by destruct (getline ss TAB) as [[clsId rest'] |].
Qed.

Lemma load_map_good (mapPath : string) (good : list string) :
  forall (lines : list string) (cline : Z) (files0 : list (string * Z)),
    Forall (fun l => is_Some (line_entry l)) good ->
    0 <= cline -> cline + Z.of_nat (length good) < SIZE_MOD ->
    load_map mapPath (good ++ lines) cline files0
    = load_map mapPath lines (cline + Z.of_nat (length good))
        (files0 ++ omap line_entry good).
Proof.
  induction good as [| l good IH]; intros lines cline files0 Hgood Hc Hlen.
  - cbn. by rewrite Z.add_0_r, app_nil_r.
  - apply Forall_cons in Hgood as [[entry Hl] Hgood].
    cbn [app]. rewrite load_map_step. cbn [omap list_omap]. rewrite Hl.
    unfold line_entry in Hl.
    destruct (line_fields l) as [[imgPath clsId] |]; [| done].
    destruct (stoi clsId) as [label |]; [| done]. injection Hl as <-.
    cbn [mbind outcome_bind]. cbn [length] in Hlen.
    rewrite size_add_small by lia. rewrite IH by (try done; lia).
    rewrite <- app_assoc. cbn [app length]. f_equal. lia.
Qed.

Lemma load_map_Ok_inv (mapPath : string) (lines : list string) :
  forall (cline : Z) (files0 fs : list (string * Z)),
    load_map mapPath lines cline files0 = Ok fs ->
    Forall (fun l => is_Some (line_entry l)) lines.
Proof.
  induction lines as [| l lines IH]; intros cline files0 fs; [by constructor |].
  rewrite load_map_step. intros H.
  assert (Hl : is_Some (line_entry l) /\ exists c f, load_map mapPath lines c f = Ok fs).
  { unfold line_entry.
    destruct (line_fields l) as [[imgPath clsId] |]; [| done].
    destruct (stoi clsId) as [label |]; cbn [mbind outcome_bind] in H; [| done].
    split; [by eexists | by eexists _, _]. }
  destruct Hl as [Hl (c & f & Hrest)]. constructor; [done | by eapply IH].
Qed.

(** C5 (as amended).  Loading a map file of fewer than 2^64 lines
    succeeds exactly when every line has a first and a second
    tab-separated field and [std::stoi] reads an integer at the start of
    the second; the entries are then appended in order.  At the first line
    that is not so, the load fails: with the format error that names the
    map file and the 0-based index of the line when a field is missing,
    and with the exception of [std::stoi], which names no line, when the
    second field does not start with an integer.  Fields after the second
    and characters after the integer are ignored. *)
Theorem load_map_outcome (mapPath : string) (lines : list string)
    (files0 : list (string * Z)) :
  Z.of_nat (length lines) < SIZE_MOD ->
  (Forall (fun l => is_Some (line_entry l)) lines <->
   load_map mapPath lines 0 files0 = Ok (files0 ++ omap line_entry lines))
  /\ (is_Ok (load_map mapPath lines 0 files0) ->
      Forall (fun l => is_Some (line_entry l)) lines)
  /\ (forall good bad rest,
        lines = good ++ bad :: rest ->
        Forall (fun l => is_Some (line_entry l)) good ->
        (line_fields bad = None ->
         load_map mapPath lines 0 files0
         = Fail (RuntimeError MAP_FORMAT
                   [ArgStr mapPath; ArgInt (Z.of_nat (length good))]))
        /\ (forall imgPath clsId e,
              line_fields bad = Some (imgPath, clsId) -> stoi clsId = Fail e ->
              load_map mapPath lines 0 files0 = Fail e
              /\ exists what, e = StdException what)).
Proof.
  intros Hlen.
  assert (Hbad : forall good bad rest,
             lines = good ++ bad :: rest ->
             Forall (fun l => is_Some (line_entry l)) good ->
             load_map mapPath lines 0 files0
             = match line_fields bad with
               | None => Fail (RuntimeError MAP_FORMAT
                                 [ArgStr mapPath; ArgInt (Z.of_nat (length good))])
               | Some (imgPath, clsId) =>
                   label ← stoi clsId;
                   load_map mapPath rest (size_add (Z.of_nat (length good)) 1)
                     (files0 ++ omap line_entry good ++ [(imgPath, label)])
               end).
  { intros good bad rest -> Hgood. rewrite length_app in Hlen.
    rewrite load_map_good by (try done; lia). rewrite load_map_step.
    destruct (line_fields bad) as [[imgPath clsId] |]; [| done].
    destruct (stoi clsId); cbn [mbind outcome_bind]; [| done].
    by rewrite <- app_assoc. }
  assert (Hall : Forall (fun l => is_Some (line_entry l)) lines ->
                 load_map mapPath lines 0 files0 = Ok (files0 ++ omap line_entry lines)).
  { intros Hgood. rewrite <- (app_nil_r lines) at 1.
    rewrite load_map_good by (try done; lia). done. }
  assert (Honly : is_Ok (load_map mapPath lines 0 files0) ->
                  Forall (fun l => is_Some (line_entry l)) lines).
  { intros [fs Hok]. by apply (load_map_Ok_inv mapPath lines 0 files0 fs). }
  split; [split; [done |] |]; [| split; [done |]].
  - intros Hok. apply Honly. by eexists.
  - intros good bad rest Heq Hgood. rewrite (Hbad good bad rest Heq Hgood). split.
    + by intros ->.
    + intros imgPath clsId e -> He. rewrite He. split; [done |].
      unfold stoi in He. destruct (strip_sign _) as [neg body].
      destruct (starts_with_digit body); [| injection He as <-; by eexists].
      destruct (in_int _); [done | injection He as <-; by eexists].
Qed.

End Manifest.

(** ** The seeds of the generator pools *)

Section Seeds.
Context `{P : Platform}.
Import ImageReader.

Lemma UniIntT_seed (a b : Z) (rng rng' : mt19937) (v : Z) :
  UniIntT a b rng = Ok (v, rng') -> mt_seed rng' = mt_seed rng.
Proof.
  unfold UniIntT. destruct (a <=? b); [| done].
  destruct (uniform_int_distribution a b rng). by intros [= _ <-].
Qed.

Lemma GetCropRect_seed (type : CropTransform.CropType) (crow ccol : Z) (ratio : double)
    (rng rng' : mt19937) (rect : Rect) :
  CropTransform.GetCropRect type crow ccol ratio rng = Ok (rect, rng') ->
  mt_seed rng' = mt_seed rng.
Proof.
  unfold CropTransform.GetCropRect. intros H.
  repeat match type of H with
         | context [assert ?e ?s] =>
             destruct (assert e s); cbn [mbind outcome_bind] in H; [| discriminate H]
         end.
  destruct (double_to_int _) as [cropSize |]; cbn [mbind outcome_bind] in H; [| done].
  destruct type.
  - destruct (int_sub ccol _); cbn [mbind outcome_bind] in H; [| done].
    destruct (int_sub crow _); cbn [mbind outcome_bind] in H; [| done].
    repeat match type of H with
           | context [assert ?e ?s] =>
               destruct (assert e s); cbn [mbind outcome_bind] in H; [| discriminate H]
           end.
    by injection H as _ <-.
  - destruct (int_sub ccol _); cbn [mbind outcome_bind] in H; [| done].
    destruct (UniIntT 0 _ rng) as [[x rng1] |] eqn:Hx; cbn [mbind outcome_bind] in H;
      [| done].
    destruct (int_sub crow _); cbn [mbind outcome_bind] in H; [| done].
    destruct (UniIntT 0 _ rng1) as [[y rng2] |] eqn:Hy; cbn [mbind outcome_bind] in H;
      [| done].
    repeat match type of H with
           | context [assert ?e ?s] =>
               destruct (assert e s); cbn [mbind outcome_bind] in H; [| discriminate H]
           end.
    injection H as _ <-.
    apply UniIntT_seed in Hx, Hy. congruence.
Qed.

Lemma Crop_Apply_pool (c c' : CropTransform.t) (mat mat' : Mat) :
  CropTransform.Apply c mat = Ok (mat', c') ->
  CropTransform.m_seed c' = CropTransform.m_seed c
  /\ pool_step (CropTransform.m_seed c) (CropTransform.m_rngs c) (CropTransform.m_rngs c').
Proof.
  unfold CropTransform.Apply. intros H.
  destruct (pop_or_create _ _) as [rng pool] eqn:Hpop.
  assert (Hjit : forall r rng0,
            CropTransform.draw_ratio c rng = Ok (r, rng0) -> mt_seed rng0 = mt_seed rng).
  { intros r rng0. unfold CropTransform.draw_ratio.
    destruct (CropTransform.m_jitterType c); try done.
    - by intros [= _ <-].
    - unfold UniRealT. destruct (uniform_real_distribution _ _ _).
      destruct (assert _ _); cbn [mbind outcome_bind]; [| done]. by intros [= _ <-]. }
  destruct (CropTransform.draw_ratio c rng) as [[r rng0] |] eqn:Hj;
    cbn [mbind outcome_bind] in H; [| done].
  specialize (Hjit _ _ eq_refl).
  destruct (CropTransform.GetCropRect _ _ _ _ _) as [[rect rng1] |] eqn:Hg;
    cbn [mbind outcome_bind] in H; [| done].
  apply GetCropRect_seed in Hg.
  destruct (Mat_roi mat rect); cbn [mbind outcome_bind] in H; [| done].
  assert (Hb : forall fl rng2,
            (if CropTransform.m_hFlip c then bernoulli rng1 else (false, rng1)) = (fl, rng2) ->
            mt_seed rng2 = mt_seed rng1).
  { intros fl rng2. destruct (CropTransform.m_hFlip c); [| by intros [= _ <-]].
    unfold bernoulli. destruct (bernoulli_distribution rng1). by intros [= _ <-]. }
  destruct (if CropTransform.m_hFlip c then _ else _) as [fl rng2] eqn:Hfl.
  specialize (Hb _ _ eq_refl). injection H as _ <-. cbn. split; [done |].
  unfold pool_step, pop_or_create, push in *.
  destruct (CropTransform.m_rngs c) as [| g rest]; injection Hpop as <- <-;
    eexists; (split; [reflexivity |]); cbn in *; congruence.
Qed.

Lemma Scale_Apply_pool (s s' : ScaleTransform.t) (mat mat' : Mat) :
  ScaleTransform.Apply s mat = Ok (mat', s') ->
  ScaleTransform.m_seed s' = ScaleTransform.m_seed s
  /\ pool_step (ScaleTransform.m_seed s) (ScaleTransform.m_rngs s) (ScaleTransform.m_rngs s').
Proof.
  unfold ScaleTransform.Apply. intros H.
  destruct (pop_or_create _ _) as [rng pool] eqn:Hpop.
  destruct (assert _ _); cbn [mbind outcome_bind] in H; [| done].
  destruct (UniIntT _ _ rng) as [[k rng1] |] eqn:Hk; cbn [mbind outcome_bind] in H; [| done].
  apply UniIntT_seed in Hk.
  destruct (if k <? 0 then None else _); [| done].
  destruct (cv_resize _ _ _ _); cbn [mbind outcome_bind] in H; [| done].
  injection H as _ <-. cbn. split; [done |].
  unfold pool_step, pop_or_create, push in *.
  destruct (ScaleTransform.m_rngs s) as [| g rest]; injection Hpop as <- <-;
    eexists; (split; [reflexivity |]); cbn in *; congruence.
Qed.

(** C9 (as amended).  [SetRandomSeed seed] sets the reader's own [m_seed]
    and reseeds the reader's own generator [m_rng], the one that shuffles
    the manifest; it leaves the transforms as they are.  A transform keeps
    the seed it was constructed with, which is 0, through [Init] and
    [Apply], and a generator that [Apply] constructs for an empty pool is
    seeded with that value, before and after a call of [SetRandomSeed];
    a pooled generator keeps its seed. *)
Theorem SetRandomSeed_transforms (self : t) (seed : Z) :
  m_seed (SetRandomSeed self seed) = seed
  /\ m_rng (SetRandomSeed self seed) = mt19937_new seed
  /\ m_transforms (SetRandomSeed self seed) = m_transforms self
  /\ (forall E rd, new E = Ok rd ->
        Forall (fun tr => transform_seed tr = Some 0 \/ transform_seed tr = None)
          (m_transforms rd))
  /\ (forall tr config tr',
        ITransform_Init tr config = Ok tr' ->
        transform_seed tr' = transform_seed tr /\ transform_pool tr' = transform_pool tr)
  /\ (forall tr mat mat' tr',
        ITransform_Apply tr mat = Ok (mat', tr') ->
        transform_seed tr' = transform_seed tr
        /\ forall s, transform_seed tr = Some s ->
                     pool_step s (transform_pool tr) (transform_pool tr')).
Proof.
  split; [done |]. split; [done |]. split; [done |]. split; [| split].
  - intros E rd. unfold new, ScaleTransform.new.
    destruct (assert _ _); cbn [mbind outcome_bind]; [| done].
    intros [= <-]. cbn [m_transforms].
    repeat (apply List.Forall_cons; [first [by left | by right] |]). apply List.Forall_nil.
  - intros tr config tr'. destruct tr as [c | s | m]; cbn [ITransform_Init].
    + unfold CropTransform.Init.
      destruct (CropTransform.ParseCropType _); cbn [mbind outcome_bind fmap outcome_fmap];
        [| done].
      destruct (CropTransform.ParseCropRatio _ _) as [[lo hi] |];
        cbn [mbind outcome_bind fmap outcome_fmap]; [| done].
      destruct (_ || _); [done |].
      destruct (CropTransform.ParseJitterType _); cbn [mbind outcome_bind fmap outcome_fmap];
        [| done].
      destruct (CropTransform.ParseHFlip _ _); cbn [mbind outcome_bind fmap outcome_fmap];
        [| done].
      by intros [= <-].
    + unfold ScaleTransform.Init.
      destruct (config_size_t config "width");
        cbn [mbind outcome_bind fmap outcome_fmap]; [| done].
      destruct (config_size_t config "height");
        cbn [mbind outcome_bind fmap outcome_fmap]; [| done].
      destruct (config_size_t config "channels");
        cbn [mbind outcome_bind fmap outcome_fmap]; [| done].
      destruct (_ || _); [done |]. by intros [= <-].
    + destruct (MeanTransform.Init m config); cbn [fmap outcome_fmap]; [| done].
      by intros [= <-].
  - intros tr mat mat' tr'. destruct tr as [c | s | m]; cbn [ITransform_Apply].
    + destruct (CropTransform.Apply c mat) as [[mat1 c1] |] eqn:Ha;
        cbn [mbind outcome_bind]; [| done].
      intros [= _ <-]. apply Crop_Apply_pool in Ha as [Hs Hp]. cbn.
      split; [by rewrite Hs |]. by intros ? [= <-].
    + destruct (ScaleTransform.Apply s mat) as [[mat1 s1] |] eqn:Ha;
        cbn [mbind outcome_bind]; [| done].
      intros [= _ <-]. apply Scale_Apply_pool in Ha as [Hs Hp]. cbn.
      split; [by rewrite Hs |]. by intros ? [= <-].
    + destruct (MeanTransform.Apply m mat) as [[mat1 m1] |];
        cbn [mbind outcome_bind]; [| done].
      intros [= _ <-]. done.
Qed.

End Seeds.

(** * Further properties *)

(** ** Names are matched by prefix *)

Lemma tolower_NUL (c : ascii) : Ascii.eqb (tolower c) (tolower NUL) = Ascii.eqb c NUL.
Proof. by destruct c as [[] [] [] [] [] [] [] []]. Qed.

Lemma AreEqual_prefix_bool (s1 s2 : string) :
  no_NUL s1 = true ->
  AreEqual s1 s2 = Ok (String.prefix (string_tolower s1) (string_tolower s2)).
Proof.
  revert s2. induction s1 as [| a s1 IH]; intros s2 H; [by destruct s2 |].
  cbn [no_NUL] in H. apply andb_true_iff in H as [Ha Hs].
  destruct s2 as [| b s2]; cbn [AreEqual string_tolower String.prefix].
  - rewrite tolower_NUL. by destruct (Ascii.eqb a NUL).
  - destruct (ascii_dec (tolower a) (tolower b)) as [-> | Hne].
    + rewrite Ascii.eqb_refl. by apply IH.
    + by rewrite (proj2 (Ascii.eqb_neq _ _) Hne).
Qed.

Lemma prefix_append (s1 s2 : string) :
  String.prefix s1 s2 = true <-> exists t, s2 = s1 +:+ t.
Proof.
  revert s2. induction s1 as [| a s1 IH]; intros s2.
  - split; [by exists s2 | by destruct s2].
  - destruct s2 as [| b s2]; cbn [String.prefix].
    + split; [done | by intros [t Ht]].
    + destruct (ascii_dec a b) as [-> | Hne].
      * rewrite IH. split; intros [t Ht]; exists t.
        -- by rewrite Ht.
        -- by injection Ht.
      * split; [done |]. intros [t Ht]. injection Ht as ? ?. by subst.
Qed.

(** X1.  [AreEqual s1 s2] looks at the first [|s1|] characters of [s2]
    only: for [s1] without NUL characters it returns, and the result is
    true exactly when [s1] is, case ignored, a prefix of [s2].  The lengths
    need not agree. *)
Theorem AreEqual_prefix (s1 s2 : string) :
  no_NUL s1 = true ->
  exists b,
    AreEqual s1 s2 = Ok b
    /\ (b = true <-> exists t, string_tolower s2 = string_tolower s1 +:+ t).
Proof.
  intros H. eexists. split; [by apply AreEqual_prefix_bool |]. apply prefix_append.
Qed.

(** X2.  [ParseCropType] accepts, case ignored, every prefix of "center"
    (the empty text included) as [Center] and every other prefix of
    "random" as [Random]; any other text without NUL characters is an
    "Invalid crop type" error carrying the text. *)
Theorem ParseCropType_prefix (src : string) :
  no_NUL src = true ->
  CropTransform.ParseCropType src
  = if String.prefix (string_tolower src) "center" then Ok CropTransform.Center
    else if String.prefix (string_tolower src) "random" then Ok CropTransform.Random
    else Fail (RuntimeError "Invalid crop type: %s." [ArgStr src]).
Proof.
  intros H. unfold CropTransform.ParseCropType. rewrite !AreEqual_prefix_bool by done.
  change (string_tolower "center") with "center"%string.
  change (string_tolower "random") with "random"%string.
  destruct src as [| c src]; [reflexivity |].
  cbn [CropTransform.is_empty mbind outcome_bind].
  destruct (String.prefix _ "center"); [reflexivity |]. cbn [mbind outcome_bind].
  by destruct (String.prefix _ "random").
Qed.

(** X3.  [ParseJitterType] accepts, case ignored, every prefix of "none"
    (the empty text included) as no jitter, every other prefix of
    "uniratio" (so "u" and "uni" too) as [UniRatio], then the prefixes of
    "unilength" and of "uniarea"; any other text without NUL characters is
    an "Invalid jitter type" error carrying the text. *)
Theorem ParseJitterType_prefix (src : string) :
  no_NUL src = true ->
  CropTransform.ParseJitterType src
  = if String.prefix (string_tolower src) "none" then Ok CropTransform.NoJitter
    else if String.prefix (string_tolower src) "uniratio" then Ok CropTransform.UniRatio
    else if String.prefix (string_tolower src) "unilength" then Ok CropTransform.UniLength
    else if String.prefix (string_tolower src) "uniarea" then Ok CropTransform.UniArea
    else Fail (RuntimeError "Invalid jitter type: %s." [ArgStr src]).
Proof.
  intros H. unfold CropTransform.ParseJitterType. rewrite !AreEqual_prefix_bool by done.
  change (string_tolower "none") with "none"%string.
  change (string_tolower "uniratio") with "uniratio"%string.
  change (string_tolower "unilength") with "unilength"%string.
  change (string_tolower "uniarea") with "uniarea"%string.
  destruct src as [| c src]; [reflexivity |].
  cbn [CropTransform.is_empty mbind outcome_bind].
  repeat (destruct (String.prefix _ _); cbn [mbind outcome_bind]; [reflexivity |]).
  reflexivity.
Qed.

(** ** CropTransform: configuration and shape of the result *)

Lemma SFleb_of_not_ltb (x y : spec_float) :
  SFltb double_zero x = true -> SFltb double_zero y = true ->
  SFltb y x = false -> SFleb x y = true.
Proof.
  unfold SFltb, SFleb, double_zero.
  destruct x as [sx | sx | | sx mx ex], y as [sy | sy | | sy my ey];
    cbn [SFcompare]; try done;
    try (destruct sx; try done; destruct sy; done).
  destruct sx; [done |]. destruct sy; [done |]. intros _ _.
  rewrite (Z.compare_antisym ey ex).
  destruct (ey ?= ex); cbn [CompOpp]; try done.
  pose proof (Pos.compare_cont_antisym mx my Eq) as Ha. cbn [CompOpp] in Ha.
  rewrite <- Ha. by destruct (Pos.compare_cont Eq mx my).
Qed.

Lemma split_at_no_delim (delim : ascii) (s : string) :
  has_char delim s = false -> split_at delim s = (s, EmptyString).
Proof.
  induction s as [| a s IH]; [done |]. cbn [has_char split_at].
  destruct (Ascii.eqb a delim); [done |]. cbn [orb]. intros H. by rewrite IH.
Qed.

Lemma length_flat_map_const {A B} (f : A -> list B) (l : list A) (n : nat) :
  Forall (fun x => length (f x) = n) l ->
  length (flat_map f l) = (length l * n)%nat.
Proof.
  induction 1 as [| x l Hx _ IH]; [done |].
  cbn [flat_map length]. rewrite length_app, Hx, IH. lia.
Qed.

Lemma take_drop_length {A} (l : list A) (n k total : Z) :
  0 <= n -> 0 <= k -> Z.of_nat (length l) = total -> k + n <= total ->
  length (take (Z.to_nat n) (drop (Z.to_nat k) l)) = Z.to_nat n.
Proof. intros Hn Hk Hl Hle. rewrite length_take, length_drop. lia. Qed.

(** A value [B * 2^(-e0)] that is an integer below 2^31 is rounded to
    itself. *)
Lemma binary_round_aux_int (M : positive) (e0 B : Z) :
  e0 <= 0 -> 0 <= B < 2 ^ 31 -> Z.pos M = B * 2 ^ (- e0) ->
  double_floor (binary_round_aux 53 1024 false (Z.pos M) e0 loc_Exact) = Some B.
Proof.
  intros He0 HB HM. unfold binary_round_aux, shr_fexp.
  cbn [shr_record_of_loc]. rewrite fexp64.
  set (d := Zdigits2 (Z.pos M)).
  assert (H2e0 : 0 < 2 ^ (- e0)) by (apply Z.pow_pos_nonneg; lia).
  assert (Hd : d <= 31 - e0).
  { apply Zdigits2_le; [| lia]. split; [lia |].
    replace (31 - e0) with (31 + - e0) by lia. rewrite Z.pow_add_r by lia. nia. }
  destruct (shr_spec (Z.pos M) e0 (Z.max (d + e0 - 53) emin64 - e0) ltac:(lia))
    as (mrs1 & -> & Hm1 & Hx1).
  set (n := Z.max 0 (Z.max (d + e0 - 53) emin64 - e0)) in *.
  set (e1 := e0 + n).
  assert (Hn : 0 <= n) by lia.
  assert (He1 : e1 <= 0) by (unfold e1, n, emin64; lia).
  set (K := B * 2 ^ (- e1)).
  assert (Hpow : 2 ^ (- e0) = 2 ^ (- e1) * 2 ^ n).
  { rewrite <- Z.pow_add_r by lia. f_equal. lia. }
  assert (H2n : 0 < 2 ^ n) by (apply Z.pow_pos_nonneg; lia).
  assert (H2e : 0 < 2 ^ (- e1)) by (apply Z.pow_pos_nonneg; lia).
  assert (HMK : Z.pos M = K * 2 ^ n) by (unfold K; rewrite HM, Hpow; lia).
  assert (Hz : Z.pos M mod 2 ^ n = 0) by (rewrite HMK; apply Z.mod_mul; lia).
  rewrite (Hx1 Hz). cbn [round_nearest_even].
  rewrite Hm1, HMK, Z.div_mul by lia.
  assert (HK : 0 < K) by nia.
  assert (Hd1 : Zdigits2 K <= 31 - e1).
  { apply Zdigits2_le; [| lia]. split; [lia |].
    replace (31 - e1) with (31 + - e1) by lia. rewrite Z.pow_add_r by lia.
    unfold K. nia. }
  rewrite fexp64.
  destruct (shr_spec K e1 (Z.max (Zdigits2 K + e1 - 53) emin64 - e1) ltac:(lia))
    as (mrs2 & Hshr2 & Hm2 & _).
  fold e1. rewrite Hshr2.
  set (n2 := Z.max 0 (Z.max (Zdigits2 K + e1 - 53) emin64 - e1)) in *.
  assert (Hn2 : 0 <= n2) by lia.
  assert (He2 : e1 + n2 <= 0) by (unfold n2, emin64; lia).
  assert (H2n2 : 0 < 2 ^ n2) by (apply Z.pow_pos_nonneg; lia).
  assert (H2e2 : 0 < 2 ^ (- (e1 + n2))) by (apply Z.pow_pos_nonneg; lia).
  assert (HB' : shr_m mrs2 / 2 ^ (- (e1 + n2)) = B).
  { rewrite Hm2, Z.div_div by lia. rewrite <- Z.pow_add_r by lia.
    replace (n2 + - (e1 + n2)) with (- e1) by lia. unfold K. by rewrite Z.div_mul by lia. }
  assert (Hm2' : 0 <= shr_m mrs2) by (rewrite Hm2; apply Z.div_pos; lia).
  destruct (shr_m mrs2) as [| m2 | m2] eqn:Em2; [| | lia].
  - rewrite Z.div_0_l in HB' by lia. nia.
  - destruct (Z.leb_spec (e1 + n2) (1024 - 53)) as [_ | Hbad]; [| lia].
    rewrite double_floor_positive, double_trunc_finite by done. by rewrite HB'.
Qed.

(** At ratio 1 the product is the side itself. *)
Lemma crop_size_ratio_one (m : Z) :
  0 < m <= INT_MAX ->
  double_floor (double_mul (double_of_int m) double_one) = Some m.
Proof.
  intros Hm. unfold INT_MAX in Hm.
  destruct (double_of_int_exact m) as (mx & ex & -> & Hex & Hmx); [lia |].
  assert (Hone : double_one = S754_finite false 4503599627370496 (-52))
    by (vm_compute; reflexivity).
  rewrite Hone. unfold double_mul, SFmul. cbn [xorb].
  apply binary_round_aux_int; [lia | lia |].
  rewrite Pos2Z.inj_mul, Hmx.
  replace (- (ex + -52)) with (- ex + 52) by lia. rewrite Z.pow_add_r by lia.
  change (Z.pos 4503599627370496) with (2 ^ 52). lia.
Qed.

Section CropShape.
Context `{P : Platform}.
Import CropTransform.

(** X4.  A [CropTransform] that [Init] has accepted satisfies
    [0 < m_cropRatioMin <= m_cropRatioMax <= 1]; and when the configuration
    has no [hflip] parameter, horizontal flipping is on for a random crop
    and off for a centre crop. *)
Theorem Crop_Init_post (self self' : t) (config : ConfigParameters) :
  Init self config = Ok self' ->
  ratio_in_range (m_cropRatioMin self') = true
  /\ ratio_in_range (m_cropRatioMax self') = true
  /\ SFleb (m_cropRatioMin self') (m_cropRatioMax self') = true
  /\ (ExistsCurrent config "hflip" = false ->
      m_hFlip self' = match m_cropType self' with Random => true | Center => false end).
Proof.
  unfold Init. intros H.
  destruct (ParseCropType _) as [cropType |]; cbn [mbind outcome_bind] in H; [| done].
  destruct (ParseCropRatio _ _) as [[lo hi] |]; cbn [mbind outcome_bind] in H; [| done].
  destruct (ratio_in_range lo) eqn:Hlo; [| done].
  destruct (ratio_in_range hi) eqn:Hhi; [| done].
  destruct (SFltb hi lo) eqn:Hord; [done |]. cbn [negb orb] in H.
  destruct (ParseJitterType _); cbn [mbind outcome_bind] in H; [| done].
  destruct (ParseHFlip config cropType) as [hFlip |] eqn:Hflip;
    cbn [mbind outcome_bind] in H; [| done].
  injection H as <-. cbn [m_cropRatioMin m_cropRatioMax m_hFlip m_cropType].
  split; [done |]. split; [done |]. split.
  - unfold ratio_in_range in Hlo, Hhi.
    apply andb_true_iff in Hlo as [Hlo _]. apply andb_true_iff in Hhi as [Hhi _].
    by apply SFleb_of_not_ltb.
  - intros Hno. unfold ParseHFlip in Hflip. rewrite Hno in Hflip.
    by injection Hflip as <-.
Qed.

(** X5.  A [cropRatio] given as a single number (a non-empty text with no
    colon, as the default "1" is) sets both bounds to that number:
    [m_cropRatioMin = m_cropRatioMax]. *)
Theorem Crop_Init_single_ratio (self self' : t) (config : ConfigParameters) :
  let text := config_default config "cropRatio" "1" in
  text <> EmptyString -> has_char COLON text = false ->
  Init self config = Ok self' ->
  exists r,
    stof text = Ok r
    /\ m_cropRatioMin self' = double_of_float r
    /\ m_cropRatioMax self' = double_of_float r.
Proof.
  intros text Hne Hcolon. unfold Init. fold text. clearbody text.
  destruct (ParseCropType _); cbn [mbind outcome_bind]; [| done].
  unfold ParseCropRatio, getline. destruct text as [| ch text']; [done |].
  rewrite split_at_no_delim by done.
  destruct (stof _) as [r |]; cbn [mbind outcome_bind]; [| done].
  destruct (_ || _); [done |].
  destruct (ParseJitterType _); cbn [mbind outcome_bind]; [| done].
  destruct (ParseHFlip _ _); cbn [mbind outcome_bind]; [| done].
  intros [= <-]. by exists r.
Qed.

(** The rectangle that [GetCropRect] returns lies within the image. *)
Lemma GetCropRect_in_image (type : CropType) (crow ccol : Z) (cropRatio : double)
    (rng : mt19937) :
  0 < crow <= INT_MAX -> 0 < ccol <= INT_MAX ->
  is_double cropRatio = true -> ratio_in_range cropRatio = true ->
  exists s x y rng',
    GetCropRect type crow ccol cropRatio rng
    = Ok ({| rect_x := x; rect_y := y; rect_width := s; rect_height := s |}, rng')
    /\ double_floor (double_mul (double_of_int (Z.min crow ccol)) cropRatio) = Some s
    /\ 0 <= s <= Z.min crow ccol
    /\ 0 <= x <= ccol - s /\ 0 <= y <= crow - s
    /\ exists q,
         exact_floor_mul (Z.min crow ccol) cropRatio = Some q
         /\ q <= s <= q + 1
         /\ (forall a k,
               is_dyadic cropRatio a k -> k <= 1074 -> Z.min crow ccol * a < 2 ^ 53 ->
               s = q).
Proof.
  intros Hr Hc Hv Hratio. unfold GetCropRect.
  rewrite !assert_true by (right; first [done | lia]). cbn [mbind outcome_bind].
  destruct (crop_size_exact (Z.min crow ccol) cropRatio)
    as (s & q & -> & Hq & Hqs & Hs & Hdy & Hfl); [lia | done | done |].
  assert (Hexact : exists q,
            exact_floor_mul (Z.min crow ccol) cropRatio = Some q
            /\ q <= s <= q + 1
            /\ (forall a k,
                  is_dyadic cropRatio a k -> k <= 1074 -> Z.min crow ccol * a < 2 ^ 53 ->
                  s = q))
    by (by exists q).
  cbn [mbind outcome_bind].
  assert (Hsub : forall a, s <= a <= INT_MAX -> int_sub a s = Ok (a - s)).
  { intros a Ha. unfold int_sub, in_int, INT_MIN, INT_MAX in *.
    destruct (Z.leb_spec (- 2 ^ 31) (a - s)); [| lia].
    destruct (Z.leb_spec (a - s) (2 ^ 31 - 1)); [done | lia]. }
  destruct type.
  - rewrite !Hsub by lia. cbn [mbind outcome_bind].
    rewrite !Z.quot_div_nonneg by lia.
    assert (0 <= (ccol - s) / 2 <= ccol - s)
      by (split; [apply Z.div_pos; lia | apply Z.div_le_upper_bound; lia]).
    assert (0 <= (crow - s) / 2 <= crow - s)
      by (split; [apply Z.div_pos; lia | apply Z.div_le_upper_bound; lia]).
    rewrite !assert_true by (right; lia). cbn [mbind outcome_bind].
    by eexists _, _, _, _.
  - rewrite (Hsub ccol) by lia. cbn [mbind outcome_bind]. unfold UniIntT.
    destruct (Z.leb_spec 0 (ccol - s)); [| lia].
    pose proof (uniform_int_range 0 (ccol - s) rng ltac:(lia)) as Hx.
    destruct (uniform_int_distribution 0 (ccol - s) rng) as [x nx]. cbn [fst] in Hx.
    cbn [mbind outcome_bind]. rewrite (Hsub crow) by lia. cbn [mbind outcome_bind].
    destruct (Z.leb_spec 0 (crow - s)); [| lia].
    pose proof (uniform_int_range 0 (crow - s) (mt_advance rng nx) ltac:(lia)) as Hy.
    destruct (uniform_int_distribution 0 (crow - s) (mt_advance rng nx)) as [y ny].
    cbn [fst] in Hy. cbn [mbind outcome_bind].
    rewrite !assert_true by (right; lia). cbn [mbind outcome_bind].
    by eexists _, _, _, _.
Qed.

(** X6.  At ratio 1, which is the default, the crop is a square whose side
    is the shorter side of the image, exactly; it spans that side, so one
    of the two offsets is 0, for a centre crop and for a random crop. *)
Theorem GetCropRect_ratio_one (type : CropType) (crow ccol : Z) (rng : mt19937) :
  0 < crow <= INT_MAX -> 0 < ccol <= INT_MAX ->
  exists x y rng',
    GetCropRect type crow ccol double_one rng
    = Ok ({| rect_x := x; rect_y := y;
             rect_width := Z.min crow ccol; rect_height := Z.min crow ccol |}, rng')
    /\ 0 <= x <= ccol - Z.min crow ccol
    /\ 0 <= y <= crow - Z.min crow ccol
    /\ (x = 0 \/ y = 0).
Proof.
  intros Hr Hc.
  destruct (GetCropRect_in_image type crow ccol double_one rng Hr Hc)
    as (s & x & y & rng' & Hg & Hfl & Hs & Hx & Hy & _);
    [vm_compute; reflexivity | vm_compute; reflexivity |].
  rewrite crop_size_ratio_one in Hfl by lia. injection Hfl as <-.
  exists x, y, rng'. split; [done |]. split; [done |]. split; [done |]. lia.
Qed.

Lemma roi_data_length (m : Mat) (r : Rect) :
  0 <= channels m ->
  Z.of_nat (length (data m)) = rows m * cols m * channels m ->
  0 <= rect_x r -> 0 <= rect_width r -> rect_x r + rect_width r <= cols m ->
  0 <= rect_y r -> 0 <= rect_height r -> rect_y r + rect_height r <= rows m ->
  Z.of_nat (length (roi_data m r)) = rect_height r * rect_width r * channels m.
Proof.
  intros Hch Hlen Hx Hw Hxw Hy Hh Hyh. unfold roi_data.
  rewrite (length_flat_map_const _ _ (Z.to_nat (rect_width r * channels m))).
  - rewrite length_seqZ, Nat2Z.inj_mul, !Z2Nat.id by nia. lia.
  - apply Forall_forall. intros y Hin. apply elem_of_seqZ in Hin.
    apply (take_drop_length (data m) (rect_width r * channels m)
             ((y * cols m + rect_x r) * channels m) (rows m * cols m * channels m));
      [nia | nia | done |].
    assert (y * cols m + rect_x r + rect_width r <= (y + 1) * cols m) by lia.
    assert ((y + 1) * cols m <= rows m * cols m) by nia.
    nia.
Qed.

Lemma cv_flip_horizontal_length (m : Mat) :
  0 <= channels m -> 0 <= rows m -> 0 <= cols m ->
  Z.of_nat (length (data m)) = rows m * cols m * channels m ->
  Z.of_nat (length (data (cv_flip_horizontal m))) = rows m * cols m * channels m.
Proof.
  intros Hch Hr Hc Hlen. unfold cv_flip_horizontal. cbn [data].
  rewrite (length_flat_map_const _ _ (Z.to_nat (cols m * channels m))).
  - rewrite length_seqZ, Nat2Z.inj_mul, !Z2Nat.id by nia. lia.
  - apply Forall_forall. intros y Hy. apply elem_of_seqZ in Hy.
    rewrite (length_flat_map_const _ _ (Z.to_nat (channels m))).
    + rewrite length_seqZ. nia.
    + apply Forall_forall. intros x Hx. apply elem_of_seqZ in Hx.
      apply (take_drop_length (data m) (channels m)
               ((y * cols m + (cols m - 1 - x)) * channels m)
               (rows m * cols m * channels m)); [done | nia | done |].
      assert (y * cols m + (cols m - 1 - x) + 1 <= (y + 1) * cols m) by lia.
      assert ((y + 1) * cols m <= rows m * cols m) by nia.
      nia.
Qed.

(** X7.  Without jitter, [Apply] succeeds on every image with positive
    [int] dimensions, with or without assertions, whatever the crop type
    and the flip setting.  The result is a square of side [s] with the
    depth and the channel count of the input, and it holds
    [s * s * channels] elements when the input holds
    [rows * cols * channels].  With
    [q = floor (min rows cols * m_cropRatioMin)] for the exact product,
    [q <= s <= q + 1] and [0 <= s <= min rows cols]; [s = q] when the
    ratio is [a / 2^k] with [k <= 1074] and [min rows cols * a < 2^53]. *)
Theorem Crop_Apply_square (self : t) (mat : Mat) :
  m_jitterType self = NoJitter ->
  is_double (m_cropRatioMin self) = true ->
  ratio_in_range (m_cropRatioMin self) = true ->
  0 < rows mat <= INT_MAX -> 0 < cols mat <= INT_MAX ->
  exists mat' self' s q,
    Apply self mat = Ok (mat', self')
    /\ exact_floor_mul (Z.min (rows mat) (cols mat)) (m_cropRatioMin self) = Some q
    /\ q <= s <= q + 1
    /\ 0 <= s <= Z.min (rows mat) (cols mat)
    /\ (forall a k,
          is_dyadic (m_cropRatioMin self) a k -> k <= 1074 ->
          Z.min (rows mat) (cols mat) * a < 2 ^ 53 ->
          s = q)
    /\ rows mat' = s /\ cols mat' = s
    /\ depth mat' = depth mat /\ channels mat' = channels mat
    /\ (0 <= channels mat ->
        Z.of_nat (length (data mat)) = rows mat * cols mat * channels mat ->
        Z.of_nat (length (data mat')) = s * s * channels mat).
Proof.
  intros Hj Hv Hratio Hr Hc. unfold Apply, draw_ratio. rewrite Hj.
  destruct (pop_or_create _ _) as [rng pool]. cbn [mbind outcome_bind].
  destruct (GetCropRect_in_image (m_cropType self) (rows mat) (cols mat)
              (m_cropRatioMin self) rng Hr Hc Hv Hratio)
    as (s & x & y & rng' & -> & _ & Hs & Hx & Hy & q & Hq & Hqs & Hdy).
  cbn [mbind outcome_bind]. unfold Mat_roi. cbn [rect_x rect_y rect_width rect_height].
  destruct (Z.leb_spec 0 x); [| lia]. destruct (Z.leb_spec 0 s); [| lia].
  destruct (Z.leb_spec (x + s) (cols mat)); [| lia].
  destruct (Z.leb_spec 0 y); [| lia].
  destruct (Z.leb_spec (y + s) (rows mat)); [| lia].
  cbn [andb mbind outcome_bind].
  set (roi := {| rows := s; cols := s; depth := depth mat; channels := channels mat;
                 data := _ |}).
  assert (Hroi : 0 <= channels mat ->
                 Z.of_nat (length (data mat)) = rows mat * cols mat * channels mat ->
                 Z.of_nat (length (data roi)) = s * s * channels mat).
  { intros Hch Hlen. unfold roi. cbn [data].
    by rewrite roi_data_length by (try done; cbn; lia). }
  destruct (if m_hFlip self then _ else _) as [[] rng2];
    eexists _, _, s, q; (split; [reflexivity |]);
    (split; [done |]); (split; [done |]); (split; [done |]); (split; [done |]);
    cbn [rows cols depth channels cv_flip_horizontal];
    (split; [done |]); (split; [done |]); (split; [done |]); (split; [done |]).
  - intros Hch Hlen.
    pose proof (cv_flip_horizontal_length roi Hch ltac:(cbn; lia) ltac:(cbn; lia)) as Hf.
    cbn [rows cols channels cv_flip_horizontal data] in Hf. apply Hf.
    fold roi. by apply Hroi.
  - done.
Qed.

End CropShape.

(** ** ScaleTransform: configuration and element type *)


Section ScaleConfiguration.
Context `{P : Platform}.
Import ScaleTransform.

Lemma Scale_Init_inv (self sc : t) (config : ConfigParameters) :
  Init self config = Ok sc ->
  exists w h c,
    config_size_t config "width" = Ok w
    /\ config_size_t config "height" = Ok h
    /\ config_size_t config "channels" = Ok c
    /\ size_mul (size_mul w h) c <> 0
    /\ size_mul (size_mul w h) c <= (SIZE_MOD - 1) / 2
    /\ m_imgWidth sc = w /\ m_imgHeight sc = h /\ m_imgChannels sc = c
    /\ m_dataType sc = m_dataType self
    /\ m_interp sc
       = (let interp :=
            omap (fun token => interp_find (m_interpMap self) (string_tolower token))
              (getline_all COLON (config_default config "interpolations" "")) in
          if bool_decide (interp = []) then [INTER_LINEAR] else interp).
Proof.
  unfold Init.
  destruct (config_size_t config "width") as [w |]; cbn [mbind outcome_bind]; [| done].
  destruct (config_size_t config "height") as [h |]; cbn [mbind outcome_bind]; [| done].
  destruct (config_size_t config "channels") as [c |]; cbn [mbind outcome_bind]; [| done].
  destruct (Z.eqb_spec (size_mul (size_mul w h) c) 0) as [| Hnz]; [done |].
  destruct (Z.ltb_spec ((SIZE_MOD - 1) / 2) (size_mul (size_mul w h) c)) as [| Hle]; [done |].
  cbn [orb]. intros [= <-]. by eexists w, h, c.
Qed.


(** X9.  The image that [Apply] returns has the element depth of the
    transform ([CV_32F] or [CV_64F]), whether the input had to be converted
    or not. *)
Theorem Scale_Apply_depth (self self' : t) (mat mat' : Mat) :
  Apply self mat = Ok (mat', self') ->
  0 <= depth mat < 8 ->
  m_dataType self = CV_32F \/ m_dataType self = CV_64F ->
  depth mat' = m_dataType self.
Proof.
  unfold Apply. intros H Hd Hdt.
  assert (Hdepth : CV_MAT_DEPTH (m_dataType self) = m_dataType self)
    by (destruct Hdt as [-> | ->]; reflexivity).
  set (wanted := size_add _ _) in H.
  set (mat1 := if negb _ then Mat_convertTo mat (m_dataType self) else mat) in H.
  assert (H1 : depth mat1 = m_dataType self).
  { unfold mat1. destruct (Z.eqb_spec (to_size_t (Mat_type mat)) wanted) as [Heq | Hne];
      cbn [negb]; [| by cbn].
    assert (Hmod : forall a b, 0 <= a < 8 -> to_size_t (a + b * 8) mod 8 = a).
    { intros a b Ha. unfold to_size_t, SIZE_MOD.
      change (2 ^ 64) with (8 * 2 ^ 61).
      rewrite Z.rem_mul_r by lia.
      rewrite (Z.mul_comm 8), Z.mod_add by lia.
      rewrite Z.mod_mod, Z.mod_add by lia. by apply Z.mod_small. }
    assert (Hland : forall a, 0 <= CV_MAT_DEPTH a < 8).
    { intros a. unfold CV_MAT_DEPTH. change 7 with (Z.ones 3).
      rewrite Z.land_ones by lia. apply Z.mod_pos_bound. lia. }
    assert (Hl : to_size_t (Mat_type mat) mod 8 = depth mat).
    { unfold Mat_type, CV_MAKETYPE. rewrite Z.shiftl_mul_pow2 by lia.
      change (2 ^ 3) with 8. rewrite Hmod by apply Hland.
      unfold CV_MAT_DEPTH. change 7 with (Z.ones 3).
      rewrite Z.land_ones by lia. by apply Z.mod_small. }
    assert (Hr : wanted mod 8 = m_dataType self).
    { unfold wanted, size_add. rewrite Z.shiftl_mul_pow2 by lia. change (2 ^ 3) with 8.
      rewrite (to_size_t_small (CV_MAT_DEPTH _))
        by (pose proof (Hland (m_dataType self)); unfold SIZE_MOD; lia).
      unfold to_size_t at 2.
      set (x := size_sub (m_imgChannels self) 1 * 8).
      pose proof (Z.div_mod x SIZE_MOD ltac:(done)) as Hx.
      assert (Hx8 : x mod SIZE_MOD = (x / 8 - 2 ^ 61 * (x / SIZE_MOD)) * 8).
      { assert (x = x / 8 * 8) by (unfold x; rewrite Z.div_mul by lia; lia).
        unfold SIZE_MOD in *. lia. }
      rewrite Hx8, Hmod by apply Hland. done. }
    congruence. }
  destruct (pop_or_create _ _) as [rng pool].
  destruct (assert _ _); cbn [mbind outcome_bind] in H; [| done].
  destruct (UniIntT _ _ rng) as [[k rng1] |]; cbn [mbind outcome_bind] in H; [| done].
  destruct (if k <? 0 then None else _); [| done].
  unfold cv_resize in H. destruct (Mat_empty mat1); [done |].
  destruct (_ && _); [| done]. cbn [mbind outcome_bind] in H.
  injection H as <- _. done.
Qed.

End ScaleConfiguration.

(** ** MeanTransform: the mean file *)

Section MeanFile.
Context `{P : Platform}.
Import MeanTransform.

Lemma int_mul_small (a b : Z) :
  0 <= a * b <= INT_MAX -> int_mul a b = Ok (a * b).
Proof.
  intros H. unfold int_mul, in_int, INT_MIN, INT_MAX in *.
  destruct (Z.leb_spec (- 2 ^ 31) (a * b)); [| lia].
  destruct (Z.leb_spec (a * b) (2 ^ 31 - 1)); [done | lia].
Qed.

(** X10.  With a mean file that opens and declares positive [Channel],
    [Row] and [Col]: when their product is the number of elements of the
    stored image, whatever the shape it is stored in, [Init] succeeds and
    the mean image has [Row] rows, [Col] columns and [Channel] channels
    over the stored elements; when the product differs, [Init] fails with
    "Invalid data in file: " followed by the file name. *)
Theorem Mean_Init_file (self : t) (config : ConfigParameters) (img : Mat)
    (cchan crow ccol : Z) :
  let meanFile := config_default config "meanFile" "" in
  meanFile <> EmptyString ->
  FileStorage_read meanFile = Some (img, cchan, crow, ccol) ->
  0 < cchan -> 0 < crow -> 0 < ccol -> cchan * crow * ccol <= INT_MAX ->
  0 <= channels img -> 0 <= rows img -> 0 <= cols img ->
  channels img * rows img <= INT_MAX ->
  channels img * rows img * cols img <= INT_MAX ->
  (cchan * crow * ccol = channels img * rows img * cols img ->
   Init self config
   = Ok {| m_meanImg := {| rows := crow; cols := ccol; depth := depth img;
                           channels := cchan; data := data img |} |})
  /\ (cchan * crow * ccol <> channels img * rows img * cols img ->
      Init self config = Fail (RuntimeError ("Invalid data in file: " +:+ meanFile) [])).
Proof.
  intros meanFile Hname Hread Hcc Hcr Hcl Hdecl Hch Hrw Hco Hstored2 Hstored.
  assert (Hinit : Init self config
                  = if negb (cchan * crow * ccol =? channels img * rows img * cols img)
                    then Fail (RuntimeError ("Invalid data in file: " +:+ meanFile) [])
                    else img' ← Mat_reshape img cchan crow; Ok {| m_meanImg := img' |}).
  { unfold Init. fold meanFile. destruct meanFile; [done |]. cbn [CropTransform.is_empty].
    rewrite Hread.
    rewrite (int_mul_small cchan crow) by nia. cbn [mbind outcome_bind].
    rewrite (int_mul_small (cchan * crow) ccol) by nia. cbn [mbind outcome_bind].
    rewrite (int_mul_small (channels img) (rows img)) by nia.
    cbn [mbind outcome_bind].
    rewrite (int_mul_small (channels img * rows img) (cols img)) by nia. done. }
  rewrite Hinit. split.
  - intros Heq. rewrite Heq, Z.eqb_refl. cbn [negb].
    unfold Mat_reshape.
    assert (Hc0 : (cchan =? 0) = false) by lia.
    assert (Hr0 : (crow =? 0) = false) by lia.
    rewrite Hc0, Hr0, andb_false_r, Hr0. cbn [negb andb].
    assert (Hshape :
              (if negb (crow =? rows img)
               then
                 if (crow <? 0) || (cols img * channels img * rows img <? crow)
                 then Fail (CvException "reshape: bad new number of rows")
                 else if negb (Z.quot (cols img * channels img * rows img) crow * crow
                               =? cols img * channels img * rows img)
                 then Fail (CvException
                              "reshape: elements not divisible by the new number of rows")
                 else Ok (crow, Z.quot (cols img * channels img * rows img) crow)
               else Ok (rows img, cols img * channels img))
              = Ok (crow, cchan * ccol)).
    { destruct (Z.eqb_spec crow (rows img)) as [Hrows | Hne]; cbn [negb].
      - rewrite <- Hrows in *. do 2 f_equal. apply (Z.mul_reg_r _ _ crow); lia.
      - replace (cols img * channels img * rows img) with (cchan * ccol * crow) by lia.
        rewrite Z.quot_mul by lia.
        destruct (Z.ltb_spec crow 0); [lia |].
        assert (1 <= cchan * ccol) by nia.
        destruct (Z.ltb_spec (cchan * ccol * crow) crow); [nia |].
        by rewrite Z.eqb_refl. }
    rewrite Hshape. cbn [mbind outcome_bind].
    rewrite (Z.mul_comm cchan ccol), Z.quot_mul by lia.
    by rewrite Z.eqb_refl.
  - intros Hne. by destruct (Z.eqb_spec (cchan * crow * ccol)
                               (channels img * rows img * cols img)).
Qed.

End MeanFile.

(** ** ImageReader: what [Init] leaves *)

Section ReaderInit.
Context `{P : Platform}.
Import ImageReader.

Lemma load_map_entries (mapPath : string) (lines : list string) :
  forall (cline : Z) (files0 fs : list (string * Z)),
    load_map mapPath lines cline files0 = Ok fs ->
    fs = files0 ++ omap line_entry lines
    /\ length (omap line_entry lines) = length lines.
Proof.
  induction lines as [| l lines IH]; intros cline files0 fs.
  - cbn. intros [= <-]. by rewrite app_nil_r.
  - rewrite load_map_step. intros H.
    assert (exists entry,
              line_entry l = Some entry
              /\ load_map mapPath lines (size_add cline 1) (files0 ++ [entry]) = Ok fs)
      as (entry & He & Hrest).
    { unfold line_entry. destruct (line_fields l) as [[imgPath clsId] |]; [| done].
      destruct (stoi clsId) as [label |]; cbn [mbind outcome_bind] in H; [| done].
      by eexists. }
    apply IH in Hrest as [-> Hlen]. cbn [omap list_omap]. rewrite He. cbn [length].
    rewrite <- app_assoc. split; [done | by rewrite Hlen].
Qed.

Lemma Init_inv (self self' : t) (config : ConfigParameters) :
  Init self config = Ok self' ->
  exists featSect w h c transforms labSect labDim mapPath mapFile fs,
    gettter config "width" = Ok featSect
    /\ config_size_t (snd featSect) "width" = Ok w
    /\ config_size_t (snd featSect) "height" = Ok h
    /\ config_size_t (snd featSect) "channels" = Ok c
    /\ Init_all (m_transforms self) (snd featSect) = Ok transforms
    /\ gettter config "labelDim" = Ok labSect
    /\ config_size_t (snd labSect) "labelDim" = Ok labDim
    /\ config_required config "file" = Ok mapPath
    /\ ifstream_read mapPath = Some mapFile
    /\ load_map mapPath (file_lines mapFile) 0 (files self) = Ok fs
    /\ ((AreEqual (config_default config "randomize" "auto") "none" = Ok true
         /\ m_imgListRand self' = false)
        \/ (AreEqual (config_default config "randomize" "auto") "none" = Ok false
            /\ AreEqual (config_default config "randomize" "auto") "auto" = Ok true
            /\ m_imgListRand self' = m_imgListRand self))
    /\ m_transforms self' = transforms
    /\ m_featName self' = fst featSect /\ m_labName self' = fst labSect
    /\ m_featDim self' = size_mul (size_mul w h) c /\ m_labDim self' = labDim
    /\ files self' = fs /\ m_epochStart self' = 0 /\ m_mbStart self' = 0
    /\ elemType self' = elemType self.
Proof.
  unfold Init. intros H.
  destruct (gettter config "width") as [featSect |] eqn:Hfeat;
    cbn [mbind outcome_bind] in H; [| done].
  destruct (config_size_t _ "width") as [w |] eqn:Hw; cbn [mbind outcome_bind] in H;
    [| done].
  destruct (config_size_t _ "height") as [h |] eqn:Hh; cbn [mbind outcome_bind] in H;
    [| done].
  destruct (config_size_t _ "channels") as [c |] eqn:Hc; cbn [mbind outcome_bind] in H;
    [| done].
  destruct (Init_all _ _) as [transforms |] eqn:Hall; cbn [mbind outcome_bind] in H;
    [| done].
  destruct (gettter config "labelDim") as [labSect |] eqn:Hlab;
    cbn [mbind outcome_bind] in H; [| done].
  destruct (config_size_t _ "labelDim") as [labDim |] eqn:Hld;
    cbn [mbind outcome_bind] in H; [| done].
  destruct (config_required config "file") as [mapPath |] eqn:Hpath;
    cbn [mbind outcome_bind] in H; [| done].
  destruct (ifstream_read mapPath) as [mapFile |] eqn:Hfile; [| done].
  destruct (load_map _ _ _ _) as [fs |] eqn:Hload; cbn [mbind outcome_bind] in H; [| done].
  destruct (AreEqual _ "none") as [none |] eqn:Hnone; cbn [mbind outcome_bind] in H;
    [| done].
  exists featSect, w, h, c, transforms, labSect, labDim, mapPath, mapFile, fs.
  do 10 (split; [done |]).
  destruct none; cbn [mbind outcome_bind] in H.
  - injection H as <-. cbn. split; [by left | done].
  - destruct (AreEqual _ "auto") as [[] |] eqn:Hauto; cbn [mbind outcome_bind] in H;
      try done.
    injection H as <-. cbn. split; [by right | done].
Qed.

(** X11.  [Init] appends to [files]: after a successful [Init] the list
    is what it was before followed by one entry for each line of the map
    file, in the order of the lines, so a second [Init] of the same reader
    lists the map file twice; [m_epochStart] and [m_mbStart] are 0. *)
Theorem Init_appends_files (self self' : t) (config : ConfigParameters) :
  Init self config = Ok self' ->
  exists mapPath mapFile,
    config_required config "file" = Ok mapPath
    /\ ifstream_read mapPath = Some mapFile
    /\ files self' = files self ++ omap line_entry (file_lines mapFile)
    /\ length (files self') = (length (files self) + length (file_lines mapFile))%nat
    /\ m_epochStart self' = 0 /\ m_mbStart self' = 0.
Proof.
  intros H. apply Init_inv in H
    as (featSect & w & h & c & transforms & labSect & labDim & mapPath & mapFile & fs
        & _ & _ & _ & _ & _ & _ & _ & Hpath & Hfile & Hload & _ & _ & _ & _ & _ & _
        & Hfs & He & Hm & _).
  apply load_map_entries in Hload as [-> Hlen].
  exists mapPath, mapFile. rewrite Hfs, length_app, Hlen. done.
Qed.

(** X12.  After construction and a successful [Init] the reader holds the
    three transforms in the order crop, scale, mean; [m_featDim] is the
    product of the width, height and channel count that the scale
    transform was configured with, is not 0 and is at most half the
    largest [size_t]; and the scale transform works in [CV_32F] for a
    [float] reader and in [CV_64F] for a [double] reader. *)
Theorem Init_featDim (E : ElemType) (rd rd' : t) (config : ConfigParameters) :
  new E = Ok rd ->
  Init rd config = Ok rd' ->
  exists crop scale mean,
    m_transforms rd' = [Crop crop; Scale scale; Mean mean]
    /\ m_featDim rd'
       = size_mul (size_mul (ScaleTransform.m_imgWidth scale)
                     (ScaleTransform.m_imgHeight scale))
           (ScaleTransform.m_imgChannels scale)
    /\ 0 < m_featDim rd' <= (SIZE_MOD - 1) / 2
    /\ ScaleTransform.m_dataType scale
       = match E with Float32 => CV_32F | Float64 => CV_64F end
    /\ elemType rd' = E.
Proof.
  unfold new. intros Hnew Hinit.
  destruct (ScaleTransform.new _ 0) as [sc0 |] eqn:Hsc; cbn [mbind outcome_bind] in Hnew;
    [| done].
  injection Hnew as <-.
  apply Init_inv in Hinit
    as (featSect & w & h & c & transforms & labSect & labDim & mapPath & mapFile & fs
        & _ & Hw & Hh & Hc & Hall & _ & _ & _ & _ & _ & _ & -> & _ & _ & -> & _ & _ & _
        & _ & ->).
  cbn [m_transforms elemType] in *. cbn [Init_all ITransform_Init] in Hall.
  destruct (CropTransform.Init _ _) as [crop |];
    cbn [fmap outcome_fmap mbind outcome_bind] in Hall; [| done].
  destruct (ScaleTransform.Init sc0 _) as [scale |] eqn:Hscale;
    cbn [fmap outcome_fmap mbind outcome_bind] in Hall; [| done].
  destruct (MeanTransform.Init _ _) as [mean |];
    cbn [fmap outcome_fmap mbind outcome_bind] in Hall; [| done].
  injection Hall as <-. exists crop, scale, mean. split; [done |].
  apply Scale_Init_inv in Hscale
    as (w' & h' & c' & Hw' & Hh' & Hc' & Hnz & Hle & -> & -> & -> & Hdt & _).
  assert (w' = w /\ h' = h /\ c' = c) as (-> & -> & ->) by (repeat split; congruence).
  split; [done |].
  pose proof (to_size_t_range (size_mul w h * c)) as Hr. fold (size_mul (size_mul w h) c) in Hr.
  split; [lia |]. split; [| done].
  rewrite Hdt. unfold ScaleTransform.new in Hsc.
  destruct (assert _ _); cbn [mbind outcome_bind] in Hsc; [| done].
  injection Hsc as <-. by destruct E.
Qed.

(** X13.  What a successful [Init] does with [randomize] (default "auto",
    no NUL characters): a value that is, case ignored, a prefix of "none",
    the empty text included, switches shuffling off; any other accepted
    value is a prefix of "auto" and leaves [m_imgListRand] as it was, which
    is on for a reader that was just constructed.  [Init] never switches
    shuffling on. *)
Theorem Init_randomize (self self' : t) (config : ConfigParameters) :
  Init self config = Ok self' ->
  let rand := config_default config "randomize" "auto" in
  no_NUL rand = true ->
  if String.prefix (string_tolower rand) "none" then m_imgListRand self' = false
  else String.prefix (string_tolower rand) "auto" = true
       /\ m_imgListRand self' = m_imgListRand self.
Proof.
  intros H rand Hnul. apply Init_inv in H
    as (featSect & w & h & c & transforms & labSect & labDim & mapPath & mapFile & fs
        & _ & _ & _ & _ & _ & _ & _ & _ & _ & _ & Hrand & _).
  fold rand in Hrand. rewrite !AreEqual_prefix_bool in Hrand by done.
  change (string_tolower "none") with "none"%string in Hrand.
  change (string_tolower "auto") with "auto"%string in Hrand.
  destruct (String.prefix (string_tolower rand) "none").
  - destruct Hrand as [[_ Hr] | (Hc & _)]; [done | discriminate Hc].
  - destruct Hrand as [[Hc _] | (_ & Ha & Hr)]; [discriminate Hc |].
    split; [congruence | done].
Qed.

End ReaderInit.

(** ** ImageReader: the minibatch loop *)

Section MinibatchLoop.
Context `{P : Platform}.
Import ImageReader.

Lemma StartMinibatchLoop_inv (self self' : t) (mbSize epoch requestedEpochSamples : Z) :
  StartMinibatchLoop self mbSize epoch requestedEpochSamples = Ok self' ->
  exists shuffled rng,
    shuffle_files self = (shuffled, rng)
    /\ files self' = shuffled /\ m_rng self' = rng
    /\ m_mbSize self' = mbSize /\ m_epoch self' = epoch
    /\ m_epochSize self'
       = (if requestedEpochSamples =? requestDataSize then files_size self'
          else requestedEpochSamples)
    /\ m_epochStart self'
       = (if files_size self' <=? size_mul epoch (m_epochSize self') then 0
          else size_mul epoch (m_epochSize self'))
    /\ m_mbStart self'
       = (if files_size self' <=? size_mul epoch (m_epochSize self') then 0
          else m_mbStart self)
    /\ m_featDim self' = m_featDim self /\ m_labDim self' = m_labDim self
    /\ m_featBuf self' = vector_resize (m_featBuf self) (size_mul mbSize (m_featDim self))
    /\ m_labBuf self' = vector_resize (m_labBuf self) (size_mul mbSize (m_labDim self)).
Proof.
  unfold StartMinibatchLoop. intros H.
  repeat match type of H with
         | context [assert ?e ?s] =>
             destruct (assert e s); cbn [mbind outcome_bind] in H; [| discriminate H]
         end.
  destruct (shuffle_files self) as [shuffled rng] eqn:Hsh.
  destruct (assert _ _); cbn [mbind outcome_bind] in H; [| discriminate H].
  injection H as <-. by exists shuffled, rng.
Qed.

(** X15.  After a successful [StartMinibatchLoop] both buffers hold
    exactly [mbSize] samples; [m_epochSize] is the number of files for the
    "use the full data set" request and the request otherwise;
    [m_epochStart] is either [epoch * m_epochSize] and below the number
    of files, or, when that product is not below the number of files, 0
    together with [m_mbStart]; and without shuffling the list of files and
    the reader's generator are as before. *)
Theorem StartMinibatchLoop_post (self self' : t) (mbSize epoch requestedEpochSamples : Z) :
  StartMinibatchLoop self mbSize epoch requestedEpochSamples = Ok self' ->
  buffers_fit self'
  /\ m_epochSize self'
     = (if requestedEpochSamples =? requestDataSize then files_size self'
        else requestedEpochSamples)
  /\ ((m_epochStart self' = size_mul epoch (m_epochSize self')
       /\ m_epochStart self' < files_size self')
      \/ (files_size self' <= size_mul epoch (m_epochSize self')
          /\ m_epochStart self' = 0 /\ m_mbStart self' = 0))
  /\ (m_imgListRand self = false -> files self' = files self /\ m_rng self' = m_rng self).
Proof.
  intros H. apply StartMinibatchLoop_inv in H
    as (shuffled & rng & Hsh & Hfiles & Hrng & Hmb & _ & Hes & Hestart & Hmbs & Hfd & Hld
        & Hfb & Hlb).
  split; [| split; [done |]; split].
  - unfold buffers_fit. rewrite Hfb, Hlb, Hmb, Hfd, Hld. unfold vector_resize.
    rewrite !length_resize.
    pose proof (to_size_t_range (mbSize * m_featDim self)) as Hf.
    pose proof (to_size_t_range (mbSize * m_labDim self)) as Hl.
    fold (size_mul mbSize (m_featDim self)) in Hf.
    fold (size_mul mbSize (m_labDim self)) in Hl. lia.
  - rewrite Hestart, Hmbs.
    destruct (Z.leb_spec (files_size self') (size_mul epoch (m_epochSize self')));
      [by right | by left].
  - intros Hr. unfold shuffle_files in Hsh. rewrite Hr in Hsh.
    injection Hsh as <- <-. done.
Qed.

(** X16.  [SetRandomSeed] followed by [StartMinibatchLoop] on a reader
    that shuffles: the order of the files for the epoch is the shuffle of
    the list with a generator freshly seeded with the given seed, whatever
    the generator had been used for before. *)
Theorem SetRandomSeed_shuffle (self self' : t)
    (seed mbSize epoch requestedEpochSamples : Z) :
  m_imgListRand self = true ->
  StartMinibatchLoop (SetRandomSeed self seed) mbSize epoch requestedEpochSamples
  = Ok self' ->
  files self' = fst (shuffle (files self) (mt19937_new seed))
  /\ m_rng self'
     = mt_advance (mt19937_new seed) (snd (shuffle (files self) (mt19937_new seed))).
Proof.
  intros Hr H. apply StartMinibatchLoop_inv in H
    as (shuffled & rng & Hsh & -> & -> & _).
  unfold shuffle_files, SetRandomSeed in Hsh. cbn [m_imgListRand files m_rng] in Hsh.
  rewrite Hr in Hsh. destruct (shuffle _ _) as [fs n]. by injection Hsh as <- <-.
Qed.

Lemma GetMinibatch_unfold (self : t) (matrices : gmap string Matrix) :
  is_Some (matrices !! m_featName self) ->
  is_Some (matrices !! m_labName self) ->
  NDEBUG = true \/ 0 < m_mbSize self ->
  GetMinibatch self matrices
  = if exhausted self then Ok (false, self, matrices) else produce self matrices.
Proof.
  intros [f Hf] [l Hl] Hmb. unfold GetMinibatch.
  rewrite (assert_true (0 <? Z.of_nat (size matrices))).
  2:{ right. apply Z.ltb_lt.
      assert (size matrices <> 0%nat); [| lia].
      intros H0. apply map_size_empty_iff in H0. by rewrite H0 in Hf. }
  rewrite (assert_true (bool_decide _)) by (right; apply bool_decide_eq_true; eauto).
  rewrite (assert_true (0 <? m_mbSize self)) by (destruct Hmb; [by left | right; lia]).
  cbn [mbind outcome_bind]. by rewrite Hf, Hl.
Qed.

Lemma produce_inv (self self' : t) (matrices matrices' : gmap string Matrix) (b : bool) :
  produce self matrices = Ok (b, self', matrices') ->
  b = true
  /\ exists transforms featBuf labBuf features labels,
       pack_slots self = Ok (transforms, featBuf, labBuf)
       /\ SetValue (m_featDim self) (batch_size self) featBuf = Ok features
       /\ SetValue (m_labDim self) (batch_size self) labBuf = Ok labels
       /\ matrices' = <[m_labName self := labels]> (<[m_featName self := features]> matrices)
       /\ self' = {| elemType := elemType self; m_seed := m_seed self; m_rng := m_rng self;
                     m_imgListRand := m_imgListRand self;
                     m_pMBLayout := (batch_size self, 1, false);
                     m_transforms := transforms;
                     m_featName := m_featName self; m_labName := m_labName self;
                     m_featDim := m_featDim self; m_labDim := m_labDim self;
                     files := files self;
                     m_epochStart := m_epochStart self; m_mbStart := mbLim self;
                     m_epochSize := m_epochSize self; m_mbSize := m_mbSize self;
                     m_epoch := m_epoch self; m_featBuf := featBuf; m_labBuf := labBuf |}.
Proof.
  unfold produce. intros H.
  destruct (pack_slots self) as [[[trs fb] lb] |]; [| done].
  cbn [mbind outcome_bind] in H.
  destruct (SetValue (m_featDim self) _ fb) as [features |] eqn:Hf; [| done].
  cbn [mbind outcome_bind] in H.
  destruct (SetValue (m_labDim self) _ lb) as [labels |] eqn:Hl; [| done].
  cbn [mbind outcome_bind] in H. injection H as <- <- <-.
  split; [done |]. by eexists _, _, _, _, _.
Qed.

Lemma GetMinibatch_inv (self self' : t) (matrices matrices' : gmap string Matrix) (b : bool) :
  GetMinibatch self matrices = Ok (b, self', matrices') ->
  (b = false /\ exhausted self = true /\ self' = self /\ matrices' = matrices)
  \/ (b = true /\ exhausted self = false
      /\ produce self matrices = Ok (true, self', matrices')).
Proof.
  unfold GetMinibatch. intros H.
  repeat match type of H with
         | context [assert ?e ?s] =>
             destruct (assert e s); cbn [mbind outcome_bind] in H; [| discriminate H]
         end.
  destruct (exhausted self).
  - injection H as <- <- <-. by left.
  - destruct (matrices !! m_featName self); [| by destruct (pack_slots self)].
    destruct (matrices !! m_labName self); [| by destruct (pack_slots self)].
    right. destruct (produce_inv _ _ _ _ _ H) as [-> _]. done.
Qed.

Lemma batch_size_bounds (self : t) :
  exhausted self = false ->
  0 <= m_mbStart self -> 0 < m_mbSize self ->
  m_mbStart self + m_mbSize self < SIZE_MOD ->
  mbLim self = Z.min (m_mbStart self + m_mbSize self) (files_size self)
  /\ batch_size self = mbLim self - m_mbStart self
  /\ 0 < batch_size self <= m_mbSize self.
Proof.
  intros Hex Hs Hmb Hov. unfold exhausted in Hex.
  apply orb_false_iff in Hex as [Hex _]. apply Z.leb_gt in Hex.
  assert (Hlim : mbLim self = Z.min (m_mbStart self + m_mbSize self) (files_size self)).
  { unfold mbLim. rewrite size_add_small by lia. case_match; lia. }
  split; [done |]. unfold batch_size. rewrite Hlim.
  rewrite size_sub_small by (unfold SIZE_MOD in *; lia). lia.
Qed.

(** X17.  After [Init] and [StartMinibatchLoop] on a map file that is not
    empty and has fewer than 2^63 entries, with a requested epoch size
    above 0 and below 2^63, for any epoch number: [m_mbStart] is 0, the
    reader is not at the end of its data, and the first [GetMinibatch]
    does not report the end of the data: if it returns, it returns
    true. *)
Theorem first_minibatch_has_data (rd rd1 rd2 : t) (config : ConfigParameters)
    (mbSize epoch requestedEpochSamples : Z) (matrices : gmap string Matrix) :
  Init rd config = Ok rd1 ->
  StartMinibatchLoop rd1 mbSize epoch requestedEpochSamples = Ok rd2 ->
  0 < files_size rd2 < 2 ^ 63 -> 0 < requestedEpochSamples < 2 ^ 63 ->
  m_mbStart rd2 = 0
  /\ exhausted rd2 = false
  /\ forall b self' matrices',
       GetMinibatch rd2 matrices = Ok (b, self', matrices') -> b = true.
Proof.
  intros Hinit Hstart Hfiles Hreq.
  apply Init_inv in Hinit
    as (featSect & w & h & c & transforms & labSect & labDim & mapPath & mapFile & fs
        & _ & _ & _ & _ & _ & _ & _ & _ & _ & _ & _ & _ & _ & _ & _ & _ & _ & _ & Hmb0 & _).
  apply StartMinibatchLoop_inv in Hstart
    as (shuffled & rng & _ & _ & _ & _ & _ & Hes & Hestart & Hmbs & _).
  assert (Hmb : m_mbStart rd2 = 0) by (rewrite Hmbs, Hmb0; by destruct (_ <=? _)).
  assert (Hex : exhausted rd2 = false).
  { unfold exhausted. rewrite Hmb.
    assert (Hsize : 0 < m_epochSize rd2 < 2 ^ 63)
      by (rewrite Hes; destruct (requestedEpochSamples =? requestDataSize); lia).
    pose proof (to_size_t_range (epoch * m_epochSize rd2)) as Hr.
    fold (size_mul epoch (m_epochSize rd2)) in Hr.
    assert (Hstart : 0 <= m_epochStart rd2 < 2 ^ 63).
    { rewrite Hestart.
      destruct (Z.leb_spec (files_size rd2) (size_mul epoch (m_epochSize rd2))); lia. }
    rewrite size_add_small by (unfold SIZE_MOD; lia).
    apply orb_false_iff. split; apply Z.leb_gt; lia. }
  split; [done |]. split; [done |].
  intros b self' matrices' Hget.
  apply GetMinibatch_inv in Hget as [(_ & Hex' & _) | (-> & _)]; [congruence | done].
Qed.

Lemma GetMinibatch_asserts_mbSize (self : t) (matrices : gmap string Matrix)
    (r : bool * t * gmap string Matrix) :
  NDEBUG = false -> GetMinibatch self matrices = Ok r -> 0 < m_mbSize self.
Proof.
  intros Hnd. unfold GetMinibatch, assert. rewrite Hnd.
  destruct (0 <? Z.of_nat (size matrices)); cbn [mbind outcome_bind]; [| done].
  destruct (bool_decide _); cbn [mbind outcome_bind]; [| done].
  destruct (Z.ltb_spec 0 (m_mbSize self)); cbn [mbind outcome_bind]; done.
Qed.

(** X18.  A [GetMinibatch] that returns true, with a minibatch size above
    0 or with assertions compiled in, and with [m_mbStart + m_mbSize] not
    wrapping around, moves [m_mbStart] forward, by at least one and at
    most [m_mbSize] samples and not past the end of the files, records
    that number of samples in the layout, and leaves the files, the epoch,
    the minibatch size and the reader's generator as they were. *)
Theorem GetMinibatch_progress (self self' : t) (matrices matrices' : gmap string Matrix) :
  GetMinibatch self matrices = Ok (true, self', matrices') ->
  NDEBUG = false \/ 0 < m_mbSize self ->
  0 <= m_mbStart self ->
  m_mbStart self + m_mbSize self < SIZE_MOD ->
  m_mbStart self < m_mbStart self' <= files_size self
  /\ m_mbStart self' - m_mbStart self <= m_mbSize self
  /\ m_pMBLayout self' = (m_mbStart self' - m_mbStart self, 1, false)
  /\ files self' = files self
  /\ m_epochStart self' = m_epochStart self
  /\ m_epochSize self' = m_epochSize self
  /\ m_mbSize self' = m_mbSize self
  /\ m_rng self' = m_rng self.
Proof.
  intros H Hdbg Hs Hov.
  assert (Hmb : 0 < m_mbSize self).
  { destruct Hdbg as [Hnd | Hmb]; [| done].
    by apply (GetMinibatch_asserts_mbSize self matrices _ Hnd H). }
  apply GetMinibatch_inv in H as [(? & _) | (_ & Hex & H)]; [done |].
  destruct (batch_size_bounds self Hex Hs Hmb Hov) as (Hlim & Hb & Hbb).
  apply produce_inv in H as (_ & trs & fb & lb & features & labels & _ & _ & _ & _ & ->).
  cbn. rewrite Hb in *. repeat split; try done; lia.
Qed.

(** X19.  A [GetMinibatch] that returns true changes the destination
    matrices named [m_featName] and [m_labName] and no other; the labels
    matrix is [m_labDim] by the number of samples over the start of the
    label buffer, and, when the two names differ, the features matrix is
    [m_featDim] by the number of samples over the start of the feature
    buffer. *)
Theorem GetMinibatch_matrices (self self' : t) (matrices matrices' : gmap string Matrix) :
  GetMinibatch self matrices = Ok (true, self', matrices') ->
  (forall name, name <> m_featName self -> name <> m_labName self ->
                matrices' !! name = matrices !! name)
  /\ (m_featName self <> m_labName self ->
      exists features,
        matrices' !! m_featName self = Some features
        /\ numRows features = m_featDim self
        /\ numCols features = batch_size self
        /\ values features
           = take (Z.to_nat (size_mul (m_featDim self) (batch_size self))) (m_featBuf self'))
  /\ exists labels,
       matrices' !! m_labName self = Some labels
       /\ numRows labels = m_labDim self
       /\ numCols labels = batch_size self
       /\ values labels
          = take (Z.to_nat (size_mul (m_labDim self) (batch_size self))) (m_labBuf self').
Proof.
  intros H.
  apply GetMinibatch_inv in H as [(? & _) | (_ & Hex & H)]; [done |].
  apply produce_inv in H
    as (_ & trs & fb & lb & features & labels & _ & Hf & Hl & -> & ->).
  cbn [m_featBuf m_labBuf].
  unfold SetValue in Hf, Hl.
  destruct (_ <=? Z.of_nat (length fb)); [| done]. injection Hf as <-.
  destruct (_ <=? Z.of_nat (length lb)); [| done]. injection Hl as <-.
  split; [| split].
  - intros name Hnf Hnl. by rewrite !lookup_insert_ne.
  - intros Hne. eexists. rewrite lookup_insert_ne by done.
    rewrite lookup_insert_eq. done.
  - eexists. rewrite lookup_insert_eq. done.
Qed.

(** X20.  With buffers that hold exactly [m_mbSize] samples, as
    [StartMinibatchLoop] leaves them, iteration [i] of the loop, for
    [0 <= i < m_mbSize], stays inside the two buffers whenever the file
    has a label with [0 <= label < m_labDim] and the transformed image
    holds at least [m_featDim] elements (sizes not wrapping around): it
    succeeds, it writes the first [m_featDim] elements of the image over
    elements [m_featDim * i .. m_featDim * i + m_featDim - 1] of the
    feature buffer and a 1 at element [m_labDim * i + label] of the label
    buffer, which lies within row [i], and it leaves every other element
    and the lengths of the buffers as they were. *)
Theorem fill_slot_in_bounds (self : t) (trs trs' : list ITransform)
    (fb lb : list spec_float) (i : Z) (path : string) (label : Z) (img : Mat) :
  buffers_fit self ->
  length fb = length (m_featBuf self) -> length lb = length (m_labBuf self) ->
  0 <= m_mbStart self -> 0 <= i < m_mbSize self ->
  m_mbStart self + m_mbSize self < SIZE_MOD ->
  0 <= m_featDim self -> 0 <= m_labDim self ->
  m_mbSize self * m_featDim self < SIZE_MOD ->
  m_mbSize self * m_labDim self < SIZE_MOD ->
  files self !! Z.to_nat (m_mbStart self + i) = Some (path, label) ->
  Apply_all trs (imread path) = Ok (img, trs') ->
  m_featDim self <= Z.of_nat (length (data img)) ->
  0 <= label < m_labDim self ->
  exists fb' lb',
    fill_slot self (trs, fb, lb) i = Ok (trs', fb', lb')
    /\ length fb' = length fb /\ length lb' = length lb
    /\ m_featDim self * i + m_featDim self <= Z.of_nat (length fb)
    /\ m_labDim self * i <= m_labDim self * i + label < m_labDim self * i + m_labDim self
    /\ m_labDim self * i + m_labDim self <= Z.of_nat (length lb)
    /\ (forall j, 0 <= j < m_featDim self ->
                  fb' !! Z.to_nat (m_featDim self * i + j) = data img !! Z.to_nat j)
    /\ (forall j, 0 <= j < m_featDim self * i \/ m_featDim self * i + m_featDim self <= j ->
                  fb' !! Z.to_nat j = fb !! Z.to_nat j)
    /\ lb' = <[Z.to_nat (m_labDim self * i + label) := elem_of_int (elemType self) 1]> lb.
Proof.
  intros [Hfb Hlb] Hlf Hll Hs Hi Hov Hfd Hld Hfo Hlo Hp Happly Himg Hlabel.
  rewrite size_mul_small in Hfb, Hlb by nia.
  assert (Hfrow : m_featDim self * i + m_featDim self <= Z.of_nat (length fb)) by nia.
  assert (Hlrow : m_labDim self * i + m_labDim self <= Z.of_nat (length lb)) by nia.
  unfold fill_slot. rewrite size_add_small by lia.
  replace (i + m_mbStart self) with (m_mbStart self + i) by lia.
  rewrite Hp. cbn [fst snd]. rewrite Happly. cbn [mbind outcome_bind].
  rewrite !size_mul_small by nia.
  rewrite to_size_t_small by (unfold SIZE_MOD in *; nia).
  rewrite size_add_small by nia.
  destruct (Z.ltb_spec (Z.of_nat (length (data img))) (m_featDim self)); [lia |].
  destruct (Z.ltb_spec (Z.of_nat (length fb)) (m_featDim self * i + m_featDim self));
    [lia |].
  destruct (Z.leb_spec (Z.of_nat (length lb)) (m_labDim self * i + label)); [lia |].
  eexists _, _. split; [reflexivity |].
  assert (Htake1 : length (take (Z.to_nat (m_featDim self * i)) fb)
                   = Z.to_nat (m_featDim self * i)) by (rewrite length_take; nia).
  assert (Htake2 : length (take (Z.to_nat (m_featDim self)) (data img))
                   = Z.to_nat (m_featDim self)) by (rewrite length_take; lia).
  split; [| split; [apply length_insert |]].
  { rewrite !length_app, Htake1, Htake2, length_drop. nia. }
  split; [done |]. split; [lia |]. split; [done |]. split; [| split; [| done]].
  - intros j Hj.
    rewrite lookup_app_r by (rewrite Htake1; nia). rewrite Htake1.
    replace (Z.to_nat (m_featDim self * i + j) - Z.to_nat (m_featDim self * i))%nat
      with (Z.to_nat j) by nia.
    rewrite lookup_app_l by (rewrite Htake2; lia).
    apply lookup_take_lt. lia.
  - intros j [Hj | Hj].
    + rewrite lookup_app_l by (rewrite Htake1; lia). apply lookup_take_lt. lia.
    + rewrite lookup_app_r by (rewrite Htake1; nia). rewrite Htake1.
      rewrite lookup_app_r by (rewrite Htake2; nia). rewrite Htake2.
      rewrite lookup_drop. f_equal. nia.
Qed.

(** X21.  [GetMinibatch] reports the end of the data exactly when
    [DataEnd endDataSet] is true or [DataEnd endDataEpoch] is false:
    [DataEnd endDataEpoch] is true while [m_mbStart] is still below
    [m_epochStart + m_epochSize]. *)
Theorem DataEnd_GetMinibatch (self : t) (matrices : gmap string Matrix) :
  is_Some (matrices !! m_featName self) ->
  is_Some (matrices !! m_labName self) ->
  NDEBUG = true \/ 0 < m_mbSize self ->
  exists epoch set,
    DataEnd self endDataEpoch = Ok epoch
    /\ DataEnd self endDataSet = Ok set
    /\ (GetMinibatch self matrices = Ok (false, self, matrices)
        <-> epoch = false \/ set = true).
Proof.
  intros Hf Hl Hmb. eexists _, _. split; [reflexivity |]. split; [reflexivity |].
  rewrite (GetMinibatch_unfold self matrices Hf Hl Hmb). unfold exhausted.
  rewrite Z.ltb_antisym. split.
  - destruct (files_size self <=? m_mbStart self); [by right |].
    destruct (_ <=? m_mbStart self); [by left |]. cbn [orb].
    intros H. by destruct (produce_inv _ _ _ _ _ H).
  - intros [He | ->]; [| done]. apply negb_false_iff in He. rewrite He.
    by rewrite orb_true_r.
Qed.

(** X22.  [GetMinibatch] does not report a destination matrix that is
    missing.  When the features or the labels matrix is not among the
    matrices and the reader is not at the end of its data, the call never
    returns a result: it fails, and when the loop over the samples has run
    without a fault the failure is an assertion or the dereference of a
    null pointer, not an error raised.  At the end of the data the missing
    matrix is not touched: with assertions compiled out, or with the
    features matrix present and [m_mbSize > 0], the call returns false and
    leaves the reader and the matrices that are there as they were.  With
    assertions compiled in, a missing features matrix stops the call on an
    assertion. *)
Theorem GetMinibatch_missing_matrix (self : t) (matrices : gmap string Matrix) :
  matrices !! m_featName self = None \/ matrices !! m_labName self = None ->
  (exhausted self = false ->
   exists e,
     GetMinibatch self matrices = Fail e
     /\ (is_Ok (pack_slots self) -> ~ is_RuntimeError e))
  /\ (exhausted self = true ->
      NDEBUG = true \/ (is_Some (matrices !! m_featName self) /\ 0 < m_mbSize self) ->
      exists matrices',
        GetMinibatch self matrices = Ok (false, self, matrices')
        /\ forall name, is_Some (matrices !! name) -> matrices' !! name = matrices !! name)
  /\ (NDEBUG = false -> matrices !! m_featName self = None ->
      exists msg, GetMinibatch self matrices = Fail (AssertionFailed msg)).
Proof.
  intros Hmiss. split; [| split].
  - intros Hex.
    assert (Hfail : forall (e : failure),
              ~ is_RuntimeError e ->
              exists e', @Fail (bool * t * gmap string Matrix) e = Fail e'
                         /\ (is_Ok (pack_slots self) -> ~ is_RuntimeError e'))
      by (intros e He; by exists e).
    assert (Hloop : exists e,
              (_ ← pack_slots self;
               @Fail (bool * t * gmap string Matrix)
                 (Undefined "null Matrix pointer dereferenced")) = Fail e
              /\ (is_Ok (pack_slots self) -> ~ is_RuntimeError e)).
    { destruct (pack_slots self) as [st | e]; cbn [mbind outcome_bind].
      - eexists. split; [reflexivity |]. by intros _ [].
      - exists e. split; [reflexivity |]. by intros [? [=]]. }
    unfold GetMinibatch, assert. rewrite Hex.
    destruct NDEBUG; cbn [mbind outcome_bind].
    + destruct (matrices !! m_featName self) as [f |]; [| done].
      destruct (matrices !! m_labName self) as [l |]; [| done].
      by destruct Hmiss.
    + destruct (0 <? Z.of_nat (size matrices)); cbn [mbind outcome_bind];
        [| apply Hfail; by intros []].
      destruct (bool_decide _); cbn [mbind outcome_bind]; [| apply Hfail; by intros []].
      destruct (0 <? m_mbSize self); cbn [mbind outcome_bind];
        [| apply Hfail; by intros []].
      destruct (matrices !! m_featName self) as [f |]; [| done].
      destruct (matrices !! m_labName self) as [l |]; [| done].
      by destruct Hmiss.
  - intros Hex Hok. exists matrices. split; [| done].
    unfold GetMinibatch. destruct Hok as [Hnd | [[f Hf] Hmb]].
    + rewrite !assert_true by (by left). cbn [mbind outcome_bind]. by rewrite Hex.
    + rewrite (assert_true (0 <? Z.of_nat (size matrices))).
      2:{ right. apply Z.ltb_lt.
          assert (size matrices <> 0%nat); [| lia].
          intros H0. apply map_size_empty_iff in H0. by rewrite H0 in Hf. }
      rewrite (assert_true (bool_decide _)) by (right; apply bool_decide_eq_true; eauto).
      rewrite (assert_true (0 <? m_mbSize self)) by (right; lia).
      cbn [mbind outcome_bind]. by rewrite Hex.
  - intros Hnd Hf. unfold GetMinibatch, assert. rewrite Hnd.
    destruct (0 <? Z.of_nat (size matrices)); cbn [mbind outcome_bind]; [| by eexists].
    rewrite bool_decide_eq_false_2 by (rewrite Hf; by intros [? [=]]).
    cbn [mbind outcome_bind]. by eexists.
Qed.

(** X23.  A minibatch size of 0 is rejected by assertions only.  With
    assertions compiled out, [GetMinibatch] on a reader that is not at the
    end of its data returns true with a minibatch of no samples and leaves
    [m_mbStart] where it was, so that the next call is in the same
    situation: a loop that reads until [GetMinibatch] returns false does
    not end. *)
Theorem GetMinibatch_zero_size (self : t) (matrices : gmap string Matrix) :
  NDEBUG = true -> m_mbSize self = 0 ->
  is_Some (matrices !! m_featName self) ->
  is_Some (matrices !! m_labName self) ->
  0 <= m_mbStart self < SIZE_MOD ->
  exhausted self = false ->
  exists self' matrices',
    GetMinibatch self matrices = Ok (true, self', matrices')
    /\ m_mbStart self' = m_mbStart self
    /\ m_mbSize self' = 0
    /\ m_pMBLayout self' = (0, 1, false)
    /\ exhausted self' = false.
Proof.
  intros Hnd Hmb Hf Hl Hs Hex.
  rewrite (GetMinibatch_unfold self matrices Hf Hl) by (by left). rewrite Hex.
  assert (Hlim : mbLim self = m_mbStart self).
  { unfold mbLim. rewrite Hmb, size_add_small by lia. rewrite Z.add_0_r.
    unfold exhausted in Hex. apply orb_false_iff in Hex as [Hex _].
    apply Z.leb_gt in Hex. destruct (Z.ltb_spec (files_size self) (m_mbStart self)); lia. }
  assert (Hb : batch_size self = 0).
  { unfold batch_size, size_sub. rewrite Hlim, Z.sub_diag. done. }
  unfold produce, pack_slots. rewrite Hb. cbn [to_long_long seqZ fill_slots].
  change (seqZ 0 (to_long_long 0)) with (@nil Z). cbn [fill_slots mbind outcome_bind].
  unfold SetValue, size_mul. rewrite !Z.mul_0_r.
  change (to_size_t 0) with 0.
  destruct (Z.leb_spec 0 (Z.of_nat (length (m_featBuf self)))); [| lia].
  cbn [mbind outcome_bind].
  destruct (Z.leb_spec 0 (Z.of_nat
                            (length (replicate (length (m_labBuf self))
                                       (elem_of_int (elemType self) 0))))); [| lia].
  cbn [mbind outcome_bind]. eexists _, _. split; [reflexivity |].
  cbn [m_mbStart m_mbSize m_pMBLayout]. split; [done |]. split; [done |].
  split; [done |]. unfold exhausted, files_size in *. cbn. by rewrite Hlim.
Qed.

(** *** The feature buffer *)

Lemma write_slot_lookup {A} (buf src : list A) (a d : nat) :
  (a + d <= length buf)%nat -> (d <= length src)%nat ->
  let buf' := take a buf ++ take d src ++ drop (a + d) buf in
  length buf' = length buf
  /\ (forall j, (j < d)%nat -> buf' !! (a + j)%nat = src !! j)
  /\ (forall j, (j < a)%nat \/ (a + d <= j)%nat -> buf' !! j = buf !! j).
Proof.
  intros Hbuf Hsrc buf'. unfold buf'.
  assert (Ha : length (take a buf) = a) by (rewrite length_take; lia).
  assert (Hd : length (take d src) = d) by (rewrite length_take; lia).
  split; [| split].
  - rewrite !length_app, Ha, Hd, length_drop. lia.
  - intros j Hj. rewrite lookup_app_r by lia. rewrite Ha.
    replace (a + j - a)%nat with j by lia.
    rewrite lookup_app_l by lia. by apply lookup_take_lt.
  - intros j [Hj | Hj].
    + rewrite lookup_app_l by lia. by apply lookup_take_lt.
    + rewrite lookup_app_r by lia. rewrite Ha.
      rewrite lookup_app_r by lia. rewrite Hd.
      rewrite lookup_drop. f_equal. lia.
Qed.

Lemma fill_slot_feature (self : t) (trs trs' : list ITransform)
    (fb fb' lb lb' : list spec_float) (i : Z) :
  fill_slot self (trs, fb, lb) i = Ok (trs', fb', lb') ->
  exists p img,
    files self !! Z.to_nat (size_add i (m_mbStart self)) = Some p
    /\ Apply_all trs (imread (fst p)) = Ok (img, trs')
    /\ m_featDim self <= Z.of_nat (length (data img))
    /\ size_mul (m_featDim self) i + m_featDim self <= Z.of_nat (length fb)
    /\ fb' = take (Z.to_nat (size_mul (m_featDim self) i)) fb
               ++ take (Z.to_nat (m_featDim self)) (data img)
               ++ drop (Z.to_nat (size_mul (m_featDim self) i + m_featDim self)) fb.
Proof.
  unfold fill_slot. destruct (files self !! _) as [p |] eqn:Hp; [| done].
  destruct (Apply_all trs (imread p.1)) as [[img trs1] | e] eqn:Happly; [| done].
  cbn [mbind outcome_bind].
  destruct (Z.ltb_spec (Z.of_nat (length (data img))) (m_featDim self)); [done |].
  destruct (Z.ltb_spec (Z.of_nat (length fb))
              (size_mul (m_featDim self) i + m_featDim self)); [done |].
  destruct (_ <=? _); [done |]. intros [= <- <- <-]. by exists p, img.
Qed.

Lemma same_settings_trans (a b c : list ITransform) :
  same_settings a b -> same_settings b c -> same_settings a c.
Proof. unfold same_settings. congruence. Qed.

Lemma Crop_Apply_settings (c c' : CropTransform.t) (mat mat' : Mat) :
  CropTransform.Apply c mat = Ok (mat', c') ->
  transform_settings (Crop c') = transform_settings (Crop c).
Proof.
  unfold CropTransform.Apply.
  destruct (pop_or_create _ _) as [rng pool].
  destruct (CropTransform.draw_ratio c rng) as [[ratio rng1] |];
    cbn [mbind outcome_bind]; [| done].
  destruct (CropTransform.GetCropRect _ _ _ _ _) as [[rect rng2] |];
    cbn [mbind outcome_bind]; [| done].
  destruct (Mat_roi mat rect) as [roi |]; cbn [mbind outcome_bind]; [| done].
  destruct (if CropTransform.m_hFlip c then _ else _) as [flip rng3].
  by intros [= _ <-].
Qed.

Lemma Scale_Apply_settings (sc sc' : ScaleTransform.t) (mat mat' : Mat) :
  ScaleTransform.Apply sc mat = Ok (mat', sc') ->
  transform_settings (Scale sc') = transform_settings (Scale sc).
Proof.
  unfold ScaleTransform.Apply.
  destruct (pop_or_create _ _) as [rng pool].
  destruct (assert _ _); cbn [mbind outcome_bind]; [| done].
  destruct (UniIntT _ _ _) as [[k rng1] |]; cbn [mbind outcome_bind]; [| done].
  destruct (if k <? 0 then _ else _) as [interp |]; [| done].
  destruct (cv_resize _ _ _ _) as [resized |]; cbn [mbind outcome_bind]; [| done].
  by intros [= _ <-].
Qed.

Lemma ITransform_Apply_settings (tr tr' : ITransform) (mat mat' : Mat) :
  ITransform_Apply tr mat = Ok (mat', tr') ->
  transform_settings tr' = transform_settings tr.
Proof.
  destruct tr as [c | sc | mn]; cbn [ITransform_Apply].
  - destruct (CropTransform.Apply c mat) as [[m1 c1] |] eqn:Happly;
      cbn [mbind outcome_bind]; [| done].
    intros [= _ <-]. by apply Crop_Apply_settings in Happly.
  - destruct (ScaleTransform.Apply sc mat) as [[m1 sc1] |] eqn:Happly;
      cbn [mbind outcome_bind]; [| done].
    intros [= _ <-]. by apply Scale_Apply_settings in Happly.
  - unfold MeanTransform.Apply.
    destruct (assert _ _); cbn [mbind outcome_bind]; [| done].
    destruct (Mat_size_eq _ _).
    + destruct (cv_subtract _ _); cbn [mbind outcome_bind]; [| done].
      by intros [= _ <-].
    + by intros [= _ <-].
Qed.

Lemma Apply_all_settings (trs : list ITransform) :
  forall (trs' : list ITransform) (img img' : Mat),
    Apply_all trs img = Ok (img', trs') -> same_settings trs' trs.
Proof.
  unfold same_settings.
  induction trs as [| tr trs IH]; intros trs' img img'; cbn [Apply_all].
  - by intros [= _ <-].
  - destruct (ITransform_Apply tr img) as [[img1 tr1] |] eqn:Hone;
      cbn [mbind outcome_bind]; [| done].
    destruct (Apply_all trs img1) as [[img2 trs2] |] eqn:Hrest;
      cbn [mbind outcome_bind]; [| done].
    intros [= _ <-]. cbn [fmap list_fmap].
    apply ITransform_Apply_settings in Hone. apply IH in Hrest.
    by f_equal.
Qed.

Lemma fill_slots_features (self : t) (m : nat) :
  forall (k : Z) (trs trs' : list ITransform) (written rest fb' lb lb' : list spec_float),
    0 <= k -> 0 <= m_mbStart self -> 0 <= m_featDim self ->
    m_mbStart self + k + Z.of_nat m < SIZE_MOD ->
    m_featDim self * (k + Z.of_nat m) < SIZE_MOD ->
    length written = Z.to_nat (m_featDim self * k) ->
    fill_slots self (trs, written ++ rest, lb) (seqZ k (Z.of_nat m)) = Ok (trs', fb', lb') ->
    exists imgs,
      length imgs = m
      /\ length (feature_columns (m_featDim self) imgs) = (Z.to_nat (m_featDim self) * m)%nat
      /\ fb' = written ++ feature_columns (m_featDim self) imgs
                 ++ drop (Z.to_nat (m_featDim self) * m) rest
      /\ same_settings trs' trs
      /\ (forall (j : nat) (img : Mat),
            imgs !! j = Some img ->
            exists p pool pool',
              files self !! Z.to_nat (m_mbStart self + k + Z.of_nat j) = Some p
              /\ same_settings pool trs
              /\ Apply_all pool (imread (fst p)) = Ok (img, pool')
              /\ m_featDim self <= Z.of_nat (length (data img))).
Proof.
  induction m as [| m IH];
    intros k trs trs' written rest fb' lb lb' Hk Hs Hd Hov1 Hov2 Hlen.
  - change (seqZ k (Z.of_nat 0)) with (@nil Z). cbn [fill_slots].
    intros [= <- <- <-]. exists []. cbn. rewrite Nat.mul_0_r.
    split; [done |]. split; [done |]. split; [done |]. split; [done |].
    intros j img Hj. done.
  - rewrite Nat2Z.inj_succ, seqZ_cons by lia. cbn [fill_slots].
    replace (Z.pred (Z.succ (Z.of_nat m))) with (Z.of_nat m) by lia.
    destruct (fill_slot self _ k) as [[[trs1 fb1] lb1] |] eqn:Hslot; [| done].
    cbn [mbind outcome_bind]. intros Hrest.
    apply fill_slot_feature in Hslot as (p & img & Hp & Happly & Himg & Hroom & Hfb1).
    rewrite size_add_small in Hp by lia.
    replace (k + m_mbStart self) with (m_mbStart self + k) in Hp by lia.
    assert (Hmul : m_featDim self * k + m_featDim self
                   <= m_featDim self * (k + Z.succ (Z.of_nat m))) by nia.
    rewrite (size_mul_small (m_featDim self) k) in Hfb1, Hroom by nia.
    rewrite length_app in Hroom.
    rewrite <- Hlen in Hfb1 at 1. rewrite take_app_length in Hfb1.
    replace (Z.to_nat (m_featDim self * k + m_featDim self))
      with (length written + Z.to_nat (m_featDim self))%nat in Hfb1 by lia.
    rewrite drop_app_add in Hfb1. rewrite app_assoc in Hfb1. subst fb1.
    apply IH in Hrest; try lia.
    2:{ rewrite length_app, length_take. lia. }
    destruct Hrest as (imgs & Hn & Hcols & -> & Hsame & Himgs).
    pose proof (Apply_all_settings _ _ _ _ Happly) as Hstep.
    exists (img :: imgs). split; [by rewrite <- Hn |].
    cbn [feature_columns flat_map]. fold (feature_columns (m_featDim self) imgs).
    split; [| split; [| split]].
    + rewrite length_app, length_take, Hcols. rewrite Nat.mul_succ_r. lia.
    + rewrite <- !app_assoc. do 3 f_equal. rewrite drop_drop. f_equal.
      rewrite Nat.mul_succ_r. lia.
    + by apply (same_settings_trans _ trs1).
    + intros [| j] img' Hj.
      * injection Hj as <-. exists p, trs, trs1.
        replace (m_mbStart self + k + Z.of_nat 0) with (m_mbStart self + k) by lia.
        done.
      * destruct (Himgs j img' Hj) as (q & pool & pool' & Hq & Hpool & Hq2 & Hq3).
        exists q, pool, pool'.
        replace (m_mbStart self + k + Z.of_nat (S j))
          with (m_mbStart self + Z.succ k + Z.of_nat j) by lia.
        split; [done |]. split; [| done].
        by apply (same_settings_trans _ trs1).
Qed.

(** X24.  After a [GetMinibatch] that returns true (sizes not
    overflowing, the two matrix names different), the features matrix is
    [m_featDim] by the number of samples and holds, sample after sample in
    the order of the files from the old [m_mbStart] on, the first
    [m_featDim] elements of an image that the transforms of the reader,
    applied in order with the settings that [Init] gave them and some
    state of their pools of generators, made of the file; the transforms
    that the reader keeps differ from the old ones in their pools of
    generators only. *)
Theorem GetMinibatch_features (self self' : t) (matrices matrices' : gmap string Matrix) :
  GetMinibatch self matrices = Ok (true, self', matrices') ->
  0 <= m_mbStart self -> 0 < m_mbSize self ->
  m_mbStart self + m_mbSize self < 2 ^ 63 ->
  0 <= m_featDim self -> m_featDim self * m_mbSize self < SIZE_MOD ->
  m_featName self <> m_labName self ->
  let n := m_mbStart self' - m_mbStart self in
  exists features imgs,
    matrices' !! m_featName self = Some features
    /\ Z.of_nat (length imgs) = n
    /\ numRows features = m_featDim self
    /\ numCols features = n
    /\ values features = feature_columns (m_featDim self) imgs
    /\ Z.of_nat (length (values features)) = m_featDim self * n
    /\ (forall (j : nat) (img : Mat),
          imgs !! j = Some img ->
          exists path label pool pool',
            files self !! Z.to_nat (m_mbStart self + Z.of_nat j) = Some (path, label)
            /\ same_settings pool (m_transforms self)
            /\ Apply_all pool (imread path) = Ok (img, pool')
            /\ m_featDim self <= Z.of_nat (length (data img)))
    /\ same_settings (m_transforms self') (m_transforms self).
Proof.
  intros H Hs Hmb Hov Hfd Hfo Hne n.
  assert (Hsz : SIZE_MOD = 2 ^ 64) by done.
  apply GetMinibatch_inv in H as [(? & _) | (_ & Hex & H)]; [done |].
  destruct (batch_size_bounds self Hex Hs Hmb ltac:(lia)) as (Hlim & Hb & Hbb).
  apply produce_inv in H
    as (_ & trs & fb & lb & features & labels & Hpack & Hf & _ & -> & Hself).
  assert (Hn : batch_size self = n) by (unfold n; rewrite Hself, Hb; done).
  assert (Htr : m_transforms self' = trs) by (by rewrite Hself).
  rewrite Htr. clear Hself Htr. rewrite Hn in *.
  unfold pack_slots in Hpack. rewrite Hn in Hpack.
  replace (to_long_long n) with (Z.of_nat (Z.to_nat n)) in Hpack.
  2:{ unfold to_long_long. rewrite Z.mod_small by lia. lia. }
  apply (fill_slots_features self (Z.to_nat n) 0 _ _ [] (m_featBuf self)) in Hpack;
    try (cbn [length]; nia).
  destruct Hpack as (imgs & Hlen & Hcols & -> & Hsame & Himgs). cbn [app] in Hf.
  unfold SetValue in Hf. rewrite size_mul_small in Hf by nia.
  destruct (_ <=? _); [| done]. injection Hf as <-.
  eexists _, imgs. rewrite lookup_insert_ne by done. rewrite lookup_insert_eq.
  split; [reflexivity |].
  cbn [numRows numCols values].
  assert (Htake : take (Z.to_nat (m_featDim self * n))
                    (feature_columns (m_featDim self) imgs
                       ++ drop (Z.to_nat (m_featDim self) * Z.to_nat n) (m_featBuf self))
                  = feature_columns (m_featDim self) imgs).
  { rewrite take_app_length'; [done | rewrite Hcols; nia]. }
  rewrite Htake. split; [lia |]. split; [done |]. split; [done |].
  split; [done |]. split; [rewrite Hcols; nia |]. split; [| done].
  intros j img Hj. destruct (Himgs j img Hj) as ([path label] & pool & pool' & Hp & Hrest).
  exists path, label, pool, pool'.
  by replace (m_mbStart self + 0 + Z.of_nat j) with (m_mbStart self + Z.of_nat j) in Hp
    by lia.
Qed.

(** X25.  The loop in any order.  In whatever order the iterations of
    the loop are run, each of them once (indices below a bound for which
    the sizes do not wrap around): the feature buffer keeps its length;
    slot [i] of it, elements [m_featDim * i .. m_featDim * i + m_featDim - 1],
    holds the first [m_featDim] elements of an image that the transforms,
    with the settings they had and some state of their pools of
    generators, made of file [m_mbStart + i]; the elements outside the
    slots of the iterations are untouched; and the transforms left behind
    differ from the ones before in their pools of generators only. *)
Theorem fill_slots_any_order (self : t) (order : list Z) (bound : Z) :
  forall (trs trs' : list ITransform) (fb fb' lb lb' : list spec_float),
    0 <= m_mbStart self -> 0 <= m_featDim self ->
    m_mbStart self + bound < SIZE_MOD -> m_featDim self * bound < SIZE_MOD ->
    NoDup order -> (forall i, i ∈ order -> 0 <= i < bound) ->
    fill_slots self (trs, fb, lb) order = Ok (trs', fb', lb') ->
    length fb' = length fb
    /\ same_settings trs' trs
    /\ (forall i, i ∈ order ->
          exists path label pool pool' img,
            files self !! Z.to_nat (m_mbStart self + i) = Some (path, label)
            /\ same_settings pool trs
            /\ Apply_all pool (imread path) = Ok (img, pool')
            /\ m_featDim self <= Z.of_nat (length (data img))
            /\ forall j, 0 <= j < m_featDim self ->
                 fb' !! Z.to_nat (m_featDim self * i + j) = data img !! Z.to_nat j)
    /\ (forall j, 0 <= j ->
          (forall i, i ∈ order ->
                     j < m_featDim self * i \/ m_featDim self * i + m_featDim self <= j) ->
          fb' !! Z.to_nat j = fb !! Z.to_nat j).
Proof.
  induction order as [| i rest IH];
    intros trs trs' fb fb' lb lb' Hs Hd Hov1 Hov2 Hnodup Hrange; cbn [fill_slots].
  - intros [= <- <- <-]. split; [done |]. split; [done |]. split.
    + intros i Hi. by apply elem_of_nil in Hi.
    + done.
  - destruct (fill_slot self _ i) as [[[trs1 fb1] lb1] |] eqn:Hslot; [| done].
    cbn [mbind outcome_bind]. intros Hrest.
    apply NoDup_cons in Hnodup as [Hnotin Hnodup].
    assert (Hi : 0 <= i < bound) by (apply Hrange; left).
    apply fill_slot_feature in Hslot as ([path label] & img & Hp & Happly & Himg & Hroom & Hfb1).
    cbn [fst] in Happly.
    rewrite size_add_small in Hp by lia.
    replace (i + m_mbStart self) with (m_mbStart self + i) in Hp by lia.
    rewrite (size_mul_small (m_featDim self) i) in Hfb1, Hroom by nia.
    destruct (write_slot_lookup fb (data img) (Z.to_nat (m_featDim self * i))
                (Z.to_nat (m_featDim self))) as (Hlen1 & Hin1 & Hout1); [nia | lia |].
    replace (Z.to_nat (m_featDim self * i) + Z.to_nat (m_featDim self))%nat
      with (Z.to_nat (m_featDim self * i + m_featDim self)) in Hlen1, Hin1, Hout1 by nia.
    rewrite <- Hfb1 in Hlen1, Hin1, Hout1.
    pose proof (Apply_all_settings _ _ _ _ Happly) as Hstep.
    apply IH in Hrest as (Hlen & Hsame & Hslots & Hother); try done.
    2:{ intros i' Hi'. apply Hrange. by right. }
    split; [congruence |]. split; [by apply (same_settings_trans _ trs1) |]. split.
    + intros i' Hi'. apply elem_of_cons in Hi' as [-> | Hi'].
      * exists path, label, trs, trs1, img. split; [done |]. split; [done |].
        split; [done |]. split; [done |]. intros j Hj.
        rewrite Hother.
        -- replace (Z.to_nat (m_featDim self * i + j))
             with (Z.to_nat (m_featDim self * i) + Z.to_nat j)%nat by nia.
           apply Hin1. lia.
        -- nia.
        -- intros i' Hi'. assert (i' <> i) by (intros ->; done).
           assert (0 <= i' < bound) by (apply Hrange; by right).
           destruct (Z.lt_total i i') as [Hlt | [-> | Hlt]]; [left; nia | done | right; nia].
      * destruct (Hslots i' Hi') as (path' & label' & pool & pool' & img' & H1 & H2 & H3 & H4 & H5).
        exists path', label', pool, pool', img'. split; [done |].
        split; [by apply (same_settings_trans _ trs1) |]. done.
    + intros j Hj Hout. rewrite Hother.
      * apply Hout1. destruct (Hout i ltac:(left)) as [Hl | Hr]; [left | right]; nia.
      * done.
      * intros i' Hi'. apply Hout. by right.
Qed.
End MinibatchLoop.

(** * The properties on the reference platform *)

Import ImageReader.

(** The first minibatch of the example: not exhausted, two samples. *)
Lemma GetMinibatch_no_more_data_iff_witness :
  exists self' matrices',
    GetMinibatch (P:=Reference.debug) Reference.started Reference.matrices
    = Ok (true, self', matrices')
    /\ m_mbStart self' = 2.
Proof.
  destruct (GetMinibatch_no_more_data_iff (P:=Reference.debug)
              Reference.started Reference.matrices) as (_ & _ & H).
  - by eexists.
  - by eexists.
  - right. reflexivity.
  - apply H.
    + vm_compute. intros [Hc | Hc]; by apply Hc.
    + eexists. vm_compute. reflexivity.
    + vm_compute. discriminate.
    + vm_compute. discriminate.
    + vm_compute. discriminate.
Defined.

(** The example of the spec, minibatches of 2 over the four samples: the
    first minibatch has the label rows [1 0] and [0 1]. *)
Example GetMinibatch_first_labels :
  values <$> Reference.first_matrices !! "labels"
  = Some [elem_of_int Float32 1; elem_of_int Float32 0;
          elem_of_int Float32 0; elem_of_int Float32 1].
Proof. vm_compute. reflexivity. Qed.

(** After the second minibatch the example is exhausted. *)
Example GetMinibatch_third_call :
  GetMinibatch (P:=Reference.debug) Reference.second_batch Reference.matrices
  = Ok (false, Reference.second_batch, Reference.matrices).
Proof. vm_compute. reflexivity. Qed.

(** The labels of the first minibatch: rows [1 0] and [0 1]. *)
Lemma GetMinibatch_labels_one_hot_witness :
  exists labels,
    Reference.first_matrices !! "labels" = Some labels
    /\ numRows labels = 2 /\ numCols labels = 2
    /\ buffer_sum (values labels) = 2.
Proof.
  destruct (GetMinibatch_labels_one_hot (P:=Reference.debug)
              Reference.started Reference.first_batch
              Reference.matrices Reference.first_matrices)
    as (labels & Hl & Hr & Hc & _ & _ & Hsum).
  - vm_compute. reflexivity.
  - vm_compute. discriminate.
  - vm_compute. discriminate.
  - reflexivity.
  - vm_compute. discriminate.
  - reflexivity.
  - change (m_mbStart Reference.started) with 0.
    change (m_mbStart Reference.first_batch) with 2.
    change (m_labDim Reference.started) with 2.
    intros i path label Hi.
    assert (Hcases : i = 0 \/ i = 1) by lia.
    destruct Hcases as [-> | ->]; intros Hp; vm_compute in Hp; injection Hp as _ <-; lia.
  - exists labels. split; [exact Hl |]. split; [exact Hr |]. split; [exact Hc | exact Hsum].
Defined.

(** A centre crop of an image of 4 rows and 7 columns at ratio 1/2. *)
Lemma GetCropRect_rect_witness :
  exists rng',
    CropTransform.GetCropRect (P:=Reference.debug) CropTransform.Center 4 7
      (S754_finite false 4503599627370496 (-53)) (mt19937_new 0)
    = Ok ({| rect_x := 2; rect_y := 1; rect_width := 2; rect_height := 2 |}, rng').
Proof.
  destruct (GetCropRect_rect (P:=Reference.debug) CropTransform.Center 4 7
              (S754_finite false 4503599627370496 (-53)) (mt19937_new 0))
    as (cropSize & q & xOff & yOff & rng' & H & Hq & _ & _ & Hdy & _ & Hx & Hy & _).
  - vm_compute. split; [reflexivity | discriminate].
  - vm_compute. split; [reflexivity | discriminate].
  - reflexivity.
  - reflexivity.
  - vm_compute in Hq. injection Hq as <-.
    assert (Hs : cropSize = 2).
    { apply (Hdy 1 1).
      - vm_compute. split; [discriminate |]. split; [discriminate | reflexivity].
      - vm_compute. discriminate.
      - vm_compute. reflexivity. }
    subst cropSize. vm_compute in Hx, Hy. subst. by exists rng'.
Defined.

(** C3, counterexample.  The product is rounded to a [double] before the
    floor is taken.  For the [double] next below 1/3, a ratio in (0, 1],
    and an image of 3 rows and 3 columns, [floor (3 * ratio)] is 0 and the
    side of the crop is 1. *)
Lemma GetCropRect_not_exact_floor :
  let ratio := S754_finite false 6004799503160661 (-54) in
  is_double ratio = true
  /\ CropTransform.ratio_in_range ratio = true
  /\ exact_floor_mul (Z.min 3 3) ratio = Some 0
  /\ exists rng',
       CropTransform.GetCropRect (P:=Reference.debug) CropTransform.Center 3 3 ratio
         (mt19937_new 0)
       = Ok ({| rect_x := 1; rect_y := 1; rect_width := 1; rect_height := 1 |}, rng').
Proof.
  cbv zeta. split; [vm_compute; reflexivity |]. split; [vm_compute; reflexivity |].
  split; [vm_compute; reflexivity |]. eexists. vm_compute. reflexivity.
Qed.

(** The product is rounded to a [double] before the floor is taken: for
    the [double] next below 1/3 the crop size of a side of 3 is 1. *)
Example crop_size_of_rounded_product :
  double_to_int
    (double_mul (double_of_int 3) (S754_finite false 6004799503160661 (-54)))
  = Ok 1.
Proof. vm_compute. reflexivity. Qed.

(** C4, counterexample: with assertions compiled out, an epoch of 3
    samples in minibatches of 2 is accepted. *)
Lemma StartMinibatchLoop_accepts_non_multiple :
  3 <> @requestDataSize Reference.release
  /\ 3 mod 2 <> 0
  /\ exists self',
       StartMinibatchLoop (P:=Reference.release) Reference.configured 2 0 3 = Ok self'
       /\ m_epochSize self' = 3 /\ m_mbSize self' = 2.
Proof.
  split; [vm_compute; discriminate |]. split; [vm_compute; discriminate |].
  eexists. split; [vm_compute; reflexivity |]. by split.
Qed.

Lemma StartMinibatchLoop_epoch_not_multiple_witness :
  StartMinibatchLoop (P:=Reference.debug) Reference.configured 2 0 3
  = Fail (AssertionFailed
            "requestedEpochSamples == requestDataSize || (m_epochSize % m_mbSize) == 0").
Proof.
  apply (StartMinibatchLoop_epoch_not_multiple (P:=Reference.debug)
           Reference.configured 2 0 3).
  - vm_compute. discriminate.
  - vm_compute. discriminate.
  - reflexivity.
  - reflexivity.
  - reflexivity.
Defined.

(** C5, counterexample: a line of three fields is not a line of exactly
    two fields, and it loads. *)
Lemma load_map_accepts_third_field :
  two_fields_integer Reference.three_fields = false
  /\ load_map "train_map.txt" [Reference.three_fields] 0 [] = Ok [("a.jpg", 0)].
Proof. split; vm_compute; reflexivity. Qed.

Lemma load_map_outcome_witness :
  load_map "train_map.txt" [Reference.line "a.jpg" "0"; "b.jpg"; Reference.line "c.jpg" "1"]
    0 []
  = Fail (RuntimeError MAP_FORMAT [ArgStr "train_map.txt"; ArgInt 1]).
Proof.
  destruct (load_map_outcome "train_map.txt"
              [Reference.line "a.jpg" "0"; "b.jpg"; Reference.line "c.jpg" "1"] [])
    as (_ & _ & H).
  - vm_compute. reflexivity.
  - destruct (H [Reference.line "a.jpg" "0"] "b.jpg" [Reference.line "c.jpg" "1"])
      as [Hmissing _].
    + reflexivity.
    + repeat constructor. by eexists.
    + by apply Hmissing.
Defined.

(** C6, counterexample: a transform configured for one channel returns
    the three channels of its input. *)
Lemma Scale_Apply_keeps_channels :
  ScaleTransform.m_imgChannels Reference.gray_scale = 1
  /\ exists mat' self',
       ScaleTransform.Apply (P:=Reference.debug) Reference.gray_scale
         (Reference.imread_impl "a.jpg") = Ok (mat', self')
       /\ channels mat' = 3.
Proof.
  split; [reflexivity |]. eexists _, _. split; [vm_compute; reflexivity | reflexivity].
Qed.

Lemma Scale_Apply_size_witness :
  exists mat' self',
    ScaleTransform.Apply (P:=Reference.debug) Reference.gray_scale
      (Reference.imread_impl "a.jpg") = Ok (mat', self')
    /\ cols mat' = 2 /\ rows mat' = 2 /\ channels mat' = 3.
Proof.
  apply (Scale_Apply_size (P:=Reference.debug) Reference.gray_scale
           (Reference.imread_impl "a.jpg")).
  - reflexivity.
  - vm_compute. split; [reflexivity | discriminate].
  - vm_compute. split; [reflexivity | discriminate].
  - vm_compute. lia.
  - vm_compute. discriminate.
Defined.

(** C7, counterexample: a mean image of the size of the sample but of
    another channel count is not skipped: [Apply] fails, in both builds. *)
Lemma Mean_Apply_channel_mismatch :
  Mat_size_eq (Reference.image 1) (Reference.image 3) = true
  /\ channels (Reference.image 1) <> channels (Reference.image 3)
  /\ MeanTransform.Apply (P:=Reference.release)
       {| MeanTransform.m_meanImg := Reference.image 1 |} (Reference.image 3)
     = Fail (CvException "subtract: operands differ in type")
  /\ MeanTransform.Apply (P:=Reference.debug)
       {| MeanTransform.m_meanImg := Reference.image 1 |} (Reference.image 3)
     = Fail (AssertionFailed MeanTransform.MEAN_ASSERTION).
Proof. repeat split; vm_compute; (reflexivity || discriminate). Qed.

Lemma Mean_Apply_cases_witness :
  MeanTransform.Apply (P:=Reference.debug)
    {| MeanTransform.m_meanImg := Mat_released |} (Reference.image 3)
  = Ok (Reference.image 3, {| MeanTransform.m_meanImg := Mat_released |}).
Proof.
  apply (Mean_Apply_cases (P:=Reference.debug)
           {| MeanTransform.m_meanImg := Mat_released |} (Reference.image 3)).
  - reflexivity.
  - right. by split.
Defined.

(** The example configuration with [jitterType = UniLength]. *)
Lemma unimplemented_jitter_kinds_witness :
  exists self',
    CropTransform.Init (P:=Reference.debug) (CropTransform.new 0) Reference.unilength_config
    = Ok self'
    /\ CropTransform.Apply (P:=Reference.debug) self' (Reference.image 3)
       = Fail CropTransform.JITTER_NOT_IMPLEMENTED.
Proof.
  destruct (unimplemented_jitter_kinds (P:=Reference.debug) (CropTransform.new 0)
              Reference.unilength_config CropTransform.UniLength)
    as (_ & Hinit & Happly & _).
  - left. split; reflexivity.
  - destruct (Hinit CropTransform.Random (double_of_Z_lit 1 (-1)) double_one true)
      as (self' & Hok & Hkind).
    + vm_compute. reflexivity.
    + vm_compute. reflexivity.
    + vm_compute. reflexivity.
    + vm_compute. reflexivity.
    + vm_compute. reflexivity.
    + vm_compute. reflexivity.
    + exists self'. split; [exact Hok |]. apply Happly. exact Hkind.
Defined.

(** C9, counterexample: after [SetRandomSeed 42] the crop transform of the
    example still constructs its first generator with seed 0. *)
Lemma SetRandomSeed_does_not_reach_pools :
  exists c mat' c' g,
    m_transforms (SetRandomSeed Reference.configured 42) !! 0%nat = Some (Crop c)
    /\ CropTransform.m_rngs c = []
    /\ CropTransform.Apply (P:=Reference.debug) c (Reference.imread_impl "a.jpg")
       = Ok (mat', c')
    /\ CropTransform.m_rngs c' = [g]
    /\ mt_seed g = 0
    /\ mt_seed g <> 42.
Proof.
  eexists _, _, _, _. split; [vm_compute; reflexivity |].
  split; [reflexivity |]. split; [vm_compute; reflexivity |].
  split; [reflexivity |]. split; [reflexivity | discriminate].
Qed.

Lemma SetRandomSeed_transforms_witness :
  m_seed (SetRandomSeed Reference.configured 42) = 42
  /\ m_transforms (SetRandomSeed Reference.configured 42) = m_transforms Reference.configured
  /\ Forall (fun tr => transform_seed tr = Some 0 \/ transform_seed tr = None)
       (m_transforms
          (Reference.from_Ok Reference.blank (new (P:=Reference.debug) Float32))).
Proof.
  destruct (SetRandomSeed_transforms (P:=Reference.debug) Reference.configured 42)
    as (Hseed & _ & Htr & Hnew & _).
  split; [done |]. split; [done |].
  apply (Hnew Float32). vm_compute. reflexivity.
Defined.

(** Restarting the example at epoch 0 after the first minibatch. *)
Lemma StartMinibatchLoop_keeps_mbStart_witness :
  exists self',
    StartMinibatchLoop (P:=Reference.debug) Reference.first_batch 2 0 4 = Ok self'
    /\ m_mbStart self' = 2 /\ m_epochStart self' = 0.
Proof.
  destruct (StartMinibatchLoop_keeps_mbStart (P:=Reference.debug)
              Reference.first_batch 2 0 4) as (self' & Hok & Hkeep).
  - right. split; [reflexivity |]. split; [reflexivity |]. right. reflexivity.
  - exists self'. split; [done |].
    assert (Hself : self' = Reference.from_Ok Reference.blank
                              (StartMinibatchLoop (P:=Reference.debug)
                                 Reference.first_batch 2 0 4))
      by (by rewrite Hok).
    destruct Hkeep as [Hmb Hes].
    + rewrite Hself. vm_compute. reflexivity.
    + rewrite Hmb, Hes. split; [reflexivity |]. rewrite Hself. vm_compute. reflexivity.
Defined.

(** ** The further properties on the reference platform *)

(** "Cen" against "center". *)
Lemma AreEqual_prefix_witness :
  exists b,
    AreEqual "Cen" "center" = Ok b
    /\ (b = true <-> exists t, string_tolower "center" = string_tolower "Cen" +:+ t).
Proof. apply (AreEqual_prefix "Cen" "center"). reflexivity. Defined.

Lemma ParseCropType_prefix_witness :
  CropTransform.ParseCropType "Rand" = Ok CropTransform.Random.
Proof. exact (ParseCropType_prefix "Rand" eq_refl). Defined.

Lemma ParseJitterType_prefix_witness :
  CropTransform.ParseJitterType "UNI" = Ok CropTransform.UniRatio.
Proof. exact (ParseJitterType_prefix "UNI" eq_refl). Defined.

(** A random crop configured with the ratio "0.5:1" and no [hflip]. *)
Lemma Crop_Init_post_witness :
  SFleb (CropTransform.m_cropRatioMin Reference.random_crop)
    (CropTransform.m_cropRatioMax Reference.random_crop) = true
  /\ CropTransform.m_hFlip Reference.random_crop = true.
Proof.
  destruct (Crop_Init_post (P:=Reference.debug) (CropTransform.new 0)
              Reference.random_crop Reference.crop_config) as (_ & _ & Hle & Hflip).
  - vm_compute. reflexivity.
  - split; [exact Hle | exact (Hflip eq_refl)].
Defined.

(** The default ratio "1". *)
Lemma Crop_Init_single_ratio_witness :
  exists r,
    @stof Reference.debug "1" = Ok r
    /\ CropTransform.m_cropRatioMin Reference.centre_crop = double_of_float r
    /\ CropTransform.m_cropRatioMax Reference.centre_crop = double_of_float r.
Proof.
  apply (Crop_Init_single_ratio (P:=Reference.debug) (CropTransform.new 0)
           Reference.centre_crop []).
  - discriminate.
  - reflexivity.
  - vm_compute. reflexivity.
Defined.

(** A random crop of a 2 x 3 image at ratio 1. *)
Lemma GetCropRect_ratio_one_witness :
  exists x y rng',
    CropTransform.GetCropRect (P:=Reference.debug) CropTransform.Random 2 3 double_one
      (mt19937_new 0)
    = Ok ({| rect_x := x; rect_y := y; rect_width := 2; rect_height := 2 |}, rng')
    /\ 0 <= x <= 1 /\ 0 <= y <= 0 /\ (x = 0 \/ y = 0).
Proof.
  apply (GetCropRect_ratio_one (P:=Reference.debug) CropTransform.Random 2 3
           (mt19937_new 0)).
  - vm_compute. split; [reflexivity | discriminate].
  - vm_compute. split; [reflexivity | discriminate].
Defined.

(** A random crop at ratio 1/2 of the 2 x 3 image of three channels. *)
Lemma Crop_Apply_square_witness :
  exists mat' self',
    CropTransform.Apply (P:=Reference.debug) Reference.random_crop
      (Reference.imread_impl "a.jpg") = Ok (mat', self')
    /\ rows mat' = 1 /\ cols mat' = 1 /\ channels mat' = 3
    /\ Z.of_nat (length (data mat')) = 3.
Proof.
  destruct (Crop_Apply_square (P:=Reference.debug) Reference.random_crop
              (Reference.imread_impl "a.jpg"))
    as (mat' & self' & s & q & Happly & Hq & _ & _ & Hdy & Hrows & Hcols & _ & Hch & Hlen).
  - reflexivity.
  - vm_compute. reflexivity.
  - vm_compute. reflexivity.
  - vm_compute. split; [reflexivity | discriminate].
  - vm_compute. split; [reflexivity | discriminate].
  - vm_compute in Hq. injection Hq as <-.
    assert (Hs : s = 1).
    { apply (Hdy 1 1).
      - vm_compute. split; [discriminate |]. split; [discriminate | reflexivity].
      - vm_compute. discriminate.
      - vm_compute. reflexivity. }
    rewrite Hs in Hrows, Hcols, Hlen.
    exists mat', self'. split; [exact Happly |]. split; [exact Hrows |].
    split; [exact Hcols |]. split; [exact Hch |].
    apply Hlen; [vm_compute; discriminate | reflexivity].
Defined.


Lemma Scale_Apply_depth_witness :
  depth (fst Reference.scaled) = CV_32F.
Proof.
  apply (Scale_Apply_depth (P:=Reference.debug) Reference.gray_scale
           (snd Reference.scaled) (Reference.imread_impl "a.jpg") (fst Reference.scaled)).
  - vm_compute. reflexivity.
  - vm_compute. split; [discriminate | reflexivity].
  - left. reflexivity.
Defined.

(** The mean file of twelve values in one row, declared as 3 x 2 x 2. *)
Lemma Mean_Init_file_witness :
  MeanTransform.Init (P:=Reference.with_mean_file) MeanTransform.new Reference.mean_config
  = Ok {| MeanTransform.m_meanImg :=
            {| rows := 2; cols := 2; depth := CV_32F; channels := 3;
               data := data Reference.stored_mean |} |}.
Proof.
  destruct (Mean_Init_file (P:=Reference.with_mean_file) MeanTransform.new
              Reference.mean_config Reference.stored_mean 3 2 2) as [Hok _].
  - discriminate.
  - reflexivity.
  - reflexivity.
  - reflexivity.
  - reflexivity.
  - vm_compute. discriminate.
  - vm_compute. discriminate.
  - vm_compute. discriminate.
  - vm_compute. discriminate.
  - vm_compute. discriminate.
  - vm_compute. discriminate.
  - apply Hok. reflexivity.
Defined.

(** [Init] of the example. *)
Lemma Init_appends_files_witness :
  exists mapPath mapFile,
    config_required Reference.config "file" = Ok mapPath
    /\ @ifstream_read Reference.debug mapPath = Some mapFile
    /\ files Reference.configured
       = files Reference.constructed ++ omap line_entry (file_lines mapFile)
    /\ length (files Reference.configured)
       = (length (files Reference.constructed) + length (file_lines mapFile))%nat
    /\ m_epochStart Reference.configured = 0 /\ m_mbStart Reference.configured = 0.
Proof.
  apply (Init_appends_files (P:=Reference.debug) Reference.constructed
           Reference.configured Reference.config).
  vm_compute. reflexivity.
Defined.

Lemma Init_featDim_witness :
  exists crop scale mean,
    m_transforms Reference.configured = [Crop crop; Scale scale; Mean mean]
    /\ m_featDim Reference.configured
       = size_mul (size_mul (ScaleTransform.m_imgWidth scale)
                     (ScaleTransform.m_imgHeight scale))
           (ScaleTransform.m_imgChannels scale)
    /\ 0 < m_featDim Reference.configured <= (SIZE_MOD - 1) / 2
    /\ ScaleTransform.m_dataType scale = CV_32F
    /\ elemType Reference.configured = Float32.
Proof.
  apply (Init_featDim (P:=Reference.debug) Float32 Reference.constructed
           Reference.configured Reference.config).
  - vm_compute. reflexivity.
  - vm_compute. reflexivity.
Defined.

(** The example has [randomize = none]. *)
Lemma Init_randomize_witness :
  m_imgListRand Reference.configured = false.
Proof.
  assert (Hinit : Init (P:=Reference.debug) Reference.constructed Reference.config
                  = Ok Reference.configured) by (vm_compute; reflexivity).
  exact (Init_randomize (P:=Reference.debug) Reference.constructed Reference.configured
           Reference.config Hinit eq_refl).
Defined.

(** Starting the example: minibatches of 2, epoch 0 of 4 samples. *)
Lemma StartMinibatchLoop_post_witness :
  buffers_fit Reference.started
  /\ m_epochSize Reference.started = 4
  /\ files Reference.started = files Reference.configured.
Proof.
  destruct (StartMinibatchLoop_post (P:=Reference.debug) Reference.configured
              Reference.started 2 0 4) as (Hfit & Hsize & _ & Hkeep).
  - vm_compute. reflexivity.
  - split; [exact Hfit |]. split; [exact Hsize |]. apply Hkeep. reflexivity.
Defined.

(** With the reference shuffle, which reverses the list. *)
Lemma SetRandomSeed_shuffle_witness :
  files Reference.reseeded = rev (files Reference.shuffling)
  /\ m_rng Reference.reseeded = {| mt_seed := 42; mt_drawn := 4 |}.
Proof.
  apply (SetRandomSeed_shuffle (P:=Reference.debug) Reference.shuffling
           Reference.reseeded 42 2 0 4).
  - reflexivity.
  - vm_compute. reflexivity.
Defined.

(** The example, started on epoch 0. *)
Lemma first_minibatch_has_data_witness :
  m_mbStart Reference.started = 0
  /\ exhausted Reference.started = false
  /\ forall b self' matrices',
       GetMinibatch (P:=Reference.debug) Reference.started Reference.matrices
       = Ok (b, self', matrices') -> b = true.
Proof.
  apply (first_minibatch_has_data (P:=Reference.debug) Reference.constructed
           Reference.configured Reference.started Reference.config
           2 0 4 Reference.matrices).
  - vm_compute. reflexivity.
  - vm_compute. reflexivity.
  - vm_compute. split; reflexivity.
  - vm_compute. split; reflexivity.
Defined.

(** The first minibatch of the example. *)
Lemma GetMinibatch_progress_witness :
  m_mbStart Reference.started < m_mbStart Reference.first_batch
    <= files_size Reference.started
  /\ m_pMBLayout Reference.first_batch = (2, 1, false)
  /\ files Reference.first_batch = files Reference.started.
Proof.
  destruct (GetMinibatch_progress (P:=Reference.debug) Reference.started
              Reference.first_batch Reference.matrices Reference.first_matrices)
    as (Hstep & _ & Hlayout & Hfiles & _).
  - vm_compute. reflexivity.
  - left. reflexivity.
  - vm_compute. discriminate.
  - reflexivity.
  - split; [exact Hstep |]. split; [exact Hlayout | exact Hfiles].
Defined.

Lemma GetMinibatch_matrices_witness :
  exists features labels,
    Reference.first_matrices !! "features" = Some features
    /\ numRows features = 12 /\ numCols features = 2
    /\ Reference.first_matrices !! "labels" = Some labels
    /\ numRows labels = 2 /\ numCols labels = 2.
Proof.
  destruct (GetMinibatch_matrices (P:=Reference.debug) Reference.started
              Reference.first_batch Reference.matrices Reference.first_matrices)
    as (_ & Hfeat & labels & Hl & Hlr & Hlc & _).
  - vm_compute. reflexivity.
  - destruct Hfeat as (features & Hf & Hfr & Hfc & _); [discriminate |].
    exists features, labels.
    split; [exact Hf |]. split; [exact Hfr |]. split; [exact Hfc |].
    split; [exact Hl |]. split; [exact Hlr | exact Hlc].
Defined.

(** The second iteration of the first minibatch of the example: the image
    b.jpg with label 1. *)
Lemma fill_slot_in_bounds_witness :
  exists fb' lb',
    fill_slot (P:=Reference.debug) Reference.started
      (m_transforms Reference.started, m_featBuf Reference.started,
       m_labBuf Reference.started) 1
    = Ok (snd Reference.second_image, fb', lb')
    /\ length fb' = 24%nat /\ length lb' = 4%nat
    /\ lb' = <[3%nat := elem_of_int Float32 1]> (m_labBuf Reference.started).
Proof.
  destruct (fill_slot_in_bounds (P:=Reference.debug) Reference.started
              (m_transforms Reference.started) (snd Reference.second_image)
              (m_featBuf Reference.started) (m_labBuf Reference.started) 1
              "b.jpg" 1 (fst Reference.second_image))
    as (fb' & lb' & Hslot & Hlf & Hll & _ & _ & _ & _ & _ & Hlb).
  - split; reflexivity.
  - reflexivity.
  - reflexivity.
  - vm_compute. discriminate.
  - vm_compute. split; [discriminate | reflexivity].
  - reflexivity.
  - vm_compute. discriminate.
  - vm_compute. discriminate.
  - reflexivity.
  - reflexivity.
  - vm_compute. reflexivity.
  - vm_compute. reflexivity.
  - vm_compute. discriminate.
  - vm_compute. split; [discriminate | reflexivity].
  - exists fb', lb'. split; [exact Hslot |]. split; [exact Hlf |].
    split; [exact Hll | exact Hlb].
Defined.

(** After the second minibatch the example is at the end of its data. *)
Lemma DataEnd_GetMinibatch_witness :
  GetMinibatch (P:=Reference.debug) Reference.second_batch Reference.matrices
  = Ok (false, Reference.second_batch, Reference.matrices).
Proof.
  destruct (DataEnd_GetMinibatch (P:=Reference.debug) Reference.second_batch
              Reference.matrices) as (epoch & set & _ & Hset & Hiff).
  - eexists. reflexivity.
  - eexists. reflexivity.
  - right. reflexivity.
  - apply Hiff. right. vm_compute in Hset. by injection Hset as <-.
Defined.

(** The features of the first minibatch: the two images, twelve elements
    each. *)
Lemma GetMinibatch_features_witness :
  exists features imgs,
    Reference.first_matrices !! "features" = Some features
    /\ Z.of_nat (length imgs) = 2
    /\ numRows features = 12
    /\ numCols features = 2
    /\ values features = feature_columns 12 imgs
    /\ Z.of_nat (length (values features)) = 24
    /\ (forall (j : nat) (img : Mat),
          imgs !! j = Some img ->
          exists path label pool pool',
            files Reference.started !! Z.to_nat (0 + Z.of_nat j) = Some (path, label)
            /\ same_settings pool (m_transforms Reference.started)
            /\ Apply_all (P:=Reference.debug) pool (Reference.imread_impl path)
               = Ok (img, pool')
            /\ 12 <= Z.of_nat (length (data img)))
    /\ same_settings (m_transforms Reference.first_batch)
         (m_transforms Reference.started).
Proof.
  apply (GetMinibatch_features (P:=Reference.debug) Reference.started
           Reference.first_batch Reference.matrices Reference.first_matrices).
  - vm_compute. reflexivity.
  - vm_compute. discriminate.
  - reflexivity.
  - reflexivity.
  - vm_compute. discriminate.
  - reflexivity.
  - discriminate.
Defined.

(** The example at the end of its data, without the labels matrix. *)
Lemma GetMinibatch_missing_matrix_witness :
  exists matrices',
    GetMinibatch (P:=Reference.debug) Reference.second_batch
      (<["features" := Reference.empty_matrix]> ∅)
    = Ok (false, Reference.second_batch, matrices').
Proof.
  destruct (GetMinibatch_missing_matrix (P:=Reference.debug) Reference.second_batch
              (<["features" := Reference.empty_matrix]> ∅)) as (_ & Hend & _).
  - right. reflexivity.
  - destruct Hend as (matrices' & H & _).
    + reflexivity.
    + right. split; [eexists; reflexivity | reflexivity].
    + by exists matrices'.
Defined.

(** The first minibatch of the example with its second iteration run
    first. *)
Lemma fill_slots_any_order_witness :
  length (snd (fst Reference.reversed_slots)) = length (m_featBuf Reference.started)
  /\ same_settings (fst (fst Reference.reversed_slots)) (m_transforms Reference.started).
Proof.
  destruct (fill_slots_any_order (P:=Reference.debug) Reference.started [1; 0] 2
              (m_transforms Reference.started) (fst (fst Reference.reversed_slots))
              (m_featBuf Reference.started) (snd (fst Reference.reversed_slots))
              (m_labBuf Reference.started) (snd Reference.reversed_slots))
    as (Hlen & Hsame & _).
  - vm_compute. discriminate.
  - vm_compute. discriminate.
  - reflexivity.
  - reflexivity.
  - apply (bool_decide_unpack _). vm_compute. exact I.
  - intros i Hi. apply elem_of_cons in Hi as [-> | Hi]; [lia |].
    apply list_elem_of_singleton in Hi as ->. lia.
  - vm_compute. reflexivity.
  - split; [exact Hlen | exact Hsame].
Defined.

(** The example with a minibatch size of 0, assertions compiled out. *)
Lemma GetMinibatch_zero_size_witness :
  exists self' matrices',
    GetMinibatch (P:=Reference.release) Reference.stalled Reference.matrices
    = Ok (true, self', matrices')
    /\ m_mbStart self' = m_mbStart Reference.stalled
    /\ m_mbSize self' = 0
    /\ m_pMBLayout self' = (0, 1, false)
    /\ exhausted self' = false.
Proof.
  apply (GetMinibatch_zero_size (P:=Reference.release) Reference.stalled
           Reference.matrices).
  - reflexivity.
  - reflexivity.
  - eexists. reflexivity.
  - eexists. reflexivity.
  - vm_compute. split; [discriminate | reflexivity].
  - reflexivity.
Defined.
